(** * Polar H10 research stack: the zip/CSV ingestion layer and the session model

    A shallow embedding of [python-client/urap_polar/zip_loader.py],
    [python-client/urap_polar/session.py] and
    [python-client/urap_polar/client.py].

    - Python text is [string]; a character is a code point below 256.
    - Python [int] is [Z]; Python [float] is the kernel's binary64 [float].
    - A Python dict is a [gmap string pyval]; [d.get(k, v)] is [dget].
    - Code that can raise returns [result]: [Ok v] or [Raise e].
    - A zip archive is the list of its entries (name, decoded text), in
      the order of [namelist()]; the decoding of the bytes is not part of
      the model.
    - The library functions the two files call ([str] methods, [int],
      [float], [csv.reader], [datetime]) are modelled first, each next to
      the Python behaviour it follows. *)

From Stdlib Require Import ZArith List Ascii String Bool Lia Sorting.Sorted Sorting.Permutation.
From Corelib Require Import PrimFloat SpecFloat FloatOps.
From stdpp Require Import base option list gmap strings pretty.

Local Open Scope Z_scope.
Local Open Scope string_scope.

(** ** Exceptions and the error monad *)

Inductive pyexc :=
| ValueError (msg : string)
| TypeError (msg : string)
| OverflowError (msg : string)
| AttributeError (msg : string)
| KeyError (key : string).

Inductive result (A : Type) :=
| Ok (v : A)
| Raise (e : pyexc).
Arguments Ok {A} v.
Arguments Raise {A} e.

#[global] Instance result_ret : MRet result := fun A v => Ok v.
#[global] Instance result_bind : MBind result := fun A B k m =>
  match m with
  | Ok v => k v
  | Raise e => Raise e
  end.

(** A loop or comprehension whose body can raise: the first exception ends
    it. *)
Fixpoint rmap {A B} (f : A -> result B) (l : list A) : result (list B) :=
  match l with
  | [] => Ok []
  | x :: l' => y ← f x; ys ← rmap f l'; Ok (y :: ys)
  end.

Definition is_ok {A} (m : result A) : bool :=
  match m with Ok _ => true | Raise _ => false end.

(** ** Python [str] methods *)

Module Str.

(** [c.isspace()] for a code point below 256. *)
Definition isspace (c : ascii) : bool :=
  let n := N_of_ascii c in
  (((9 <=? n) && (n <=? 13)) || ((28 <=? n) && (n <=? 32))
   || (n =? 133) || (n =? 160))%N.

Definition isdigit (c : ascii) : bool :=
  let n := N_of_ascii c in ((48 <=? n) && (n <=? 57))%N.

Definition digit_val (c : ascii) : Z := Z.of_N (N_of_ascii c) - 48.

Fixpoint lstrip (s : string) : string :=
  match s with
  | String c s' => if isspace c then lstrip s' else s
  | EmptyString => EmptyString
  end.

Fixpoint rstrip (s : string) : string :=
  match s with
  | String c s' =>
      match rstrip s' with
      | EmptyString => if isspace c then EmptyString else String c EmptyString
      | r => String c r
      end
  | EmptyString => EmptyString
  end.

Definition strip (s : string) : string := rstrip (lstrip s).

(** [s.rstrip(c)] for a one-character set [c]. *)
Fixpoint rstrip_char (c : ascii) (s : string) : string :=
  match s with
  | String a s' =>
      match rstrip_char c s' with
      | EmptyString => if Ascii.eqb a c then EmptyString else String a EmptyString
      | r => String a r
      end
  | EmptyString => EmptyString
  end.

Fixpoint startswith (s p : string) : bool :=
  match p, s with
  | EmptyString, _ => true
  | String a p', String b s' => if Ascii.eqb a b then startswith s' p' else false
  | String _ _, EmptyString => false
  end.

Fixpoint drop (n : nat) (s : string) : string :=
  match n, s with
  | O, _ => s
  | S n', String _ s' => drop n' s'
  | S _, EmptyString => EmptyString
  end.

Fixpoint take (n : nat) (s : string) : string :=
  match n, s with
  | O, _ => EmptyString
  | S n', String c s' => String c (take n' s')
  | S _, EmptyString => EmptyString
  end.

Definition endswith (s p : string) : bool :=
  (String.length p <=? String.length s)%nat
  && String.eqb (drop (String.length s - String.length p) s) p.

(** [sub in s] *)
Fixpoint contains (s sub : string) : bool :=
  startswith s sub
  || match s with
     | String _ s' => contains s' sub
     | EmptyString => false
     end.

(** [s.find(c)] for a one-character needle: [None] stands for -1. *)
Fixpoint find (s : string) (c : ascii) : option nat :=
  match s with
  | EmptyString => None
  | String a s' => if Ascii.eqb a c then Some O else S <$> find s' c
  end.

(** [s.split(c)] for a one-character separator: never empty. *)
Fixpoint split (c : ascii) (s : string) : list string :=
  match s with
  | EmptyString => [EmptyString]
  | String a s' =>
      if Ascii.eqb a c then EmptyString :: split c s'
      else match split c s' with
           | f :: fs => String a f :: fs
           | [] => [String a EmptyString]
           end
  end.

(** [sep.join(l)] *)
Fixpoint join (sep : string) (l : list string) : string :=
  match l with
  | [] => EmptyString
  | [x] => x
  | x :: l' => x ++ sep ++ join sep l'
  end.

(** [s.replace(old, new)] for a non-empty [old]: every non-overlapping
    occurrence, leftmost first. *)
Fixpoint replace_fuel (fuel : nat) (old new s : string) : string :=
  match fuel with
  | O => s
  | S fuel' =>
      match s with
      | EmptyString => EmptyString
      | String c s' =>
          if startswith s old
          then new ++ replace_fuel fuel' old new (drop (String.length old) s)
          else String c (replace_fuel fuel' old new s')
      end
  end.

Definition replace (old new s : string) : string :=
  replace_fuel (String.length s) old new s.

(** Line boundaries of [str.splitlines()] among code points below 256. *)
Definition is_linebreak (c : ascii) : bool :=
  let n := N_of_ascii c in
  (((10 <=? n) && (n <=? 13)) || ((28 <=? n) && (n <=? 30)) || (n =? 133))%N.

(** [s.splitlines()] is [splitlines s]: the accumulator [cur] holds the current line reversed;
    a carriage return followed by a line feed is one boundary; no empty last
    line is produced after a final boundary. *)
Fixpoint splitlines_aux (cur : list ascii) (s : string) : list string :=
  match s with
  | EmptyString =>
      match cur with
      | [] => []
      | _ => [string_of_list_ascii (rev cur)]
      end
  | String c s' =>
      if is_linebreak c then
        let rest :=
          match s' with
          | String c' s'' =>
              if Ascii.eqb c "013" && Ascii.eqb c' "010" then s'' else s'
          | EmptyString => s'
          end in
        string_of_list_ascii (rev cur) :: splitlines_aux [] rest
      else splitlines_aux (c :: cur) s'
  end.

Definition splitlines (s : string) : list string := splitlines_aux [] s.

End Str.

(** ** Python numbers: [int(s)], [float(s)], [int(x)], [float(n)] *)

Module Num.

(** The white space [int] and [float] skip around a number: the ASCII white
    space (tab to carriage return, and the space) and, from code point 128
    on, the next-line control and the no-break space, which are turned into
    spaces first. The separators U+001C to U+001F, which [str.strip] removes,
    are not skipped: [int] and [float] raise on them. *)
Definition isspace (c : ascii) : bool :=
  let n := N_of_ascii c in
  (((9 <=? n) && (n <=? 13)) || (n =? 32) || (n =? 133) || (n =? 160))%N.

Fixpoint lstrip (s : string) : string :=
  match s with
  | String c s' => if isspace c then lstrip s' else s
  | EmptyString => EmptyString
  end.

Fixpoint rstrip (s : string) : string :=
  match s with
  | String c s' =>
      match rstrip s' with
      | EmptyString => if isspace c then EmptyString else String c EmptyString
      | r => String c r
      end
  | EmptyString => EmptyString
  end.

Definition strip (s : string) : string := rstrip (lstrip s).

(** A run of decimal digits in which single underscores may separate digits
    (the grouping Python accepts in numeric text): [seen] tells whether the
    previous character was a digit; the result is the value and the number of
    digits read. *)
Fixpoint digits (seen : bool) (acc : Z) (n : Z) (s : string) : option (Z * Z) :=
  match s with
  | EmptyString => if seen then Some (acc, n) else None
  | String c s' =>
      if Str.isdigit c then digits true (10 * acc + Str.digit_val c) (n + 1) s'
      else if Ascii.eqb c "_" && seen then digits false acc n s'
      else None
  end.

Definition split_sign (s : string) : bool * string :=
  match s with
  | String "-" s' => (true, s')
  | String "+" s' => (false, s')
  | _ => (false, s)
  end.

(** [int(s)] for base 10 as an option: surrounding white space as [int]
    skips it, an optional sign, digits. The limit that interpreters from 3.11
    on put on the number of digits is not modelled. *)
Definition parse_int (s : string) : option Z :=
  let '(neg, body) := split_sign (strip s) in
  match digits false 0 0 body with
  | Some (v, _) => Some (if neg then - v else v)
  | None => None
  end.

Definition int_of_str (s : string) : result Z :=
  match parse_int s with
  | Some v => Ok v
  | None => Raise (ValueError "invalid literal for int() with base 10")
  end.

(** The binary64 value nearest to [n / d] (ties to even). *)
Definition float_of_ratio (neg : bool) (n : Z) (d : positive) : float :=
  match n with
  | Zpos p => SF2Prim (SFdiv prec emax (S754_finite neg p 0) (S754_finite false d 0))
  | _ => SF2Prim (S754_zero neg)
  end.

(** The binary64 value nearest to [m * 10 ^ e], where [m] has at most [nd]
    digits. Beyond 400 decimal orders the result is already known to be
    infinite or zero, so the power is not computed there. *)
Definition float_of_decimal (neg : bool) (m nd e : Z) : float :=
  if (m =? 0)%Z then SF2Prim (S754_zero neg)
  else if (0 <=? e)%Z then
    if (400 <? e)%Z then SF2Prim (S754_infinity neg)
    else float_of_ratio neg (m * 10 ^ e) 1
  else
    if (e + nd <? -400)%Z then SF2Prim (S754_zero neg)
    else float_of_ratio neg m (Z.to_pos (10 ^ (- e))).

Definition lower (c : ascii) : ascii :=
  let n := N_of_ascii c in
  if ((65 <=? n) && (n <=? 90))%N then ascii_of_N (n + 32) else c.

Fixpoint lower_str (s : string) : string :=
  match s with
  | EmptyString => EmptyString
  | String c s' => String (lower c) (lower_str s')
  end.

(** The characters of [s] up to the first one satisfying [stop], and the
    rest from that character on. *)
Fixpoint span_until (stop : ascii -> bool) (s : string) : string * string :=
  match s with
  | EmptyString => (EmptyString, EmptyString)
  | String c s' =>
      if stop c then (EmptyString, s)
      else let '(a, b) := span_until stop s' in (String c a, b)
  end.

Definition is_exp_mark (c : ascii) : bool := Ascii.eqb c "e" || Ascii.eqb c "E".
Definition is_point (c : ascii) : bool := Ascii.eqb c ".".

(** Underscores of a float literal must each stand between two digits of the
    whole text; they are then removed. *)
Fixpoint drop_underscores (prev : ascii) (s : string) : option string :=
  match s with
  | EmptyString => if Ascii.eqb prev "_" then None else Some EmptyString
  | String c s' =>
      if Ascii.eqb c "_" then
        if Str.isdigit prev then drop_underscores c s' else None
      else if Ascii.eqb prev "_" && negb (Str.isdigit c) then None
      else String c <$> drop_underscores c s'
  end.

(** Plain digits, no underscore. *)
Fixpoint plain_digits (acc n : Z) (s : string) : Z * Z :=
  match s with
  | EmptyString => (acc, n)
  | String c s' => plain_digits (10 * acc + Str.digit_val c) (n + 1) s'
  end.

Fixpoint all_digits (s : string) : bool :=
  match s with
  | EmptyString => true
  | String c s' => Str.isdigit c && all_digits s'
  end.

(** The decimal form [digits? (. digits?)? ((e|E) sign? digits)?] with at
    least one mantissa digit. *)
Definition parse_decimal (neg : bool) (s : string) : option float :=
  let '(mant, ex) := span_until is_exp_mark s in
  let '(ip, fp0) := span_until is_point mant in
  let fp := match fp0 with String _ r => r | EmptyString => EmptyString end in
  if negb (all_digits ip && all_digits fp) then None
  else if (String.length ip + String.length fp =? 0)%nat then None
  else
    let '(m, nd) := plain_digits 0 0 (ip ++ fp) in
    let fl := Z.of_nat (String.length fp) in
    match ex with
    | EmptyString => Some (float_of_decimal neg m nd (- fl))
    | String _ ex' =>
        let '(eneg, ed) := split_sign ex' in
        if all_digits ed && negb (String.eqb ed EmptyString) then
          let '(ev, _) := plain_digits 0 0 ed in
          Some (float_of_decimal neg m nd ((if eneg then - ev else ev) - fl))
        else None
    end.

(** [float(s)] as an option: surrounding white space, an optional sign,
    then [inf], [infinity], [nan] in any letter case or a decimal form. *)
Definition parse_float (s : string) : option float :=
  match drop_underscores "000" (strip s) with
  | None => None
  | Some t =>
      let '(neg, body) := split_sign t in
      let low := lower_str body in
      if String.eqb low "inf" || String.eqb low "infinity"
      then Some (SF2Prim (S754_infinity neg))
      else if String.eqb low "nan" then Some nan
      else parse_decimal neg body
  end.

Definition float_of_str (s : string) : result float :=
  match parse_float s with
  | Some v => Ok v
  | None => Raise (ValueError "could not convert string to float")
  end.

(** [float(n)] for an [int] *)
Definition float_of_int (n : Z) : result float :=
  match binary_normalize prec emax n 0 false with
  | S754_infinity _ => Raise (OverflowError "int too large to convert to float")
  | sf => Ok (SF2Prim sf)
  end.

(** An [int] where it meets a [float] in arithmetic; the counts and zeros
    converted here are small. *)
Definition of_Z (n : Z) : float := SF2Prim (binary_normalize prec emax n 0 false).

(** [int(x)] for a [float]: truncation towards zero. *)
Definition int_of_float (x : float) : result Z :=
  match Prim2SF x with
  | S754_nan => Raise (ValueError "cannot convert float NaN to integer")
  | S754_infinity _ => Raise (OverflowError "cannot convert float infinity to integer")
  | S754_zero _ => Ok 0
  | S754_finite s m e =>
      let a := if (0 <=? e)%Z then Z.shiftl (Zpos m) e else Z.shiftr (Zpos m) (- e) in
      Ok (if s then - a else a)
  end.

(** [sum(l)] for floats: the additions from the left, starting at 0 (the
    compensation of rounding errors that recent interpreters add is not
    modelled). *)
Definition fsum (l : list float) : float := fold_left PrimFloat.add l (of_Z 0).

End Num.

(** ** Python [datetime]

    The fields of a [datetime] and, for an aware one, the offset of its fixed
    zone east of UTC in microseconds. [fromisoformat] accepts
    [YYYY-MM-DD[*HH[:MM[:SS[.fff[fff]]]][+HH:MM[:SS[.ffffff]]]]], the grammar
    of Python 3.7 to 3.10, digits being ASCII digits; a text that ends with
    the separator after the date is refused. Interpreters from 3.11 on read
    every text of this grammar the same way and accept further forms (other
    numbers of fraction digits, a [Z] suffix, basic and week dates), which
    are [None] here. *)

Module DT.

Record datetime := mk {
  year : Z; month : Z; day : Z;
  hour : Z; minute : Z; second : Z; microsecond : Z;
  utcoffset : option Z
}.

(** [datetime.min] *)
Definition min : datetime := mk 1 1 1 0 0 0 0 None.

Definition is_leap (y : Z) : bool :=
  ((y mod 4 =? 0) && (negb (y mod 100 =? 0) || (y mod 400 =? 0)))%Z.

Definition days_in_month (y m : Z) : Z :=
  if ((m =? 2)%Z && is_leap y)%bool then 29
  else nth (Z.to_nat m) [0; 31; 28; 31; 30; 31; 30; 31; 31; 30; 31; 30; 31] 0.

Definition days_before_year (y : Z) : Z :=
  let p := y - 1 in p * 365 + p / 4 - p / 100 + p / 400.

Definition days_before_month (y m : Z) : Z :=
  nth (Z.to_nat m) [0; 0; 31; 59; 90; 120; 151; 181; 212; 243; 273; 304; 334] 0
  + (if ((2 <? m)%Z && is_leap y)%bool then 1 else 0).

Definition ymd2ord (y m d : Z) : Z :=
  days_before_year y + days_before_month y m + d.

Definition day_us : Z := 86400 * 1000000.

(** What the constructors [datetime(...)] and [timezone(...)] accept. *)
Definition valid (d : datetime) : bool :=
  ((1 <=? year d) && (year d <=? 9999) && (1 <=? month d) && (month d <=? 12)
   && (1 <=? day d) && (day d <=? days_in_month (year d) (month d))
   && (0 <=? hour d) && (hour d <=? 23) && (0 <=? minute d) && (minute d <=? 59)
   && (0 <=? second d) && (second d <=? 59)
   && (0 <=? microsecond d) && (microsecond d <=? 999999)
   && match utcoffset d with
      | Some o => (- day_us <? o) && (o <? day_us)
      | None => true
      end)%Z.

(** Seconds and microseconds of the fields, counted from 0001-01-01T00:00:00. *)
Definition field_seconds (d : datetime) : Z :=
  (ymd2ord (year d) (month d) (day d) - 1) * 86400
  + hour d * 3600 + minute d * 60 + second d.

Definition field_us (d : datetime) : Z :=
  field_seconds d * 1000000 + microsecond d.

(** The instant on the UTC scale, for an aware datetime with offset [o]. *)
Definition utc_us (d : datetime) (o : Z) : Z := field_us d - o.

(** [a < b]: a naive and an aware datetime do not compare. *)
Definition lt (a b : datetime) : result bool :=
  match utcoffset a, utcoffset b with
  | None, None => Ok (field_us a <? field_us b)%Z
  | Some oa, Some ob => Ok (utc_us a oa <? utc_us b ob)%Z
  | _, _ => Raise (TypeError "can't compare offset-naive and offset-aware datetimes")
  end.

(** [max(l)] and [min(l)] for a non-empty list: the candidate changes when
    an element is strictly greater (smaller) than it. *)
Fixpoint max_from (cur : datetime) (l : list datetime) : result datetime :=
  match l with
  | [] => Ok cur
  | x :: l' => b ← lt cur x; max_from (if (b : bool) then x else cur) l'
  end.

Fixpoint min_from (cur : datetime) (l : list datetime) : result datetime :=
  match l with
  | [] => Ok cur
  | x :: l' => b ← lt x cur; min_from (if (b : bool) then x else cur) l'
  end.

Definition max_of (l : list datetime) : result datetime :=
  match l with
  | [] => Raise (ValueError "max() arg is an empty sequence")
  | x :: l' => max_from x l'
  end.

Definition min_of (l : list datetime) : result datetime :=
  match l with
  | [] => Raise (ValueError "min() arg is an empty sequence")
  | x :: l' => min_from x l'
  end.

(** [(a - b)] as a number of microseconds. *)
Definition sub (a b : datetime) : result Z :=
  match utcoffset a, utcoffset b with
  | None, None => Ok (field_us a - field_us b)
  | Some oa, Some ob => Ok (utc_us a oa - utc_us b ob)
  | _, _ => Raise (TypeError "can't subtract offset-naive and offset-aware datetimes")
  end.

(** [timedelta.total_seconds()] of a difference of [us] microseconds. *)
Definition total_seconds (us : Z) : float :=
  Num.float_of_ratio (us <? 0)%Z (Z.abs us) 1000000.

(** The epoch 1970-01-01T00:00:00 in seconds from 0001-01-01. *)
Definition epoch_seconds : Z := 719162 * 86400.

Section LocalZone.

(** The zone of the machine, taken as a fixed offset east of UTC in seconds.
    [localtime] followed by the range check of the year. The [ValueError]
    of the check names the year in the interpreter ([year 0 is out of range]
    below the range, [year 10000 is out of range] above it); the model keeps
    one text for both sides. *)
Variable local_offset : Z.

Definition seconds_in_range (t : Z) : bool :=
  ((0 <=? t) && (t <? days_before_year 10000 * 86400))%Z.

Definition local (u : Z) : result Z :=
  if seconds_in_range (u + local_offset) then Ok (u + local_offset)
  else Raise (ValueError "year is out of range").

(** The search for the UTC instant [u] with [local u = t], as [_mktime]
    does it for a datetime that is not in a fold: the second solution is
    looked for a day earlier. *)
Definition local_to_seconds (t : Z) : result Z :=
  lt0 ← local t;
  let a := lt0 - t in
  let u1 := t - a in
  t1 ← local u1;
  b ← (if (t1 =? t)%Z
       then lt2 ← local (u1 - 24 * 3600); Ok (lt2 - (u1 - 24 * 3600))
       else Ok (t1 - u1));
  if ((t1 =? t) && (a =? b))%Z then Ok u1
  else
    let u2 := t - b in
    t2 ← local u2;
    if (t2 =? t)%Z then Ok u2
    else if (t1 =? t)%Z then Ok u1
    else Ok (Z.max u1 u2).

(** [d.timestamp()] *)
Definition timestamp (d : datetime) : result float :=
  match utcoffset d with
  | Some o => Ok (total_seconds (utc_us d o - epoch_seconds * 1000000))
  | None =>
      u ← local_to_seconds (field_seconds d);
      Ok (PrimFloat.add (Num.of_Z (u - epoch_seconds))
            (PrimFloat.div (Num.of_Z (microsecond d)) (Num.of_Z 1000000)))
  end.

End LocalZone.

(** *** Text form *)

Definition digit_char (n : Z) : ascii := ascii_of_N (Z.to_N (48 + n mod 10)).

(** [n] in exactly [w] decimal digits. *)
Fixpoint pad (w : nat) (n : Z) : string :=
  match w with
  | O => EmptyString
  | S w' => pad w' (n / 10) ++ String (digit_char n) EmptyString
  end.

Definition format_offset (o : Z) : string :=
  let a := Z.abs o in
  let us := a mod 1000000 in
  let s := a / 1000000 in
  (if (o <? 0)%Z then "-" else "+")
  ++ pad 2 (s / 3600) ++ ":" ++ pad 2 (s / 60 mod 60)
  ++ (if ((s mod 60 =? 0) && (us =? 0))%Z then ""
      else ":" ++ pad 2 (s mod 60) ++ (if (us =? 0)%Z then "" else "." ++ pad 6 us)).

(** [d.isoformat()] *)
Definition isoformat (d : datetime) : string :=
  pad 4 (year d) ++ "-" ++ pad 2 (month d) ++ "-" ++ pad 2 (day d) ++ "T"
  ++ pad 2 (hour d) ++ ":" ++ pad 2 (minute d) ++ ":" ++ pad 2 (second d)
  ++ (if (microsecond d =? 0)%Z then "" else "." ++ pad 6 (microsecond d))
  ++ match utcoffset d with
     | Some o => format_offset o
     | None => ""
     end.

(** Exactly [n] digits at the head of [s]: their value and the rest. *)
Definition fixed_digits (n : nat) (s : string) : option (Z * string) :=
  let h := Str.take n s in
  if ((String.length h =? n)%nat && Num.all_digits h)%bool
  then Some (fst (Num.plain_digits 0 0 h), Str.drop n s)
  else None.

Definition expect (c : ascii) (s : string) : option string :=
  match s with
  | String a s' => if Ascii.eqb a c then Some s' else None
  | EmptyString => None
  end.

Definition parse_isoformat_date (s : string) : option (Z * Z * Z) :=
  '(y, s1) ← fixed_digits 4 s;
  s2 ← expect "-" s1;
  '(m, s3) ← fixed_digits 2 s2;
  s4 ← expect "-" s3;
  '(d, s5) ← fixed_digits 2 s4;
  if String.eqb s5 EmptyString then Some (y, m, d) else None.

(** [HH[:MM[:SS[.fff[fff]]]]] *)
Definition parse_fraction (s : string) : option Z :=
  match s with
  | EmptyString => Some 0
  | String c f =>
      if negb (Ascii.eqb c ".") then None
      else if negb (Num.all_digits f) then None
      else if (String.length f =? 3)%nat then Some (fst (Num.plain_digits 0 0 f) * 1000)
      else if (String.length f =? 6)%nat then Some (fst (Num.plain_digits 0 0 f))
      else None
  end.

Definition parse_hh_mm_ss_ff (s : string) : option (Z * Z * Z * Z) :=
  '(h, s1) ← fixed_digits 2 s;
  match s1 with
  | EmptyString => Some (h, 0, 0, 0)
  | _ =>
      s2 ← expect ":" s1;
      '(m, s3) ← fixed_digits 2 s2;
      match s3 with
      | EmptyString => Some (h, m, 0, 0)
      | _ =>
          s4 ← expect ":" s3;
          '(sec, s5) ← fixed_digits 2 s4;
          us ← parse_fraction s5;
          Some (h, m, sec, us)
      end
  end.

(** The zone starts after the first [-] when there is one, else after the
    first [+]. *)
Definition tz_pos (t : string) : option nat :=
  match Str.find t "-" with
  | Some i => Some i
  | None => Str.find t "+"
  end.

Definition parse_isoformat_time (t : string) : option (Z * Z * Z * Z * option Z) :=
  if (String.length t <? 2)%nat then None
  else
    match tz_pos t with
    | None => c ← parse_hh_mm_ss_ff t; Some (c, None)
    | Some i =>
        c ← parse_hh_mm_ss_ff (Str.take i t);
        let tzstr := Str.drop (S i) t in
        let n := String.length tzstr in
        if negb ((n =? 5) || (n =? 8) || (n =? 15))%nat then None
        else
          '(h, m, s, us) ← parse_hh_mm_ss_ff tzstr;
          let mag := (h * 3600 + m * 60 + s) * 1000000 + us in
          let neg := String.eqb (Str.take 1 (Str.drop i t)) "-" in
          Some (c, Some (if neg then - mag else mag))
    end.

(** [datetime.fromisoformat(s)]; every failure is [None]. *)
Definition fromisoformat (s : string) : option datetime :=
  '(y, m, d) ← parse_isoformat_date (Str.take 10 s);
  '(hh, mi, ss, us, tz) ←
     (if (String.length s <=? 10)%nat then Some (0, 0, 0, 0, None)
      else parse_isoformat_time (Str.drop 11 s));
  let r := mk y m d hh mi ss us tz in
  if valid r then Some r else None.

End DT.

(** ** Python values

    What a JSON document decodes to, and the [datetime] objects the zip
    loader stores in the session dict. *)

#[local] Set Warnings "-register-all".

Inductive pyval :=
| VNone
| VBool (b : bool)
| VInt (n : Z)
| VFloat (x : float)
| VStr (s : string)
| VDatetime (d : DT.datetime)
| VList (l : list pyval)
| VDict (m : gmap string pyval).

Abbreviation dict := (gmap string pyval).

(** [d.get(k, v)] *)
Definition dget (d : dict) (k : string) (v : pyval) : pyval := default v (d !! k).

(** [bool(v)] *)
Definition truthy (v : pyval) : bool :=
  match v with
  | VNone => false
  | VBool b => b
  | VInt n => negb (n =? 0)%Z
  | VFloat x => negb (PrimFloat.eqb x 0)
  | VStr s => negb (String.eqb s EmptyString)
  | VDatetime _ => true
  | VList l => match l with [] => false | _ => true end
  | VDict m => match map_to_list m with [] => false | _ => true end
  end.

(** [a or b] *)
Definition py_or (a b : pyval) : pyval := if truthy a then a else b.

(** The receiver of [.get]: anything but a dict has no such attribute. *)
Definition as_dict (v : pyval) : result dict :=
  match v with
  | VDict m => Ok m
  | _ => Raise (AttributeError "object has no attribute 'get'")
  end.

Fixpoint chars (s : string) : list pyval :=
  match s with
  | EmptyString => []
  | String c s' => VStr (String c EmptyString) :: chars s'
  end.

(** [for d in v]: the items a [for] loop visits. A dict yields its keys. *)
Definition py_iter (v : pyval) : result (list pyval) :=
  match v with
  | VList l => Ok l
  | VStr s => Ok (chars s)
  | VDict m => Ok (VStr <$> (map_to_list m).*1)
  | _ => Raise (TypeError "object is not iterable")
  end.

(** [int(v)] *)
Definition py_int (v : pyval) : result Z :=
  match v with
  | VInt n => Ok n
  | VBool b => Ok (if b then 1 else 0)
  | VFloat x => Num.int_of_float x
  | VStr s => Num.int_of_str s
  | _ => Raise (TypeError "int() argument must be a string or a real number")
  end.

(** [float(v)] *)
Definition py_float (v : pyval) : result float :=
  match v with
  | VFloat x => Ok x
  | VInt n => Num.float_of_int n
  | VBool b => Ok (Num.of_Z (if b then 1 else 0))
  | VStr s => Num.float_of_str s
  | _ => Raise (TypeError "float() argument must be a string or a real number")
  end.

(** [v == s] for a [str] [s]: only text equals text. *)
Definition py_eq_str (v : pyval) (s : string) : bool :=
  match v with
  | VStr x => String.eqb x s
  | _ => false
  end.

(** [a / b] for two [int]s with [b] positive: the nearest float, when there
    is a finite one. *)
Definition int_truediv (a : Z) (b : positive) : result float :=
  let q := Num.float_of_ratio (a <? 0)%Z (Z.abs a) b in
  if PrimFloat.is_infinity q
  then Raise (OverflowError "integer division result too large for a float")
  else Ok q.

(** * session.py *)

Module session.

(** [_parse_iso]: [None] and datetimes pass through; text goes through
    [fromisoformat] after [Z] is rewritten; any exception (no [replace]
    attribute, malformed text) gives [None]. *)
Definition _parse_iso (s : pyval) : option DT.datetime :=
  match s with
  | VNone => None
  | VDatetime d => Some d
  | VStr t => DT.fromisoformat (Str.replace "Z" "+00:00" t)
  | _ => None
  end.

Record HeartRatePoint := mkHR {
  hr_timestamp : DT.datetime;
  hr_value : Z;
  hr_monotonic_timestamp : float
}.

Record RRIntervalPoint := mkRR {
  rr_timestamp : DT.datetime;
  rr_value : Z;
  rr_monotonic_timestamp : float
}.

Definition _point_from_hr (d : pyval) : result HeartRatePoint :=
  m ← as_dict d;
  let ts := default DT.min (_parse_iso (dget m "timestamp" VNone)) in
  v ← py_int (dget m "value" (VInt 0));
  mt ← py_float (dget m "monotonicTimestamp" (VInt 0));
  Ok (mkHR ts v mt).

Definition _point_from_rr (d : pyval) : result RRIntervalPoint :=
  m ← as_dict d;
  let ts := default DT.min (_parse_iso (dget m "timestamp" VNone)) in
  v ← py_int (dget m "value" (VInt 0));
  mt ← py_float (dget m "monotonicTimestamp" (VInt 0));
  Ok (mkRR ts v mt).

Module RecordingSummary.

Record t := mk {
  id : pyval;
  name : pyval;
  start_date : option DT.datetime;
  end_date : option DT.datetime;
  duration_seconds : float;
  sensor_count : Z;
  average_heart_rate : float;
  average_sdnn : float;
  average_rmssd : float
}.

(** [RecordingSummary.from_dict(data)]: the arguments are evaluated in the
    order of the call. *)
Definition from_dict (data : dict) : result t :=
  let i := dget data "id" (VStr "") in
  let n := dget data "name" (VStr "") in
  let sd := _parse_iso (py_or (dget data "startDate" VNone) (dget data "start_date" VNone)) in
  let ed := _parse_iso (py_or (dget data "endDate" VNone) (dget data "end_date" VNone)) in
  du ← py_float (dget data "duration" (dget data "duration_seconds" (VInt 0)));
  sc ← py_int (dget data "sensorCount" (dget data "sensor_count" (VInt 0)));
  hr ← py_float (dget data "averageHeartRate" (dget data "average_heart_rate" (VInt 0)));
  sdnn ← py_float (dget data "averageSDNN" (dget data "average_sdnn" (VInt 0)));
  rmssd ← py_float (dget data "averageRMSSD" (dget data "average_rmssd" (VInt 0)));
  Ok (mk i n sd ed du sc hr sdnn rmssd).

End RecordingSummary.

Module SensorData.

Record t := mk {
  _data : dict;
  _hr_points : list HeartRatePoint;
  _rr_points : list RRIntervalPoint
}.

(** [SensorData(s)]: the dataclass constructor followed by
    [__post_init__]. *)
Definition init (s : pyval) : result t :=
  d ← as_dict s;
  hr ← py_iter (dget d "heartRateData" (VList []));
  hrp ← rmap _point_from_hr hr;
  rr ← py_iter (dget d "rrIntervalData" (VList []));
  rrp ← rmap _point_from_rr rr;
  Ok (mk d hrp rrp).

Definition sensor_id (s : t) : pyval :=
  dget (_data s) "sensorId" (dget (_data s) "sensor_id" (VStr "")).

Definition sensor_name (s : t) : pyval :=
  dget (_data s) "sensorName" (dget (_data s) "sensor_name" (VStr "")).

Definition times (s : t) : list DT.datetime :=
  (hr_timestamp <$> _hr_points s) ++ (rr_timestamp <$> _rr_points s).

(** The zone of the machine enters through [timestamp()] of naive
    datetimes. *)
Definition duration_seconds (local_offset : Z) (s : t) : result float :=
  match _hr_points s, _rr_points s with
  | [], [] => Ok (Num.of_Z 0)
  | _, _ =>
      match times s with
      | [] => Ok (Num.of_Z 0)
      | ts =>
          hi ← DT.max_of ts;
          a ← DT.timestamp local_offset hi;
          lo ← DT.min_of ts;
          b ← DT.timestamp local_offset lo;
          Ok (PrimFloat.sub a b)
      end
  end.

Definition data_point_count (s : t) : Z :=
  Z.of_nat (length (_hr_points s)) + Z.of_nat (length (_rr_points s)).

Definition statistics (s : t) : result dict :=
  as_dict (dget (_data s) "statistics" (VDict ∅)).

Definition heart_rate_min (s : t) : result Z :=
  st ← statistics s;
  py_int (dget st "minHeartRate" (dget st "min_heart_rate" (VInt 0))).

Definition heart_rate_max (s : t) : result Z :=
  st ← statistics s;
  py_int (dget st "maxHeartRate" (dget st "max_heart_rate" (VInt 0))).

Definition heart_rate_avg (s : t) : result Z :=
  st ← statistics s;
  py_int (dget st "averageHeartRate" (dget st "average_heart_rate" (VInt 0))).

Definition sdnn (s : t) : result float :=
  st ← statistics s;
  py_float (dget st "sdnn" (VInt 0)).

Definition rmssd (s : t) : result float :=
  st ← statistics s;
  py_float (dget st "rmssd" (VInt 0)).

Definition hrv_window (s : t) : result pyval :=
  st ← statistics s;
  Ok (dget st "hrvWindow" (dget st "hrv_window" (VStr ""))).

Definition hrv_sample_count (s : t) : result Z :=
  st ← statistics s;
  py_int (dget st "hrvSampleCount" (dget st "hrv_sample_count" (VInt 0))).

Definition heart_rate_points (s : t) : list HeartRatePoint := _hr_points s.

Definition rr_points (s : t) : list RRIntervalPoint := _rr_points s.

(** [min] and [max] of the values of a non-empty list of points, as the
    builtins scan it. *)
Definition rr_min (s : t) : Z :=
  match _rr_points s with
  | [] => 0
  | p :: ps => fold_left Z.min (rr_value <$> ps) (rr_value p)
  end.

Definition rr_max (s : t) : Z :=
  match _rr_points s with
  | [] => 0
  | p :: ps => fold_left Z.max (rr_value <$> ps) (rr_value p)
  end.

Definition rr_avg (s : t) : result float :=
  match _rr_points s with
  | [] => Ok (Num.of_Z 0)
  | ps => int_truediv (foldr Z.add 0 (rr_value <$> ps)) (Pos.of_nat (length ps))
  end.

Definition get_heart_rate_point (s : t) (i : Z) : option HeartRatePoint :=
  if ((0 <=? i) && (i <? Z.of_nat (length (_hr_points s))))%Z
  then _hr_points s !! Z.to_nat i
  else None.

Definition get_rr_point (s : t) (i : Z) : option RRIntervalPoint :=
  if ((0 <=? i) && (i <? Z.of_nat (length (_rr_points s))))%Z
  then _rr_points s !! Z.to_nat i
  else None.

End SensorData.

Module RecordingSession.

Record t := mk {
  _data : dict;
  _sensors : list SensorData.t
}.

(** [RecordingSession(data)] *)
Definition init (data : dict) : result t :=
  l ← py_iter (dget data "sensorRecordings" (dget data "sensor_recordings" (VList [])));
  ss ← rmap SensorData.init l;
  Ok (mk data ss).

Definition raw (r : t) : dict := _data r.

Definition id (r : t) : pyval := dget (_data r) "id" (VStr "").

Definition name (r : t) : pyval := dget (_data r) "name" (VStr "").

Definition start_date (r : t) : option DT.datetime :=
  _parse_iso (py_or (dget (_data r) "startDate" VNone) (dget (_data r) "start_date" VNone)).

Definition end_date (r : t) : option DT.datetime :=
  _parse_iso (py_or (dget (_data r) "endDate" VNone) (dget (_data r) "end_date" VNone)).

Definition duration_seconds (r : t) : result float :=
  match start_date r, end_date r with
  | Some s, Some e => us ← DT.sub e s; Ok (DT.total_seconds us)
  | _, _ => Ok (Num.of_Z 0)
  end.

Definition sensor_count (r : t) : Z := Z.of_nat (length (_sensors r)).

Definition total_data_points (r : t) : Z :=
  foldr Z.add 0 (SensorData.data_point_count <$> _sensors r).

Definition average_heart_rate (r : t) : result float :=
  match _sensors r with
  | [] => Ok (Num.of_Z 0)
  | ss =>
      avgs ← rmap SensorData.heart_rate_avg ss;
      int_truediv (foldr Z.add 0 avgs) (Pos.of_nat (length ss))
  end.

(** The mean the two HRV averages share: [sum(valid) / len(valid)] over
    the values above zero, [0.0] when there is none. *)
Definition mean_of_positive (vals : list float) : float :=
  let valid := List.filter (fun x => PrimFloat.ltb 0 x) vals in
  match valid with
  | [] => Num.of_Z 0
  | _ => PrimFloat.div (Num.fsum valid) (Num.of_Z (Z.of_nat (length valid)))
  end.

Definition average_sdnn (r : t) : result float :=
  vals ← rmap SensorData.sdnn (_sensors r);
  Ok (mean_of_positive vals).

Definition average_rmssd (r : t) : result float :=
  vals ← rmap SensorData.rmssd (_sensors r);
  Ok (mean_of_positive vals).

Definition sensors (r : t) : list SensorData.t := _sensors r.

(** [sensor(sensor_id)]: the first sensor whose id equals the text. *)
Definition sensor (r : t) (sensor_id : string) : option SensorData.t :=
  List.find (fun s => py_eq_str (SensorData.sensor_id s) sensor_id) (_sensors r).

End RecordingSession.

End session.

(** * client.py

    The HTTP exchange is a parameter: [get_json url] stands for
    [requests.get(url, timeout=...)], [raise_for_status()] and [json()], and
    gives the decoded body or the exception that left one of the three. *)

Module client.

Import session.

Definition _normalize_base_url (base_url : string) : string := Str.rstrip_char "/" base_url.

Definition recordings_url (base_url : string) : string :=
  _normalize_base_url base_url ++ "/recordings".

Definition recording_url (recording_id base_url : string) : string :=
  _normalize_base_url base_url ++ "/recordings/" ++ recording_id.

Section Http.

Variable get_json : string -> result pyval.

Definition list_recordings (base_url : string) : result (list RecordingSummary.t) :=
  data ← get_json (recordings_url base_url);
  items ← py_iter data;
  rmap (fun item => d ← as_dict item; RecordingSummary.from_dict d) items.

Definition get_recording (recording_id base_url : string) : result RecordingSession.t :=
  data ← get_json (recording_url recording_id base_url);
  d ← as_dict data;
  RecordingSession.init d.

End Http.

End client.

(** * zip_loader.py *)

Module zip_loader.

(** ** The archive *)

(** The entries of the archive in directory order: name and decoded text.
    The archive is one that opens and whose entries read and decode: the
    errors of [zipfile.ZipFile], of [read] other than [KeyError] and of
    [decode] have no counterpart here. *)
Definition ZipFile := list (string * string).

Definition namelist (z : ZipFile) : list string := z.*1.

(** [z.read(name).decode("utf-8")]: the last entry of that name, [KeyError]
    when there is none. *)
Fixpoint read (z : ZipFile) (name : string) : result string :=
  match z with
  | [] => Raise (KeyError name)
  | (n, c) :: z' =>
      match read z' name with
      | Ok c' => Ok c'
      | Raise e => if String.eqb n name then Ok c else Raise e
      end
  end.

(** ** [csv.reader] on one line

    The reader of the default dialect: comma delimiter, double-quote quote
    character, a doubled quote inside a quoted field stands for one quote,
    not strict. [cur] is the field being read, reversed. A line produced by
    [splitlines()] holds no line break, so the record ends with the line.
    The limit on the size of a field and, for interpreters before 3.11, the
    refusal of a NUL character are not modelled. *)

Inductive csv_state := START_FIELD | IN_FIELD | IN_QUOTED_FIELD | QUOTE_IN_QUOTED_FIELD.

Definition quotechar : ascii := "034".

Definition save_field (cur : list ascii) : string := string_of_list_ascii (rev cur).

Fixpoint csv_fields (st : csv_state) (cur : list ascii) (s : string) : list string :=
  match s with
  | EmptyString => [save_field cur]
  | String c s' =>
      match st with
      | START_FIELD =>
          if Ascii.eqb c quotechar then csv_fields IN_QUOTED_FIELD cur s'
          else if Ascii.eqb c "," then save_field cur :: csv_fields START_FIELD [] s'
          else csv_fields IN_FIELD (c :: cur) s'
      | IN_FIELD =>
          if Ascii.eqb c "," then save_field cur :: csv_fields START_FIELD [] s'
          else csv_fields IN_FIELD (c :: cur) s'
      | IN_QUOTED_FIELD =>
          if Ascii.eqb c quotechar then csv_fields QUOTE_IN_QUOTED_FIELD cur s'
          else csv_fields IN_QUOTED_FIELD (c :: cur) s'
      | QUOTE_IN_QUOTED_FIELD =>
          if Ascii.eqb c quotechar then csv_fields IN_QUOTED_FIELD (c :: cur) s'
          else if Ascii.eqb c "," then save_field cur :: csv_fields START_FIELD [] s'
          else csv_fields IN_FIELD (c :: cur) s'
      end
  end.

(** [list(csv.reader(io.StringIO(line)))]: no row for the empty text, one
    row otherwise. *)
Definition csv_reader (line : string) : list (list string) :=
  match line with
  | EmptyString => []
  | _ => [csv_fields START_FIELD [] line]
  end.

(** ** Parsers *)

Definition _parse_iso (s : string) : option DT.datetime :=
  if String.eqb s "" || String.eqb (Str.strip s) "" then None
  else DT.fromisoformat (Str.replace "Z" "+00:00" (Str.strip s)).

(** A row of the sensor table. The source builds a dict with these fixed
    keys; only the rows of the discovery fallback carry [index]. *)
Record SensorRow := mkRow {
  index : option Z;
  sensor_id : string;
  sensor_name : string;
  hr_samples : Z;
  rr_samples : Z;
  avg_hr : float;
  sdnn : float;
  rmssd : float
}.

Definition _int (s : string) : Z := default 0 (Num.parse_int (Str.strip s)).

Definition _float (s : string) : float := default (Num.of_Z 0) (Num.parse_float (Str.strip s)).

(** [row[-k]] for [k] within the length *)
Definition from_end (row : list string) (k : nat) : string :=
  nth (length row - k) row "".

(** The body of [if len(row) >= 7:] *)
Definition sensor_row (row : list string) : option SensorRow :=
  if (7 <=? length row)%nat then
    Some {|
      index := None;
      sensor_id := Str.strip (nth 0 row "");
      sensor_name :=
        if (7 <? length row)%nat
        then Str.join "," (Str.strip <$> drop 1 (take (length row - 5) row))
        else Str.strip (nth 1 row "");
      hr_samples := _int (from_end row 5);
      rr_samples := _int (from_end row 4);
      avg_hr := _float (from_end row 3);
      sdnn := _float (from_end row 2);
      rmssd := _float (from_end row 1)
    |}
  else None.

(** The [Key,Value] lines before the table. *)
Definition set_meta (meta : dict) (key value : string) : dict :=
  if String.eqb key "Session ID" then <["id" := VStr value]> meta
  else if String.eqb key "Recording Name" then <["name" := VStr value]> meta
  else if String.eqb key "Start Time"
  then <["startDate" := from_option VDatetime VNone (_parse_iso value)]> meta
  else if String.eqb key "End Time"
  then <["endDate" := from_option VDatetime VNone (_parse_iso value)]> meta
  else if String.eqb key "Duration (seconds)"
  then <["duration" := VFloat (default (Num.of_Z 0) (Num.parse_float value))]> meta
  else if String.eqb key "Number of Sensors"
  then <["sensorCount" := VInt (default 0 (Num.parse_int value))]> meta
  else if String.eqb key "Total Data Points"
  then <["totalDataPoints" := VInt (default 0 (Num.parse_int value))]> meta
  else if String.eqb key "Average Heart Rate (BPM)"
  then <["averageHeartRate" := VFloat (default (Num.of_Z 0) (Num.parse_float value))]> meta
  else if String.eqb key "Average SDNN (ms)"
  then <["averageSDNN" := VFloat (default (Num.of_Z 0) (Num.parse_float value))]> meta
  else if String.eqb key "Average RMSSD (ms)"
  then <["averageRMSSD" := VFloat (default (Num.of_Z 0) (Num.parse_float value))]> meta
  else meta.

Record psi_state := mkPsi {
  meta : dict;
  sensors_table : list SensorRow;
  in_sensors : bool
}.

(** One turn of the loop over the lines of [session_info.csv]. *)
Definition psi_step (st : psi_state) (line : string) : psi_state :=
  if String.eqb (Str.strip line) "" then st
  else if String.eqb (Str.strip line) "Sensors"
  then mkPsi (meta st) (sensors_table st) true
  else if in_sensors st then
    if Str.contains line "Sensor ID" && Str.contains line "Sensor Name" then st
    else
      match csv_reader line with
      | [] => st
      | [] :: _ => st
      | row :: _ =>
          match sensor_row row with
          | Some r => mkPsi (meta st) (sensors_table st ++ [r]) true
          | None => st
          end
      end
  else
    match Str.find line "," with
    | None => st
    | Some idx =>
        let key := Str.strip (Str.take idx line) in
        let value := Str.strip (Str.drop (S idx) line) in
        mkPsi (set_meta (meta st) key value) (sensors_table st) false
    end.

Definition _parse_session_info (content : string) : dict * list SensorRow :=
  let st := fold_left psi_step (Str.splitlines content) (mkPsi ∅ [] false) in
  (meta st, sensors_table st).

(** ** Discovery of the sensors from the entry names *)

(** The row of one entry name, when it has the form
    [<prefix>sensor_<n>_<id>_hr.csv]. *)
Definition discover_entry (pfx name : string) : option SensorRow :=
  if negb (Str.startswith name pfx) || negb (Str.endswith name "_hr.csv") then None
  else
    let base := Str.drop (String.length pfx) name in
    if negb (Str.startswith base "sensor_") then None
    else
      let parts := Str.split "_" (Str.replace "_hr.csv" "" base) in
      if (3 <=? length parts)%nat then
        match Num.parse_int (nth 1 parts "") with
        | Some idx =>
            let sid := Str.join "_" (drop 2 parts) in
            Some (mkRow (Some idx) sid sid 0 0 (Num.of_Z 0) (Num.of_Z 0) (Num.of_Z 0))
        | None => None
        end
      else None.

(** The sort key [r["index"]]; every discovered row carries it. *)
Definition index_key (r : SensorRow) : Z := default 0 (index r).

(** [list.sort(key=...)] is stable: a row goes behind the rows whose key is
    not greater. *)
Fixpoint insert_by_index (r : SensorRow) (l : list SensorRow) : list SensorRow :=
  match l with
  | [] => [r]
  | x :: l' =>
      if (index_key r <? index_key x)%Z then r :: l
      else x :: insert_by_index r l'
  end.

Definition sort_by_index (l : list SensorRow) : list SensorRow :=
  fold_left (fun acc r => insert_by_index r acc) l [].

Definition _discover_sensors_from_zip (z : ZipFile) (pfx : string) : list SensorRow :=
  sort_by_index (omap (discover_entry pfx) (namelist z)).

(** ** The per-sensor files *)

(** A point of a heart-rate or RR file. The source builds a dict with these
    three keys; [point_dict] is that dict. *)
Record PointRow := mkPoint {
  timestamp : string;
  value : Z;
  monotonicTimestamp : float
}.

Definition point_dict (p : PointRow) : pyval :=
  VDict (<["timestamp" := VStr (timestamp p)]>
         (<["value" := VInt (value p)]>
          (<["monotonicTimestamp" := VFloat (monotonicTimestamp p)]> ∅))).

(** The body of the loop over the data lines: [None] is [continue]. *)
Definition point_of_line (line : string) : option PointRow :=
  let parts := Str.split "," line in
  if (length parts <? 4)%nat then None
  else
    let ts := _parse_iso (Str.strip (nth 0 parts "")) in
    _ ← Num.parse_float (Str.strip (nth 1 parts ""));
    mono ← Num.parse_float (Str.strip (nth 2 parts ""));
    value ← Num.parse_int (Str.strip (nth 3 parts ""));
    Some (mkPoint (from_option DT.isoformat "" ts) value mono).

Definition read_points (content : string) : list PointRow :=
  let lines := Str.splitlines (Str.strip content) in
  if (length lines <? 2)%nat then []
  else omap point_of_line (drop 1 lines).

Definition _read_hr_csv (content : string) : list PointRow := read_points content.

Definition _read_rr_csv (content : string) : list PointRow := read_points content.

Definition set_if {A} (o : option A) (f : A -> pyval) (k : string) (stats : dict) : dict :=
  match o with
  | Some v => <[k := f v]> stats
  | None => stats
  end.

Definition set_stat (stats : dict) (key value : string) : dict :=
  if String.eqb key "Sensor ID" then <["sensorId" := VStr value]> stats
  else if String.eqb key "Sensor Name" then <["sensorName" := VStr value]> stats
  else if String.eqb key "Duration (seconds)"
  then set_if (Num.parse_float value) VFloat "duration" stats
  else if String.eqb key "Heart Rate Samples"
  then set_if (Num.parse_int value) VInt "heartRateSamples" stats
  else if String.eqb key "RR Interval Samples"
  then set_if (Num.parse_int value) VInt "rrIntervalSamples" stats
  else if String.eqb key "Min Heart Rate (BPM)"
  then set_if (Num.parse_int value) VInt "minHeartRate" stats
  else if String.eqb key "Max Heart Rate (BPM)"
  then set_if (Num.parse_int value) VInt "maxHeartRate" stats
  else if String.eqb key "Average Heart Rate (BPM)"
  then set_if (Num.parse_int value) VInt "averageHeartRate" stats
  else if String.eqb key "SDNN (ms)"
  then set_if (Num.parse_float value) VFloat "sdnn" stats
  else if String.eqb key "RMSSD (ms)"
  then set_if (Num.parse_float value) VFloat "rmssd" stats
  else if String.eqb key "HRV Window" then <["hrvWindow" := VStr value]> stats
  else if String.eqb key "HRV Sample Count"
  then set_if (Num.parse_int value) VInt "hrvSampleCount" stats
  else stats.

Definition stat_step (stats : dict) (line : string) : dict :=
  match Str.find line "," with
  | None => stats
  | Some idx =>
      set_stat stats (Str.strip (Str.take idx line)) (Str.strip (Str.drop (S idx) line))
  end.

Definition _read_statistics_csv (content : string) : dict :=
  let lines := Str.splitlines (Str.strip content) in
  if (length lines <? 2)%nat then ∅
  else fold_left stat_step (drop 1 lines) ∅.

(** ** The folder and the session *)

Definition is_recording_folder (top : string) : bool :=
  Str.endswith top "_csv" && Str.startswith top "recording_".

Fixpoint _find_folder_in_zip_names (names : list string) : option string :=
  match names with
  | [] => None
  | n :: names' =>
      let top := nth 0 (Str.split "/" n) "" in
      if Str.contains n "/" && is_recording_folder top then Some top
      else _find_folder_in_zip_names names'
  end.

Definition _find_folder_in_zip (z : ZipFile) : option string :=
  _find_folder_in_zip_names (namelist z).

(** [min(values, default=0)] and [max(values, default=0)] *)
Definition min_default (l : list Z) : Z :=
  match l with
  | [] => 0
  | x :: l' => fold_left Z.min l' x
  end.

Definition max_default (l : list Z) : Z :=
  match l with
  | [] => 0
  | x :: l' => fold_left Z.max l' x
  end.

(** The statistics dict built when the statistics file is missing. *)
Definition synthesized_statistics (hr_data : list PointRow) (row : SensorRow) : result dict :=
  avg ← Num.int_of_float (avg_hr row);
  Ok (<["minHeartRate" := VInt (min_default (value <$> hr_data))]>
      (<["maxHeartRate" := VInt (max_default (value <$> hr_data))]>
       (<["averageHeartRate" := VInt avg]>
        (<["sdnn" := VFloat (sdnn row)]>
         (<["rmssd" := VFloat (rmssd row)]>
          (<["hrvWindow" := VStr ""]>
           (<["hrvSampleCount" := VInt 0]> ∅))))))).

Definition file_prefix (pfx : string) (i : nat) (row : SensorRow) : string :=
  pfx ++ "sensor_" ++ pretty (S i) ++ "_" ++ sensor_id row.

(** The dict appended to [sensor_recordings] for one row. *)
Definition sensor_dict (row : SensorRow) (hr_data rr_data : list PointRow) (statistics : dict)
  : dict :=
  <["sensorId" := VStr (sensor_id row)]>
    (<["sensorName" := VStr (sensor_name row)]>
      (<["heartRateData" := VList (point_dict <$> hr_data)]>
        (<["rrIntervalData" := VList (point_dict <$> rr_data)]>
          (<["statistics" := VDict statistics]> ∅)))).

Definition hr_path (pfx : string) (i : nat) (row : SensorRow) : string :=
  file_prefix pfx i row ++ "_hr.csv".

Definition rr_path (pfx : string) (i : nat) (row : SensorRow) : string :=
  file_prefix pfx i row ++ "_rr.csv".

Definition stats_path (pfx : string) (i : nat) (row : SensorRow) : string :=
  file_prefix pfx i row ++ "_statistics.csv".

(** A missing file leaves the list empty. *)
Definition read_or_empty (parse : string -> list PointRow) (z : ZipFile) (path : string)
  : list PointRow :=
  match read z path with
  | Ok c => parse c
  | Raise _ => []
  end.

(** The body of the loop over the enumerated sensor rows. *)
Definition sensor_recording (z : ZipFile) (pfx : string) (i : nat) (row : SensorRow)
  : result pyval :=
  let hr_data := read_or_empty _read_hr_csv z (hr_path pfx i row) in
  let rr_data := read_or_empty _read_rr_csv z (rr_path pfx i row) in
  statistics ←
    match read z (stats_path pfx i row) with
    | Ok c => Ok (_read_statistics_csv c)
    | Raise _ => synthesized_statistics hr_data row
    end;
  Ok (VDict (sensor_dict row hr_data rr_data statistics)).

Fixpoint sensor_recordings (z : ZipFile) (pfx : string) (i : nat) (table : list SensorRow)
  : result (list pyval) :=
  match table with
  | [] => Ok []
  | row :: table' =>
      r ← sensor_recording z pfx i row;
      rs ← sensor_recordings z pfx (S i) table';
      Ok (r :: rs)
  end.

(** [meta.setdefault(k, v)] *)
Definition setdefault (m : dict) (k : string) (v : pyval) : dict :=
  match m !! k with
  | Some _ => m
  | None => <[k := v]> m
  end.

(** The sensor rows the loop runs over: the table of [session_info.csv], or
    the discovered rows when that table is empty. *)
Definition sensor_rows (z : ZipFile) (pfx : string) (table : list SensorRow) : list SensorRow :=
  match table with
  | [] => _discover_sensors_from_zip z pfx
  | _ => table
  end.

(** The two [setdefault] calls on the metadata. *)
Definition default_identity (meta : dict) : dict :=
  let meta := setdefault meta "id" (VStr "") in
  setdefault meta "name" (dget meta "id" (VStr "Unknown")).

Definition session_info_path (folder : string) : string :=
  (folder ++ "/") ++ "session_info.csv".

(** The dict handed to [RecordingSession]. A folder name ends in [_csv], so
    [not folder] holds for [None] only. *)
Definition session_dict (zip_path : string) (z : ZipFile) : result dict :=
  match _find_folder_in_zip z with
  | None => Raise (ValueError ("No recording_*_csv folder found in zip: " ++ zip_path))
  | Some folder =>
      let pfx := folder ++ "/" in
      match read z (session_info_path folder) with
      | Raise _ => Raise (ValueError ("Missing " ++ session_info_path folder ++ " in zip"))
      | Ok session_info_content =>
          let '(meta, table) := _parse_session_info session_info_content in
          let table := sensor_rows z pfx table in
          let meta := default_identity meta in
          recs ← sensor_recordings z pfx 0 table;
          Ok (<["sensorRecordings" := VList recs]> meta)
      end
  end.

Definition load_from_zip (zip_path : string) (z : ZipFile) : result session.RecordingSession.t :=
  d ← session_dict zip_path z;
  session.RecordingSession.init d.

End zip_loader.

(** * Specification-side definitions and example data *)

Import zip_loader.

#[local] Set Warnings "-inexact-float".

Definition nl : string := String "010" EmptyString.

(** The points the model objects hold for a point of a CSV file. *)
Definition hr_point (p : PointRow) : session.HeartRatePoint :=
  session.mkHR (default DT.min (session._parse_iso (VStr (timestamp p))))
    (value p) (monotonicTimestamp p).

Definition rr_point (p : PointRow) : session.RRIntervalPoint :=
  session.mkRR (default DT.min (session._parse_iso (VStr (timestamp p))))
    (value p) (monotonicTimestamp p).

(** [m] is the least (greatest) element of [vs], or 0 for the empty list. *)
Definition least_or_zero (m : Z) (vs : list Z) : Prop :=
  match vs with
  | [] => m = 0
  | _ => In m vs /\ Forall (fun v => m <= v) vs
  end.

Definition greatest_or_zero (m : Z) (vs : list Z) : Prop :=
  match vs with
  | [] => m = 0
  | _ => In m vs /\ Forall (fun v => v <= m) vs
  end.

(** An archive whose summary names neither the session nor the recording. *)
Definition no_identity_archive : ZipFile :=
  [("recording_t_csv/session_info.csv", "Recording Information" ++ nl)].

(** An archive whose only sensor row has [nan] as average heart rate and
    no statistics file. *)
Definition nan_archive : ZipFile :=
  [("recording_t_csv/session_info.csv",
    "Sensors" ++ nl ++ "ABC123,Polar H10,60,60,nan,45.20,38.70" ++ nl)].

(** The data rows of a heart-rate or RR file: the lines of the stripped
    text after the header line. *)
Definition data_rows (content : string) : list string :=
  drop 1 (Str.splitlines (Str.strip content)).

(** A valid row: at least four comma-separated fields, the second and the
    third readable as floats, the fourth as an integer. *)
Definition valid_row (line : string) : bool :=
  let parts := Str.split "," line in
  (4 <=? length parts)%nat
  && bool_decide (is_Some (Num.parse_float (Str.strip (nth 1 parts ""))))
  && bool_decide (is_Some (Num.parse_float (Str.strip (nth 2 parts ""))))
  && bool_decide (is_Some (Num.parse_int (Str.strip (nth 3 parts "")))).

(** What a kept row turns into: the monotonic time and the value of its
    third and fourth field, the ISO text of its first field, or the empty
    text when that field is no timestamp. *)
Definition row_point (line : string) (p : PointRow) : Prop :=
  let parts := Str.split "," line in
  Num.parse_float (Str.strip (nth 2 parts "")) = Some (monotonicTimestamp p)
  /\ Num.parse_int (Str.strip (nth 3 parts "")) = Some (value p)
  /\ timestamp p =
     match _parse_iso (Str.strip (nth 0 parts "")) with
     | Some d => DT.isoformat d
     | None => ""
     end.

(** A heart-rate file whose second data row has no numeric monotonic time
    and whose third has no timestamp. *)
Definition hr_csv_with_bad_rows : string :=
  "Timestamp,Unix Time,Monotonic Time,Heart Rate (BPM)" ++ nl
  ++ "2024-05-15T19:30:00.100Z,1715796600.1,100.1,70" ++ nl
  ++ "2024-05-15T19:30:01.100Z,1715796601.1,abc,71" ++ nl
  ++ "not a time,1715796602.1,102.1,72" ++ nl.

(** The mean of the spec: the arithmetic mean of the values strictly above
    zero, 0.0 when no value is. *)
Definition positive (x : float) : bool := PrimFloat.ltb 0 x.

Definition arithmetic_mean (l : list float) : float :=
  PrimFloat.div (Num.fsum l) (Num.of_Z (Z.of_nat (length l))).

Definition mean_over_positive (vals : list float) : float :=
  if existsb positive vals then arithmetic_mean (List.filter positive vals) else 0%float.

(** A sensor dict that holds only statistics. *)
Definition statistics_only (st : dict) : dict := <["statistics" := VDict st]> ∅.

(** Two sensors with SDNN 45.2 and 0. *)
Definition two_sensor_dict : dict :=
  <["sensorRecordings" :=
      VList [VDict (statistics_only (<["sdnn" := VFloat 45.2]> ∅));
             VDict (statistics_only (<["sdnn" := VInt 0]> ∅))]]> ∅.

Definition two_sensor_session : session.RecordingSession.t :=
  session.RecordingSession.mk two_sensor_dict
    [session.SensorData.mk (statistics_only (<["sdnn" := VFloat 45.2]> ∅)) [] [];
     session.SensorData.mk (statistics_only (<["sdnn" := VInt 0]> ∅)) [] []].

(** ** The JSON form of a session dict

    A JSON document holds no [datetime]: where the zip loader stores the
    parsed start and end instants, a JSON dict with the same values holds
    the text of that instant (or the same [None]); every other field holds
    the same value. *)

Definition json_date (v v' : option pyval) : Prop :=
  v' = v
  \/ exists d s,
       v = Some (VDatetime d) /\ v' = Some (VStr s) /\ session._parse_iso (VStr s) = Some d.

Definition same_field_values (D D' : dict) : Prop :=
  json_date (D !! "startDate") (D' !! "startDate")
  /\ json_date (D !! "endDate") (D' !! "endDate")
  /\ forall k, k <> "startDate" -> k <> "endDate" -> D' !! k = D !! k.

(** The derived statistics of the round trip. *)
Definition derived_statistics (r : session.RecordingSession.t)
  : result float * result float * result float * result float :=
  (session.RecordingSession.average_heart_rate r,
   session.RecordingSession.average_sdnn r,
   session.RecordingSession.average_rmssd r,
   session.RecordingSession.duration_seconds r).

(** The archive of [scripts/verify_zip_parsing.py]. *)
Definition fixture_session_info : string :=
  "Recording Information" ++ nl
  ++ nl
  ++ "Session ID,testid123" ++ nl
  ++ "Recording Name,Test Recording" ++ nl
  ++ "Start Time,2024-05-15T19:30:00.000Z" ++ nl
  ++ "End Time,2024-05-15T19:35:00.000Z" ++ nl
  ++ "Duration (seconds),300.0" ++ nl
  ++ "Number of Sensors,1" ++ nl
  ++ "Total Data Points,120" ++ nl
  ++ "Average Heart Rate (BPM),72.5" ++ nl
  ++ "Average SDNN (ms),45.20" ++ nl
  ++ "Average RMSSD (ms),38.70" ++ nl
  ++ nl
  ++ "Sensors" ++ nl
  ++ "Sensor ID,Sensor Name,HR Samples,RR Samples,Avg HR,SDNN,RMSSD" ++ nl
  ++ "ABC123,Polar H10 ABC123,60,60,72,45.20,38.70" ++ nl.

Definition fixture_hr_csv : string :=
  "Timestamp,Unix Time,Monotonic Time,Heart Rate (BPM)" ++ nl
  ++ "2024-05-15T19:30:00.100Z,1715796600.1,100.1,70" ++ nl
  ++ "2024-05-15T19:30:01.100Z,1715796601.1,101.1,72" ++ nl.

Definition fixture_rr_csv : string :=
  "Timestamp,Unix Time,Monotonic Time,RR Interval (ms)" ++ nl
  ++ "2024-05-15T19:30:00.150Z,1715796600.15,100.15,820" ++ nl
  ++ "2024-05-15T19:30:01.150Z,1715796601.15,101.15,815" ++ nl.

Definition fixture_statistics_csv : string :=
  "Metric,Value" ++ nl
  ++ "Sensor ID,ABC123" ++ nl
  ++ "Sensor Name,Polar H10 ABC123" ++ nl
  ++ "Duration (seconds),300.0" ++ nl
  ++ "Heart Rate Samples,60" ++ nl
  ++ "RR Interval Samples,60" ++ nl
  ++ "Min Heart Rate (BPM),65" ++ nl
  ++ "Max Heart Rate (BPM),85" ++ nl
  ++ "Average Heart Rate (BPM),72" ++ nl
  ++ "SDNN (ms),45.20" ++ nl
  ++ "RMSSD (ms),38.70" ++ nl
  ++ "HRV Window,5 Minutes" ++ nl
  ++ "HRV Sample Count,60" ++ nl.

Definition fixture_archive : ZipFile :=
  [("recording_testid123_csv/session_info.csv", fixture_session_info);
   ("recording_testid123_csv/sensor_1_ABC123_hr.csv", fixture_hr_csv);
   ("recording_testid123_csv/sensor_1_ABC123_rr.csv", fixture_rr_csv);
   ("recording_testid123_csv/sensor_1_ABC123_statistics.csv", fixture_statistics_csv)].

(** The same archive without the statistics file. *)
Definition fixture_without_statistics : ZipFile := take 3 fixture_archive.

(** The session dict of the fixture, and its JSON form: the instants as
    the text the exporting app writes. *)
Definition fixture_dict : dict :=
  Eval vm_compute in
    match session_dict "export.zip" fixture_archive with
    | Ok D => D
    | Raise _ => ∅
    end.

Definition fixture_json : dict :=
  <["startDate" := VStr "2024-05-15T19:30:00.000Z"]>
    (<["endDate" := VStr "2024-05-15T19:35:00.000Z"]> fixture_dict).

(** A summary whose sensor name holds a comma. *)
Definition comma_name_row : string := "ABC123,My, Polar Strap,60,60,72,45.20,38.70".

Definition comma_name_info : string :=
  "Sensors" ++ nl
  ++ "Sensor ID,Sensor Name,HR Samples,RR Samples,Avg HR,SDNN,RMSSD" ++ nl
  ++ comma_name_row ++ nl.

(** The sensor name the summary is meant to carry: the fields between the
    first and the last five columns of the row, rejoined with commas. *)
Definition name_between (row : list string) : string :=
  Str.join "," (drop 1 (take (length row - 5) row)).

(** A line of the sensor table that is a row: not blank, not the marker,
    not the column header. *)
Definition table_row_line (line : string) : Prop :=
  Str.strip line <> "" /\ Str.strip line <> "Sensors"
  /\ (Str.contains line "Sensor ID" && Str.contains line "Sensor Name") = false.

(** The fields [csv.reader] finds on a line. *)
Definition fields_of (line : string) : list string := csv_fields START_FIELD [] line.

(** ** Discovery *)

(** The order of the keys the sort compares. *)
Definition by_index (a b : SensorRow) : Prop := index_key a <= index_key b.

(** Ascending order read off the rows themselves: both rows carry an index,
    the number of their entry name, and the first is not the greater. *)
Definition ascending_index (a b : SensorRow) : Prop :=
  match index a, index b with
  | Some i, Some j => i <= j
  | _, _ => False
  end.

(** An entry whose index segment starts with the separator U+001C, which
    [str.strip] removes and [int] refuses. *)
Definition separator_index_name : string :=
  "recording_t_csv/sensor_" ++ String "028" "1_X_hr.csv".

(** A discovered row: an index, the id also as name, zeroed statistics. *)
Definition discovered_row (idx : Z) (sid : string) : SensorRow :=
  mkRow (Some idx) sid sid 0 0 0%float 0%float 0%float.

(** The underscore-separated segments of an entry name below the folder. *)
Definition name_segments (pfx name : string) : list string :=
  Str.split "_" (Str.replace "_hr.csv" "" (Str.drop (String.length pfx) name)).

(** The entry name has the outer form [<prefix>sensor_..._hr.csv]. *)
Definition sensor_hr_name (pfx name : string) : bool :=
  Str.startswith name pfx && Str.endswith name "_hr.csv"
  && Str.startswith (Str.drop (String.length pfx) name) "sensor_".

(** An archive whose summary has no sensor table, with the heart-rate file
    of one sensor. *)
Definition discovery_archive : ZipFile :=
  [("recording_t_csv/session_info.csv", "Recording Information" ++ nl);
   ("recording_t_csv/sensor_1_XYZ_hr.csv", fixture_hr_csv)].

(** Entries out of order, one with an index that is no integer, one with
    underscores in the sensor id. *)
Definition unordered_archive : ZipFile :=
  [("recording_t_csv/session_info.csv", "Recording Information" ++ nl);
   ("recording_t_csv/sensor_2_B_hr.csv", fixture_hr_csv);
   ("recording_t_csv/sensor_x_C_hr.csv", fixture_hr_csv);
   ("recording_t_csv/sensor_1_A_b_c_hr.csv", fixture_hr_csv);
   ("recording_t_csv/sensor_1_A_b_c_rr.csv", fixture_rr_csv)].

(** The entry name of the heart-rate file of sensor [sid] under index text
    [idx]. *)
Definition entry_stem (idx sid : string) : string := "sensor_" ++ idx ++ "_" ++ sid.

Definition entry_name (pfx idx sid : string) : string :=
  pfx ++ entry_stem idx sid ++ "_hr.csv".

(** The text [_hr.csv] occurs in the name only as its ending. *)
Definition suffix_only_at_end (stem : string) : Prop :=
  Str.contains (stem ++ "_hr.cs") "_hr.csv" = false.

(** The sensor ids of a loaded session. *)
Definition loaded_sensor_ids (zip_path : string) (z : ZipFile) : option (list pyval) :=
  match load_from_zip zip_path z with
  | Ok r => Some (session.SensorData.sensor_id <$> session.RecordingSession.sensors r)
  | Raise _ => None
  end.

(** ** Identity, failures, timestamps *)

(** The id and the name of a loaded session. *)
Definition loaded_identity (zip_path : string) (z : ZipFile) : option (pyval * pyval) :=
  match load_from_zip zip_path z with
  | Ok r => Some (session.RecordingSession.id r, session.RecordingSession.name r)
  | Raise _ => None
  end.

(** The row can be assembled: its statistics file is there, or its average
    heart rate converts to an integer. *)
Definition row_assembles (z : ZipFile) (pfx : string) (i : nat) (row : SensorRow) : Prop :=
  is_ok (read z (stats_path pfx i row)) = true
  \/ is_ok (Num.int_of_float (avg_hr row)) = true.

(** A sensor whose second heart-rate point has no timestamp; the first has
    the timestamp the exporting app writes. *)
Definition unstamped_sensor_dict : dict :=
  <["sensorId" := VStr "ABC123"]>
    (<["heartRateData" :=
         VList [VDict (<["timestamp" := VStr "2024-05-15T19:30:00.100Z"]>
                       (<["value" := VInt 70]>
                        (<["monotonicTimestamp" := VFloat 100.1]> ∅)));
                VDict (<["value" := VInt 72]>
                       (<["monotonicTimestamp" := VFloat 101.1]> ∅))]]> ∅).

Definition unstamped_sensor : session.SensorData.t :=
  session.SensorData.mk unstamped_sensor_dict
    [session.mkHR (DT.mk 2024 5 15 19 30 0 100000 (Some 0)) 70 100.1;
     session.mkHR DT.min 72 101.1]
    [].

(** The same with a first timestamp that names no zone. *)
Definition unstamped_naive_sensor_dict : dict :=
  <["heartRateData" :=
      VList [VDict (<["timestamp" := VStr "2024-05-15T19:30:00"]>
                    (<["value" := VInt 70]> ∅));
             VDict (<["timestamp" := VStr ""]> (<["value" := VInt 72]> ∅))]]> ∅.

Definition unstamped_naive_sensor : session.SensorData.t :=
  session.SensorData.mk unstamped_naive_sensor_dict
    [session.mkHR (DT.mk 2024 5 15 19 30 0 0 None) 70 0%float;
     session.mkHR DT.min 72 0%float]
    [].

Definition year_out_of_range : pyexc := ValueError "year is out of range".

(** The loaded fixture, its sensor row, and the record assembled for that
    row when the statistics file is missing. *)
Definition fixture_session : session.RecordingSession.t :=
  Eval vm_compute in
    match load_from_zip "export.zip" fixture_archive with
    | Ok r => r
    | Raise _ => session.RecordingSession.mk ∅ []
    end.

Definition fixture_row : SensorRow :=
  mkRow None "ABC123" "Polar H10 ABC123" 60 60 72 45.2 38.7.

Definition fixture_synthesized_record : pyval :=
  Eval vm_compute in
    match sensor_recording fixture_without_statistics "recording_testid123_csv/" 0 fixture_row with
    | Ok rec => rec
    | Raise _ => VNone
    end.

(** The row with its name in quotes. *)
Definition quoted_name_row : string :=
  "ABC123," ++ String quotechar "My, Polar Strap" ++ String quotechar ",60,60,72,45.20,38.70".

(** A summary that announces five sensors and lists one. *)
Definition five_announced_archive : ZipFile :=
  [("recording_t_csv/session_info.csv",
    "Number of Sensors,5" ++ nl ++ "Sensors" ++ nl ++ "ABC123,Polar H10,60,60,72,45.20,38.70" ++ nl)].

(** The sensor count of the metadata and of the loaded session. *)
Definition announced_and_counted (zip_path : string) (z : ZipFile) : option (pyval * Z) :=
  match load_from_zip zip_path z with
  | Ok r =>
      Some (dget (session.RecordingSession.raw r) "sensorCount" VNone,
            session.RecordingSession.sensor_count r)
  | Raise _ => None
  end.

(** A valid archive: the recording folder is found, the summary is read
    from it, and every sensor row the loader runs over can be assembled. *)
Definition valid_archive (z : ZipFile) (folder content : string) : Prop :=
  _find_folder_in_zip z = Some folder
  /\ read z (session_info_path folder) = Ok content
  /\ forall k row,
       sensor_rows z (folder ++ "/") (snd (_parse_session_info content)) !! k = Some row ->
       row_assembles z (folder ++ "/") k row.

(** * Further properties of the code *)

(** The loop of [_parse_session_info] over the lines, from a state. *)
Definition psi_run (lines : list string) (st : psi_state) : psi_state :=
  fold_left psi_step lines st.

Definition psi_start : psi_state := mkPsi ∅ [] false.

(** A summary with a key line after the table. *)
Definition late_key_lines : list string :=
  ["Session ID,abc"; "Sensors"; "ABC123,Polar H10,60,60,72,45.20,38.70"; "Recording Name,late"].

(** The entry name [n] lies in the recording folder [top]: [top] is its
    first path segment and has the form [recording_..._csv]. *)
Definition in_folder (top n : string) : Prop :=
  exists rest,
    n = top ++ "/" ++ rest
    /\ Str.find top "/" = None
    /\ Str.startswith top "recording_" = true
    /\ Str.endswith top "_csv" = true.

Definition in_recording_folder (n : string) : Prop := exists top, in_folder top n.

(** The instant a data row of a heart-rate or RR file stands for: the
    timestamp read from its first field, [datetime.min] when that field is
    no timestamp. *)
Definition row_instant (line : string) : DT.datetime :=
  default DT.min (zip_loader._parse_iso (Str.strip (nth 0 (Str.split "," line) ""))).

(** The place of an aware instant on the UTC scale, in microseconds from
    0001-01-01, and its POSIX time stamp. *)
Definition instant_us (d : DT.datetime) : Z := DT.utc_us d (default 0 (DT.utcoffset d)).

Definition posix_seconds (d : DT.datetime) : float :=
  DT.total_seconds (instant_us d - DT.epoch_seconds * 1000000).

Definition aware (d : DT.datetime) : Prop := DT.utcoffset d <> None.

(** A sensor with two heart-rate points and one RR point, all in UTC. *)
Definition aware_sensor : session.SensorData.t :=
  session.SensorData.mk ∅
    [session.mkHR (DT.mk 2024 5 15 19 30 1 100000 (Some 0)) 70 100.1;
     session.mkHR (DT.mk 2024 5 15 19 30 0 100000 (Some 0)) 72 101.1]
    [session.mkRR (DT.mk 2024 5 15 19 30 5 0 (Some 0)) 820 100.15].

(** ** The sensors of a loaded session *)

(** The statistics the loader hands to the sensor of a row: those of the
    statistics file, or the synthesized ones when the file is missing. *)
Definition loaded_statistics (z : ZipFile) (pfx : string) (i : nat) (row : SensorRow)
    (st : dict) : Prop :=
  match read z (stats_path pfx i row) with
  | Ok c => st = _read_statistics_csv c
  | Raise _ =>
      synthesized_statistics (read_or_empty _read_hr_csv z (hr_path pfx i row)) row = Ok st
  end.

(** The sensor object built for the row at position [i]. *)
Definition loaded_sensor (z : ZipFile) (pfx : string) (i : nat) (row : SensorRow) (st : dict)
  : session.SensorData.t :=
  let hr := read_or_empty _read_hr_csv z (hr_path pfx i row) in
  let rr := read_or_empty _read_rr_csv z (rr_path pfx i row) in
  session.SensorData.mk (sensor_dict row hr rr st) (hr_point <$> hr) (rr_point <$> rr).

(** The sensor rows the loader runs over. *)
Definition loaded_rows (z : ZipFile) (folder content : string) : list SensorRow :=
  sensor_rows z (folder ++ "/") (snd (_parse_session_info content)).

(** The valid data rows of an entry; none when the entry is missing. *)
Definition file_rows (z : ZipFile) (path : string) : list string :=
  match read z path with
  | Ok c => List.filter valid_row (data_rows c)
  | Raise _ => []
  end.

(** The valid rows of the heart-rate and of the RR file of a sensor row. *)
Definition rows_in_files (z : ZipFile) (pfx : string) (i : nat) (row : SensorRow) : Z :=
  Z.of_nat (length (file_rows z (hr_path pfx i row)))
  + Z.of_nat (length (file_rows z (rr_path pfx i row))).

(** The keys the loader writes into a statistics dict, by the type of
    their values. *)
Definition int_keys : list string :=
  ["minHeartRate"; "maxHeartRate"; "averageHeartRate"; "hrvSampleCount";
   "heartRateSamples"; "rrIntervalSamples"].

Definition float_keys : list string := ["sdnn"; "rmssd"; "duration"].

Definition text_keys : list string := ["sensorId"; "sensorName"; "hrvWindow"].

Definition is_int (v : pyval) : bool := match v with VInt _ => true | _ => false end.
Definition is_float (v : pyval) : bool := match v with VFloat _ => true | _ => false end.
Definition is_text (v : pyval) : bool := match v with VStr _ => true | _ => false end.

Definition stat_typed (k : string) (v : pyval) : bool :=
  if existsb (String.eqb k) int_keys then is_int v
  else if existsb (String.eqb k) float_keys then is_float v
  else if existsb (String.eqb k) text_keys then is_text v
  else false.

(** Every entry of the dict is one of the loader's keys with a value of its
    type. *)
Definition typed_statistics (st : dict) : Prop :=
  map_Forall (fun k v => stat_typed k v = true) st.

(** Every statistic of the sensor can be read. *)
Definition statistics_readable (s : session.SensorData.t) : Prop :=
  is_ok (session.SensorData.heart_rate_min s) = true
  /\ is_ok (session.SensorData.heart_rate_max s) = true
  /\ is_ok (session.SensorData.heart_rate_avg s) = true
  /\ is_ok (session.SensorData.sdnn s) = true
  /\ is_ok (session.SensorData.rmssd s) = true
  /\ is_ok (session.SensorData.hrv_window s) = true
  /\ is_ok (session.SensorData.hrv_sample_count s) = true.

(** The keys of a session dict built by the loader, by the type of their
    values. *)
Definition is_date (v : pyval) : bool :=
  match v with VDatetime _ | VNone => true | _ => false end.

Definition is_list (v : pyval) : bool := match v with VList _ => true | _ => false end.

Definition meta_typed (k : string) (v : pyval) : bool :=
  if existsb (String.eqb k) ["id"; "name"] then is_text v
  else if existsb (String.eqb k) ["startDate"; "endDate"] then is_date v
  else if existsb (String.eqb k) ["duration"; "averageHeartRate"; "averageSDNN"; "averageRMSSD"]
  then is_float v
  else if existsb (String.eqb k) ["sensorCount"; "totalDataPoints"] then is_int v
  else if String.eqb k "sensorRecordings" then is_list v
  else false.

Definition typed_session (d : dict) : Prop :=
  map_Forall (fun k v => meta_typed k v = true) d.

(** The rows of a list that carry the index [k], in the order of the list. *)
Definition with_index (k : Z) (l : list SensorRow) : list SensorRow :=
  List.filter (fun r => (index_key r =? k)%Z) l.

(** The fields of a valid data row, as the point read from it holds them. *)
Definition row_holds (line : string) (instant : DT.datetime) (v : Z) (mono : float) : Prop :=
  instant = row_instant line
  /\ Num.parse_int (Str.strip (nth 3 (Str.split "," line) "")) = Some v
  /\ Num.parse_float (Str.strip (nth 2 (Str.split "," line) "")) = Some mono.

(** The instant the metadata hold under a key, when they hold one. *)
Definition meta_date (m : dict) (k : string) : option DT.datetime :=
  match m !! k with
  | Some (VDatetime d) => Some d
  | _ => None
  end.

(** Both instants name a zone, or neither does. *)
Definition same_kind (a b : DT.datetime) : Prop :=
  DT.utcoffset a = None <-> DT.utcoffset b = None.

(** The metadata field a key of the summary is stored under. *)
Definition meta_field (key : string) : option string :=
  if String.eqb key "Session ID" then Some "id"
  else if String.eqb key "Recording Name" then Some "name"
  else if String.eqb key "Start Time" then Some "startDate"
  else if String.eqb key "End Time" then Some "endDate"
  else if String.eqb key "Duration (seconds)" then Some "duration"
  else if String.eqb key "Number of Sensors" then Some "sensorCount"
  else if String.eqb key "Total Data Points" then Some "totalDataPoints"
  else if String.eqb key "Average Heart Rate (BPM)" then Some "averageHeartRate"
  else if String.eqb key "Average SDNN (ms)" then Some "averageSDNN"
  else if String.eqb key "Average RMSSD (ms)" then Some "averageRMSSD"
  else None.

(** The line does not set the field [f]: it has no comma, or the text before
    its first comma is no key of [f]. *)
Definition leaves_field (f : string) (line : string) : Prop :=
  forall idx, Str.find line "," = Some idx ->
    meta_field (Str.strip (Str.take idx line)) <> Some f.

(** [head] are the lines of the summary before its sensor table: all the
    lines when there is no [Sensors] line, else those before the first one. *)
Definition key_lines (content : string) (head : list string) : Prop :=
  exists tail,
    Str.splitlines content = (head ++ tail)%list
    /\ Forall (fun l => Str.strip l <> "Sensors") head
    /\ match tail with [] => True | marker :: _ => Str.strip marker = "Sensors" end.

(** A summary that names the recording twice. *)
Definition renamed_info : string :=
  "Recording Name,first" ++ nl
  ++ "Session ID,abc" ++ nl
  ++ "Recording Name, second " ++ nl
  ++ "Duration (seconds),12.5" ++ nl
  ++ "no comma here" ++ nl
  ++ "Sensors" ++ nl
  ++ "Recording Name,ABC123,60,60,72,45.20,38.70" ++ nl.

(** A UTC instant in the text form of the exporting app:
    [YYYY-MM-DDTHH:MM:SS.mmmZ] with milliseconds, or [YYYY-MM-DDTHH:MM:SSZ]
    without a fraction. *)
Definition utc_text (d : DT.datetime) (millis : bool) : string :=
  DT.pad 4 (DT.year d) ++ "-" ++ DT.pad 2 (DT.month d) ++ "-" ++ DT.pad 2 (DT.day d)
  ++ "T" ++ DT.pad 2 (DT.hour d) ++ ":" ++ DT.pad 2 (DT.minute d) ++ ":"
  ++ DT.pad 2 (DT.second d)
  ++ (if millis then "." ++ DT.pad 3 (DT.microsecond d / 1000) else "")
  ++ "Z".

(** The fraction carries the whole of the microseconds. *)
Definition fraction_exact (d : DT.datetime) (millis : bool) : Prop :=
  if millis then DT.microsecond d mod 1000 = 0 else DT.microsecond d = 0.

(** A text of slashes only. *)
Fixpoint only_slashes (t : string) : bool :=
  match t with
  | EmptyString => true
  | String c t' => Ascii.eqb c "/" && only_slashes t'
  end.

(** A server that answers every request with an empty list. *)
Definition no_recordings (url : string) : result pyval := Ok (VList []).

(** A field as [csv.reader] reads it without quotes: no comma in it, and no
    double quote at its head. *)
Definition plain_field (f : string) : Prop :=
  Str.find f "," = None /\ Str.startswith f (String quotechar "") = false.

(** The field in double quotes. *)
Definition quoted (f : string) : string := String quotechar (f ++ String quotechar "").

(** A line of the sensor table whose name stands in quotes. *)
Definition quoted_row_line (sid name a b c d e : string) : string :=
  sid ++ "," ++ quoted name ++ "," ++ a ++ "," ++ b ++ "," ++ c ++ "," ++ d ++ "," ++ e.

(** The entry a line of the statistics file with this key and value writes
    into the statistics dict; none for an unknown key and for a number that
    does not read. *)
Definition stat_entry (key value : string) : option (string * pyval) :=
  if String.eqb key "Sensor ID" then Some ("sensorId", VStr value)
  else if String.eqb key "Sensor Name" then Some ("sensorName", VStr value)
  else if String.eqb key "Duration (seconds)"
  then (fun x => ("duration", VFloat x)) <$> Num.parse_float value
  else if String.eqb key "Heart Rate Samples"
  then (fun n => ("heartRateSamples", VInt n)) <$> Num.parse_int value
  else if String.eqb key "RR Interval Samples"
  then (fun n => ("rrIntervalSamples", VInt n)) <$> Num.parse_int value
  else if String.eqb key "Min Heart Rate (BPM)"
  then (fun n => ("minHeartRate", VInt n)) <$> Num.parse_int value
  else if String.eqb key "Max Heart Rate (BPM)"
  then (fun n => ("maxHeartRate", VInt n)) <$> Num.parse_int value
  else if String.eqb key "Average Heart Rate (BPM)"
  then (fun n => ("averageHeartRate", VInt n)) <$> Num.parse_int value
  else if String.eqb key "SDNN (ms)"
  then (fun x => ("sdnn", VFloat x)) <$> Num.parse_float value
  else if String.eqb key "RMSSD (ms)"
  then (fun x => ("rmssd", VFloat x)) <$> Num.parse_float value
  else if String.eqb key "HRV Window" then Some ("hrvWindow", VStr value)
  else if String.eqb key "HRV Sample Count"
  then (fun n => ("hrvSampleCount", VInt n)) <$> Num.parse_int value
  else None.

(** The entry a whole line writes: the line is cut at its first comma. *)
Definition line_entry (line : string) : option (string * pyval) :=
  match Str.find line "," with
  | Some idx =>
      stat_entry (Str.strip (Str.take idx line)) (Str.strip (Str.drop (S idx) line))
  | None => None
  end.

(** The line writes nothing under the key [f]. *)
Definition writes_no (f : string) (line : string) : Prop :=
  forall v, line_entry line <> Some (f, v).

(** What the accessors of a sensor return for the entry [(f, v)] of its
    statistics. *)
Definition accessor_reads (s : session.SensorData.t) (f : string) (v : pyval) : Prop :=
  (f = "minHeartRate" -> session.SensorData.heart_rate_min s = py_int v)
  /\ (f = "maxHeartRate" -> session.SensorData.heart_rate_max s = py_int v)
  /\ (f = "averageHeartRate" -> session.SensorData.heart_rate_avg s = py_int v)
  /\ (f = "sdnn" -> session.SensorData.sdnn s = py_float v)
  /\ (f = "rmssd" -> session.SensorData.rmssd s = py_float v)
  /\ (f = "hrvWindow" -> session.SensorData.hrv_window s = Ok v)
  /\ (f = "hrvSampleCount" -> session.SensorData.hrv_sample_count s = py_int v).

(** A statistics file with an average that is no integer after one that
    is. *)
Definition twice_averaged_statistics : string :=
  "Metric,Value" ++ nl
  ++ "Average Heart Rate (BPM),72" ++ nl
  ++ "Average Heart Rate (BPM),72.5" ++ nl
  ++ "SDNN (ms),45.20" ++ nl.

(** * Proofs *)

(** ** The error monad and dict lookups *)

Lemma rbind_ok {A B} (m : result A) (k : A -> result B) (b : B) :
  (m ≫= k) = Ok b -> exists a, m = Ok a /\ k a = Ok b.
Proof. destruct m as [a|e]; simpl; [eauto | discriminate]. Qed.

Lemma rmap_length {A B} (f : A -> result B) (l : list A) (l' : list B) :
  rmap f l = Ok l' -> length l' = length l.
Proof.
  revert l'. induction l as [|x l IH]; intros l' H; simpl in H.
  - injection H as <-. reflexivity.
  - apply rbind_ok in H as (y & Hy & H).
    apply rbind_ok in H as (ys & Hys & H).
    injection H as <-. simpl. f_equal. auto.
Qed.

Lemma rmap_fmap_ok {A B C} (f : B -> result C) (g : A -> B) (h : A -> C) (l : list A) :
  (forall x, f (g x) = Ok (h x)) -> rmap f (g <$> l) = Ok (h <$> l).
Proof.
  intros Hf. induction l as [|x l IH]; [reflexivity|].
  rewrite !fmap_cons. cbn [rmap]. rewrite Hf, IH. reflexivity.
Qed.

Ltac dict_simpl :=
  unfold dget;
  repeat first
    [ rewrite lookup_insert_eq
    | rewrite lookup_insert_ne by (intro; discriminate)
    | rewrite lookup_empty ];
  cbn [default from_option id].

Lemma setdefault_lookup_eq (m : dict) k v :
  setdefault m k v !! k = Some (dget m k v).
Proof.
  unfold setdefault, dget. destruct (m !! k) eqn:H; cbn [default from_option id].
  - assumption.
  - apply lookup_insert_eq.
Qed.

Lemma setdefault_lookup_ne (m : dict) k k' v :
  k <> k' -> setdefault m k v !! k' = m !! k'.
Proof.
  intros Hne. unfold setdefault. destruct (m !! k); [reflexivity|].
  apply lookup_insert_ne. assumption.
Qed.

(** ** From the dicts of the loader to the objects of the model *)

Lemma point_from_hr_dict (p : PointRow) :
  session._point_from_hr (point_dict p) = Ok (hr_point p).
Proof.
  unfold session._point_from_hr, point_dict, hr_point. cbn [as_dict mbind result_bind].
  dict_simpl. reflexivity.
Qed.

Lemma point_from_rr_dict (p : PointRow) :
  session._point_from_rr (point_dict p) = Ok (rr_point p).
Proof.
  unfold session._point_from_rr, point_dict, rr_point. cbn [as_dict mbind result_bind].
  dict_simpl. reflexivity.
Qed.

Lemma sensor_init_dict row hr rr st :
  session.SensorData.init (VDict (sensor_dict row hr rr st))
  = Ok (session.SensorData.mk (sensor_dict row hr rr st) (hr_point <$> hr) (rr_point <$> rr)).
Proof.
  unfold session.SensorData.init, sensor_dict. cbn [as_dict mbind result_bind].
  dict_simpl. cbn [py_iter mbind result_bind].
  rewrite (rmap_fmap_ok _ _ hr_point) by apply point_from_hr_dict.
  cbn [mbind result_bind]. dict_simpl. cbn [py_iter mbind result_bind].
  rewrite (rmap_fmap_ok _ _ rr_point) by apply point_from_rr_dict.
  reflexivity.
Qed.

Lemma sensor_recording_ok z pfx i row rec :
  sensor_recording z pfx i row = Ok rec ->
  exists st,
    rec = VDict (sensor_dict row (read_or_empty _read_hr_csv z (hr_path pfx i row))
                   (read_or_empty _read_rr_csv z (rr_path pfx i row)) st).
Proof.
  unfold sensor_recording. intros H.
  apply rbind_ok in H as (st & _ & H). injection H as <-.
  exists st. reflexivity.
Qed.

Lemma sensor_recordings_length z pfx table : forall i recs,
  sensor_recordings z pfx i table = Ok recs -> length recs = length table.
Proof.
  induction table as [|row table IH]; intros i recs H; simpl in H.
  - injection H as <-. reflexivity.
  - apply rbind_ok in H as (r & Hr & H).
    apply rbind_ok in H as (rs & Hrs & H).
    injection H as <-. simpl. f_equal. eauto.
Qed.

Lemma sensor_recordings_init z pfx table : forall i recs,
  sensor_recordings z pfx i table = Ok recs ->
  exists ss, rmap session.SensorData.init recs = Ok ss.
Proof.
  induction table as [|row table IH]; intros i recs H; simpl in H.
  - injection H as <-. eexists. reflexivity.
  - apply rbind_ok in H as (r & Hr & H).
    apply rbind_ok in H as (rs & Hrs & H).
    injection H as <-.
    destruct (sensor_recording_ok _ _ _ _ _ Hr) as (st & ->).
    destruct (IH _ _ Hrs) as (ss & Hss).
    eexists. cbn [rmap]. rewrite sensor_init_dict. cbn [mbind result_bind].
    rewrite Hss. reflexivity.
Qed.

Lemma session_dict_inv zip_path z D :
  session_dict zip_path z = Ok D ->
  exists folder content recs,
    _find_folder_in_zip z = Some folder
    /\ read z (session_info_path folder) = Ok content
    /\ sensor_recordings z (folder ++ "/") 0
         (sensor_rows z (folder ++ "/") (snd (_parse_session_info content))) = Ok recs
    /\ D = <["sensorRecordings" := VList recs]>
             (default_identity (fst (_parse_session_info content))).
Proof.
  unfold session_dict. intros H.
  destruct (_find_folder_in_zip z) as [folder|]; [|discriminate].
  destruct (read z _) as [content|e] eqn:Hr; [|discriminate].
  destruct (_parse_session_info content) as [meta table] eqn:Hp.
  apply rbind_ok in H as (recs & Hrecs & H). injection H as <-.
  exists folder, content, recs. rewrite Hp. repeat split; auto.
Qed.

Lemma load_from_zip_inv zip_path z r :
  load_from_zip zip_path z = Ok r ->
  exists D recs,
    session_dict zip_path z = Ok D
    /\ D !! "sensorRecordings" = Some (VList recs)
    /\ rmap session.SensorData.init recs = Ok (session.RecordingSession._sensors r)
    /\ session.RecordingSession._data r = D.
Proof.
  unfold load_from_zip. intros H.
  apply rbind_ok in H as (D & HD & H).
  destruct (session_dict_inv _ _ _ HD) as (folder & content & recs & _ & _ & _ & ->).
  unfold session.RecordingSession.init in H.
  revert H. dict_simpl. cbn [py_iter mbind result_bind]. intros H.
  apply rbind_ok in H as (ss & Hss & H). injection H as <-.
  eexists _, recs. repeat split; auto. apply lookup_insert_eq.
Qed.

Lemma session_dict_init zip_path z D :
  session_dict zip_path z = Ok D ->
  exists r, session.RecordingSession.init D = Ok r.
Proof.
  intros HD.
  destruct (session_dict_inv _ _ _ HD) as (folder & content & recs & _ & _ & Hrecs & ->).
  destruct (sensor_recordings_init _ _ _ _ _ Hrecs) as (ss & Hss).
  unfold session.RecordingSession.init. dict_simpl. cbn [py_iter mbind result_bind].
  rewrite Hss. eexists; reflexivity.
Qed.

(** ** Identity defaults *)

Lemma default_identity_id (meta : dict) :
  default_identity meta !! "id" = Some (dget meta "id" (VStr "")).
Proof.
  unfold default_identity. rewrite setdefault_lookup_ne by discriminate.
  apply setdefault_lookup_eq.
Qed.

(** The name falls back to the id, and the id to the empty text: the
    literal [Unknown] is never stored. *)
Lemma default_identity_name (meta : dict) :
  default_identity meta !! "name" = Some (dget meta "name" (dget meta "id" (VStr ""))).
Proof.
  unfold default_identity. rewrite setdefault_lookup_eq. f_equal.
  unfold dget at 1 2. rewrite setdefault_lookup_eq.
  rewrite setdefault_lookup_ne by discriminate. reflexivity.
Qed.

(** ** Minimum and maximum of the heart-rate values *)

Lemma fold_min_spec (l : list Z) : forall x,
  In (fold_left Z.min l x) (x :: l) /\ Forall (fun v => fold_left Z.min l x <= v) (x :: l).
Proof.
  induction l as [|y l IH]; intros x; simpl.
  - split; [auto | constructor; [lia | constructor]].
  - destruct (IH (Z.min x y)) as [Hin Hall]. split.
    + destruct Hin as [Hin | Hin]; [|simpl; auto].
      destruct (Z.min_spec x y) as [[_ E] | [_ E]]; rewrite E in *; simpl; auto.
    + inversion Hall as [|? ? Hm Hl]; subst.
      constructor; [lia | constructor; [lia | assumption]].
Qed.

Lemma fold_max_spec (l : list Z) : forall x,
  In (fold_left Z.max l x) (x :: l) /\ Forall (fun v => v <= fold_left Z.max l x) (x :: l).
Proof.
  induction l as [|y l IH]; intros x; simpl.
  - split; [auto | constructor; [lia | constructor]].
  - destruct (IH (Z.max x y)) as [Hin Hall]. split.
    + destruct Hin as [Hin | Hin]; [|simpl; auto].
      destruct (Z.max_spec x y) as [[_ E] | [_ E]]; rewrite E in *; simpl; auto.
    + inversion Hall as [|? ? Hm Hl]; subst.
      constructor; [lia | constructor; [lia | assumption]].
Qed.

Lemma min_default_spec vs : least_or_zero (min_default vs) vs.
Proof. destruct vs as [|x l]; simpl; [reflexivity | apply fold_min_spec]. Qed.

Lemma max_default_spec vs : greatest_or_zero (max_default vs) vs.
Proof. destruct vs as [|x l]; simpl; [reflexivity | apply fold_max_spec]. Qed.

Lemma hr_point_values (hr : list PointRow) :
  session.hr_value <$> (hr_point <$> hr) = value <$> hr.
Proof. rewrite <- list_fmap_compose. reflexivity. Qed.

(** ** Text *)

Lemma str_app_cons (x : ascii) (a b : string) : String x a ++ b = String x (a ++ b).
Proof. reflexivity. Qed.

Lemma str_app_nil (b : string) : "" ++ b = b.
Proof. reflexivity. Qed.

Lemma str_app_assoc (a b c : string) : ((a ++ b) ++ c = a ++ (b ++ c))%string.
Proof.
  induction a as [|x a IH]; [reflexivity|].
  rewrite !str_app_cons, IH. reflexivity.
Qed.

Lemma str_length_app (a b : string) :
  String.length (a ++ b) = (String.length a + String.length b)%nat.
Proof.
  induction a as [|x a IH]; [reflexivity|].
  rewrite str_app_cons. cbn [String.length]. rewrite IH. reflexivity.
Qed.

Lemma startswith_app (p x : string) : Str.startswith (p ++ x) p = true.
Proof.
  induction p as [|a p IH]; [destruct x; reflexivity|].
  rewrite str_app_cons. cbn [Str.startswith]. rewrite Ascii.eqb_refl. assumption.
Qed.

Lemma startswith_refl (p : string) : Str.startswith p p = true.
Proof. induction p as [|a p IH]; simpl; [reflexivity | rewrite Ascii.eqb_refl; assumption]. Qed.

Lemma drop_app_length (p x : string) : Str.drop (String.length p) (p ++ x) = x.
Proof. induction p as [|a p IH]; [reflexivity | exact IH]. Qed.

Lemma drop_length (p : string) : Str.drop (String.length p) p = "".
Proof. induction p as [|a p IH]; simpl; [reflexivity | assumption]. Qed.

Lemma endswith_app (a s : string) : Str.endswith (a ++ s) s = true.
Proof.
  unfold Str.endswith. rewrite str_length_app.
  replace (String.length a + String.length s - String.length s)%nat
    with (String.length a) by lia.
  rewrite drop_app_length, String.eqb_refl.
  destruct (Nat.leb_spec (String.length s) (String.length a + String.length s)); [reflexivity | lia].
Qed.

(** A prefix that fits into the first part is a prefix of that part. *)
Lemma startswith_within (p s t : string) :
  Str.startswith (s ++ t) p = true ->
  (String.length p <= String.length s)%nat ->
  Str.startswith s p = true.
Proof.
  revert s. induction p as [|a p IH]; intros s H Hlen; [destruct s; reflexivity|].
  destruct s as [|b s]; [simpl in Hlen; lia|].
  rewrite str_app_cons in H. cbn [Str.startswith String.length] in *.
  destruct (Ascii.eqb a b); [|discriminate].
  apply (IH s); [assumption | lia].
Qed.

Lemma replace_fuel_empty (fuel : nat) (old new : string) :
  Str.replace_fuel fuel old new "" = "".
Proof. destruct fuel; reflexivity. Qed.

(** Removing a text that occurs only as the ending removes the ending. *)
Lemma replace_only_ending (init : string) (c : ascii) (a : string) : forall fuel,
  Str.contains (a ++ init) (init ++ String c "") = false ->
  (String.length (a ++ (init ++ String c "")) <= fuel)%nat ->
  Str.replace_fuel fuel (init ++ String c "") "" (a ++ (init ++ String c "")) = a.
Proof.
  set (old := (init ++ String c "")%string).
  assert (0 < String.length old)%nat as Hold.
  { unfold old. rewrite str_length_app. simpl. lia. }
  induction a as [|x a IH]; intros fuel Hno Hfuel.
  - rewrite str_app_nil in *. destruct fuel as [|fuel]; [lia|].
    cbn [Str.replace_fuel]. destruct old as [|o old'] eqn:Eo; [simpl in Hold; lia|].
    rewrite startswith_refl, drop_length, replace_fuel_empty. reflexivity.
  - rewrite str_app_cons in *. cbn [String.length] in Hfuel.
    destruct fuel as [|fuel]; [lia|].
    cbn [Str.replace_fuel]. cbn [Str.contains] in Hno.
    apply orb_false_elim in Hno as [Hhere Hlater].
    assert (Str.startswith (String x (a ++ old)) old = false) as Hs.
    { destruct (Str.startswith (String x (a ++ old)) old) eqn:E; [|reflexivity].
      rewrite <- Hhere. symmetry.
      apply (startswith_within old (String x (a ++ init)) (String c "")).
      - rewrite str_app_cons, str_app_assoc. exact E.
      - unfold old. cbn [String.length]. rewrite !str_length_app. simpl. lia. }
    rewrite Hs. f_equal. apply IH; [assumption | lia].
Qed.

Lemma find_cons_none (x c : ascii) (a : string) :
  Str.find (String x a) c = None -> Ascii.eqb x c = false /\ Str.find a c = None.
Proof.
  cbn [Str.find]. destruct (Ascii.eqb x c); [discriminate|].
  destruct (Str.find a c); [discriminate | auto].
Qed.

(** The first field ends at the first separator. *)
Lemma split_first (c : ascii) (a b : string) :
  Str.find a c = None ->
  Str.split c (a ++ String c b) = a :: Str.split c b.
Proof.
  induction a as [|x a IH]; intros H.
  - rewrite str_app_nil. cbn [Str.split]. rewrite Ascii.eqb_refl. reflexivity.
  - apply find_cons_none in H as [Hx Ha].
    rewrite str_app_cons. cbn [Str.split]. rewrite Hx, (IH Ha). reflexivity.
Qed.

Lemma split_nonempty (c : ascii) (s : string) : Str.split c s <> [].
Proof.
  destruct s as [|x s]; cbn [Str.split]; [discriminate|].
  destruct (Ascii.eqb x c); [discriminate|]. destruct (Str.split c s); discriminate.
Qed.

Lemma join_cons_char (sep : string) (x : ascii) (f : string) (fs : list string) :
  Str.join sep (String x f :: fs) = String x (Str.join sep (f :: fs)).
Proof. destruct fs; reflexivity. Qed.

(** Rejoining the fields gives the text back. *)
Lemma join_split (c : ascii) (s : string) :
  Str.join (String c "") (Str.split c s) = s.
Proof.
  induction s as [|x s IH]; [reflexivity|]. cbn [Str.split].
  destruct (Ascii.eqb_spec x c) as [->|Hne].
  - destruct (Str.split c s) as [|f fs] eqn:E; [destruct (split_nonempty _ _ E)|].
    cbn [Str.join]. rewrite <- IH. reflexivity.
  - destruct (Str.split c s) as [|f fs] eqn:E; [destruct (split_nonempty _ _ E)|].
    rewrite join_cons_char, IH. reflexivity.
Qed.

(** ** Identity of the loaded session *)

Lemma loaded_identity_spec zip_path z r :
  load_from_zip zip_path z = Ok r ->
  exists folder content,
    _find_folder_in_zip z = Some folder
    /\ read z (session_info_path folder) = Ok content
    /\ session.RecordingSession.id r
       = dget (fst (_parse_session_info content)) "id" (VStr "")
    /\ session.RecordingSession.name r
       = dget (fst (_parse_session_info content)) "name" (session.RecordingSession.id r).
Proof.
  intros H.
  destruct (load_from_zip_inv _ _ _ H) as (D & recs & HD & _ & _ & Hdata).
  destruct (session_dict_inv _ _ _ HD) as (folder & content & recs' & Hf & Hc & _ & HDeq).
  exists folder, content. split; [assumption|]. split; [assumption|].
  assert (session.RecordingSession.id r
          = dget (fst (_parse_session_info content)) "id" (VStr "")) as Hid.
  { unfold session.RecordingSession.id. rewrite Hdata, HDeq. unfold dget at 1.
    rewrite lookup_insert_ne by discriminate. rewrite default_identity_id. reflexivity. }
  split; [exact Hid|]. rewrite Hid.
  unfold session.RecordingSession.name. rewrite Hdata, HDeq. unfold dget at 1.
  rewrite lookup_insert_ne by discriminate. rewrite default_identity_name. reflexivity.
Qed.

(** C4: the id defaults to the empty text and the name to the id; with
    neither in the summary the name is the empty text and not the literal
    [Unknown], which the second [setdefault] can no longer reach. *)
Theorem C4_missing_id_and_name_give_empty_name :
  (forall meta : dict,
     default_identity meta !! "id" = Some (dget meta "id" (VStr ""))
     /\ default_identity meta !! "name" = Some (dget meta "name" (dget meta "id" (VStr ""))))
  /\ fst (_parse_session_info ("Recording Information" ++ nl)) = ∅
  /\ loaded_identity "export.zip" no_identity_archive = Some (VStr "", VStr "").
Proof.
  split; [intros meta; split; [apply default_identity_id | apply default_identity_name]|].
  split; vm_compute; reflexivity.
Qed.

(** ** What makes a load fail *)

Lemma load_without_folder zip_path z :
  _find_folder_in_zip z = None ->
  load_from_zip zip_path z
  = Raise (ValueError ("No recording_*_csv folder found in zip: " ++ zip_path)).
Proof. intros H. unfold load_from_zip, session_dict. rewrite H. reflexivity. Qed.

Lemma load_without_session_info zip_path z folder e :
  _find_folder_in_zip z = Some folder ->
  read z (session_info_path folder) = Raise e ->
  load_from_zip zip_path z
  = Raise (ValueError ("Missing " ++ session_info_path folder ++ " in zip")).
Proof. intros H Hr. unfold load_from_zip, session_dict. rewrite H, Hr. reflexivity. Qed.

Lemma sensor_recording_assembles z pfx i row :
  row_assembles z pfx i row -> exists rec, sensor_recording z pfx i row = Ok rec.
Proof.
  unfold row_assembles, sensor_recording, synthesized_statistics. intros [H | H].
  - destruct (read z (stats_path pfx i row)); [|discriminate]. eexists. reflexivity.
  - destruct (read z (stats_path pfx i row)); [eexists; reflexivity|].
    destruct (Num.int_of_float (avg_hr row)); [|discriminate]. eexists. reflexivity.
Qed.

Lemma sensor_recordings_assemble z pfx table : forall i,
  (forall k row, table !! k = Some row -> row_assembles z pfx (i + k) row) ->
  exists recs, sensor_recordings z pfx i table = Ok recs.
Proof.
  induction table as [|row table IH]; intros i H; [eexists; reflexivity|].
  destruct (sensor_recording_assembles z pfx i row) as (rec & Hrec).
  { specialize (H 0%nat row eq_refl). rewrite Nat.add_0_r in H. exact H. }
  destruct (IH (S i)) as (recs & Hrecs).
  { intros k r Hk. specialize (H (S k) r Hk).
    replace (S i + k)%nat with (i + S k)%nat by lia. exact H. }
  cbn [sensor_recordings]. rewrite Hrec. cbn [mbind result_bind]. rewrite Hrecs.
  eexists. reflexivity.
Qed.

(** With the folder and the summary present, a load succeeds as soon as
    every sensor row can be assembled. *)
Lemma load_succeeds zip_path z folder content :
  _find_folder_in_zip z = Some folder ->
  read z (session_info_path folder) = Ok content ->
  (forall k row,
     sensor_rows z (folder ++ "/") (snd (_parse_session_info content)) !! k = Some row ->
     row_assembles z (folder ++ "/") k row) ->
  exists r, load_from_zip zip_path z = Ok r.
Proof.
  intros Hf Hc Hrows.
  destruct (sensor_recordings_assemble z (folder ++ "/") _ 0%nat Hrows) as (recs & Hrecs).
  assert (exists D, session_dict zip_path z = Ok D) as (D & HD).
  { unfold session_dict. rewrite Hf, Hc.
    destruct (_parse_session_info content) as [meta table]. cbn [snd] in Hrecs.
    rewrite Hrecs. eexists. reflexivity. }
  destruct (session_dict_init _ _ _ HD) as (r & Hr).
  exists r. unfold load_from_zip. rewrite HD. exact Hr.
Qed.

(** C5: an archive with the folder and the summary, whose one sensor row
    has [nan] as average heart rate and no statistics file, does not load:
    the conversion of the average to an integer raises and nothing catches
    it. *)
Theorem C5_nan_average_aborts_load :
  _find_folder_in_zip nan_archive = Some "recording_t_csv"
  /\ is_ok (read nan_archive (session_info_path "recording_t_csv")) = true
  /\ load_from_zip "export.zip" nan_archive
     = Raise (ValueError "cannot convert float NaN to integer").
Proof. repeat split; vm_compute; reflexivity. Qed.

(** ** Points without a timestamp *)

Lemma parse_iso_cases (m : dict) :
  m !! "timestamp" = None
  \/ m !! "timestamp" = Some VNone
  \/ (exists s, m !! "timestamp" = Some (VStr s)
                /\ DT.fromisoformat (Str.replace "Z" "+00:00" s) = None) ->
  session._parse_iso (dget m "timestamp" VNone) = None.
Proof.
  unfold dget. intros [-> | [-> | (s & -> & Hs)]]; [reflexivity | reflexivity | exact Hs].
Qed.

(** A point dict without a readable timestamp becomes a point at
    [datetime.min]; it is not dropped. *)
Lemma point_without_timestamp (m : dict) :
  session._parse_iso (dget m "timestamp" VNone) = None ->
  (forall p, session._point_from_hr (VDict m) = Ok p -> session.hr_timestamp p = DT.min)
  /\ (forall p, session._point_from_rr (VDict m) = Ok p -> session.rr_timestamp p = DT.min).
Proof.
  intros Hts. split; intros p Hp.
  - unfold session._point_from_hr in Hp. cbn [as_dict mbind result_bind] in Hp.
    rewrite Hts in Hp.
    destruct (py_int _); [|discriminate]. destruct (py_float _); [|discriminate].
    injection Hp as <-. reflexivity.
  - unfold session._point_from_rr in Hp. cbn [as_dict mbind result_bind] in Hp.
    rewrite Hts in Hp.
    destruct (py_int _); [|discriminate]. destruct (py_float _); [|discriminate].
    injection Hp as <-. reflexivity.
Qed.

Lemma local_error (o u : Z) :
  DT.local o u = Ok (u + o) \/ DT.local o u = Raise year_out_of_range.
Proof. unfold DT.local. destruct (DT.seconds_in_range _); auto. Qed.

(** The search fails for an instant of the first day: it looks a day
    earlier. *)
Lemma local_to_seconds_first_day (o t : Z) :
  t < 24 * 3600 -> DT.local_to_seconds o t = Raise year_out_of_range.
Proof.
  intros Ht. unfold DT.local_to_seconds.
  destruct (local_error o t) as [E | E]; rewrite E; [|reflexivity].
  cbn [mbind result_bind].
  destruct (local_error o (t - (t + o - t))) as [E1 | E1]; rewrite E1; [|reflexivity].
  cbn [mbind result_bind].
  replace (t - (t + o - t) + o =? t)%Z with true by (symmetry; apply Z.eqb_eq; lia).
  assert (DT.local o (t - (t + o - t) - 24 * 3600) = Raise year_out_of_range) as E2.
  { unfold DT.local.
    replace (DT.seconds_in_range (t - (t + o - t) - 24 * 3600 + o)) with false; [reflexivity|].
    unfold DT.seconds_in_range. symmetry. apply andb_false_intro1. apply Z.leb_gt. lia. }
  rewrite E2. reflexivity.
Qed.

(** [datetime.min.timestamp()] raises in every zone. *)
Lemma timestamp_min_raises (o : Z) : DT.timestamp o DT.min = Raise year_out_of_range.
Proof.
  unfold DT.timestamp. cbn [DT.utcoffset DT.min].
  rewrite local_to_seconds_first_day; [reflexivity|]. vm_compute. reflexivity.
Qed.

Lemma local_to_seconds_error (o t : Z) :
  (exists u, DT.local_to_seconds o t = Ok u)
  \/ DT.local_to_seconds o t = Raise year_out_of_range.
Proof.
  unfold DT.local_to_seconds.
  repeat first
    [ match goal with
      | |- context [DT.local o ?u] =>
          let E := fresh "E" in
          destruct (local_error o u) as [E | E]; rewrite E; cbn [mbind result_bind];
          [|right; reflexivity]
      end
    | match goal with
      | |- context [if ?c then _ else _] => destruct c; cbn [mbind result_bind]
      end ];
    left; eexists; reflexivity.
Qed.

Lemma timestamp_naive_error (o : Z) (d : DT.datetime) :
  DT.utcoffset d = None ->
  (exists x, DT.timestamp o d = Ok x) \/ DT.timestamp o d = Raise year_out_of_range.
Proof.
  intros Hd. unfold DT.timestamp. rewrite Hd.
  destruct (local_to_seconds_error o (DT.field_seconds d)) as [(u & ->) | ->].
  - left. eexists. reflexivity.
  - right. reflexivity.
Qed.

(** The duration of a sensor with at least one point. *)
Lemma duration_seconds_eq (o : Z) (s : session.SensorData.t) x l :
  session.SensorData.times s = x :: l ->
  session.SensorData.duration_seconds o s
  = (hi ← DT.max_of (x :: l);
     a ← DT.timestamp o hi;
     lo ← DT.min_of (x :: l);
     b ← DT.timestamp o lo;
     Ok (PrimFloat.sub a b)).
Proof.
  intros H. unfold session.SensorData.duration_seconds. rewrite H.
  unfold session.SensorData.times in H.
  destruct (session.SensorData._hr_points s), (session.SensorData._rr_points s);
    [discriminate H | reflexivity | reflexivity | reflexivity].
Qed.

(** C10: the point without timestamp is kept and stands at [datetime.min];
    the duration of the sensor is then no span at all: comparing the
    minimum instant with the aware instant of the other point raises, in
    every zone. With a timestamp that names no zone the instants compare,
    and it is [datetime.min.timestamp()] that raises. *)
Theorem C10_duration_raises_with_unstamped_point (local_offset : Z) :
  session.SensorData.init (VDict unstamped_sensor_dict) = Ok unstamped_sensor
  /\ session.hr_timestamp <$> session.SensorData.heart_rate_points unstamped_sensor
     = [DT.mk 2024 5 15 19 30 0 100000 (Some 0); DT.min]
  /\ session.SensorData.duration_seconds local_offset unstamped_sensor
     = Raise (TypeError "can't compare offset-naive and offset-aware datetimes")
  /\ session.SensorData.init (VDict unstamped_naive_sensor_dict) = Ok unstamped_naive_sensor
  /\ session.SensorData.duration_seconds local_offset unstamped_naive_sensor
     = Raise year_out_of_range.
Proof.
  split; [vm_compute; reflexivity|]. split; [reflexivity|]. split; [reflexivity|].
  split; [vm_compute; reflexivity|].
  rewrite (duration_seconds_eq local_offset unstamped_naive_sensor
             (DT.mk 2024 5 15 19 30 0 0 None) [DT.min] eq_refl).
  change (DT.max_of _) with (Ok (A:=DT.datetime) (DT.mk 2024 5 15 19 30 0 0 None)).
  cbn [mbind result_bind].
  destruct (timestamp_naive_error local_offset (DT.mk 2024 5 15 19 30 0 0 None) eq_refl)
    as [(x & ->) | ->]; [|reflexivity].
  cbn [mbind result_bind].
  change (DT.min_of _) with (Ok (A:=DT.datetime) DT.min).
  cbn [mbind result_bind]. rewrite timestamp_min_raises. reflexivity.
Qed.

(** *** No sensor with a point at [datetime.min] has a duration *)

Lemma lt_same_kind (a b : DT.datetime) (r : bool) :
  DT.lt a b = Ok r -> (DT.utcoffset a = None <-> DT.utcoffset b = None).
Proof.
  unfold DT.lt. destruct (DT.utcoffset a), (DT.utcoffset b); intros H;
    try discriminate H; split; (discriminate || reflexivity).
Qed.

Lemma max_from_kind (l : list DT.datetime) : forall cur m,
  DT.max_from cur l = Ok m ->
  Forall (fun x => DT.utcoffset x = None <-> DT.utcoffset cur = None) l.
Proof.
  induction l as [|x l IH]; intros cur m H; [constructor|].
  cbn [DT.max_from] in H. apply rbind_ok in H as (b & Hb & H).
  pose proof (lt_same_kind _ _ _ Hb) as Hk.
  constructor; [tauto|].
  specialize (IH _ _ H). eapply Forall_impl; [exact IH|].
  intros y Hy. cbn beta in Hy. destruct b; tauto.
Qed.

Lemma min_from_naive (l : list DT.datetime) : forall cur m,
  DT.utcoffset cur = None ->
  DT.min_from cur l = Ok m ->
  In m (cur :: l)
  /\ DT.field_us m <= DT.field_us cur
  /\ Forall (fun x => DT.field_us m <= DT.field_us x) l.
Proof.
  induction l as [|x l IH]; intros cur m Hcur H.
  - injection H as <-. split; [left; reflexivity|]. split; [lia | constructor].
  - cbn [DT.min_from] in H. apply rbind_ok in H as (b & Hb & H).
    pose proof (lt_same_kind _ _ _ Hb) as Hk.
    assert (DT.utcoffset x = None) as Hx by tauto.
    unfold DT.lt in Hb. rewrite Hx, Hcur in Hb. injection Hb as <-.
    destruct (Z.ltb_spec (DT.field_us x) (DT.field_us cur)) as [Hlt | Hge].
    + destruct (IH _ _ Hx H) as (Hin & Hle & Hall).
      split; [right; exact Hin|]. split; [lia|]. constructor; [lia | exact Hall].
    + destruct (IH _ _ Hcur H) as (Hin & Hle & Hall).
      split; [destruct Hin as [<- | Hin]; [left; reflexivity | right; right; exact Hin]|].
      split; [lia|]. constructor; [lia | exact Hall].
Qed.

(** Whatever the zone and whatever the other timestamps, a sensor that
    holds a point at [datetime.min] has no duration: the evaluation
    raises. *)
Lemma duration_raises_at_minimum (o : Z) (s : session.SensorData.t) :
  In DT.min (session.SensorData.times s) ->
  Forall (fun d => 0 <= DT.microsecond d) (session.SensorData.times s) ->
  is_ok (session.SensorData.duration_seconds o s) = false.
Proof.
  intros Hin Hus. destruct (session.SensorData.times s) as [|x l] eqn:Ht; [destruct Hin|].
  rewrite (duration_seconds_eq o s x l Ht). cbn [DT.max_of DT.min_of].
  destruct (DT.max_from x l) as [hi|e] eqn:Hmax; [|reflexivity].
  cbn [mbind result_bind].
  pose proof (max_from_kind _ _ _ Hmax) as Hkind.
  assert (DT.utcoffset x = None) as Hx.
  { destruct Hin as [-> | Hin]; [reflexivity|].
    rewrite List.Forall_forall in Hkind. apply (Hkind _ Hin). reflexivity. }
  destruct (DT.timestamp o hi) as [a|e]; [|reflexivity]. cbn [mbind result_bind].
  destruct (DT.min_from x l) as [lo|e] eqn:Hmin; [|reflexivity].
  cbn [mbind result_bind].
  destruct (min_from_naive _ _ _ Hx Hmin) as (Hlo & Hle & Hall).
  assert (DT.utcoffset lo = None) as Hlo_naive.
  { destruct Hlo as [<- | Hlo]; [exact Hx|].
    rewrite List.Forall_forall in Hkind. apply (Hkind _ Hlo). exact Hx. }
  assert (DT.field_us lo <= 0) as Hlow.
  { change 0 with (DT.field_us DT.min).
    destruct Hin as [<- | Hin]; [exact Hle|].
    rewrite List.Forall_forall in Hall. apply (Hall _ Hin). }
  assert (0 <= DT.microsecond lo) as Hlo_us.
  { rewrite List.Forall_forall in Hus. apply (Hus _ Hlo). }
  unfold DT.timestamp. rewrite Hlo_naive.
  rewrite local_to_seconds_first_day; [reflexivity|].
  unfold DT.field_us in Hlow. lia.
Qed.

(** ** Sensor count *)

(** C9: a valid archive loads, and [sensor_count] of the session is the
    number of sensor rows the loader ran over (the table of the summary, or
    the discovered rows) and the length of the [sensorRecordings] list of
    the session dict; no metadata value enters. *)
Theorem C9_sensor_count_is_row_count zip_path z folder content :
  valid_archive z folder content ->
  exists r recs,
    load_from_zip zip_path z = Ok r
    /\ session.RecordingSession.sensor_count r
       = Z.of_nat (length (sensor_rows z (folder ++ "/") (snd (_parse_session_info content))))
    /\ session.RecordingSession.raw r !! "sensorRecordings" = Some (VList recs)
    /\ session.RecordingSession.sensor_count r = Z.of_nat (length recs).
Proof.
  intros (Hf & Hc & Hrows).
  destruct (load_succeeds zip_path z folder content Hf Hc Hrows) as (r & H).
  destruct (load_from_zip_inv _ _ _ H) as (D & recs & HD & Hl & Hss & Hdata).
  destruct (session_dict_inv _ _ _ HD) as (folder' & content' & recs' & Hf' & Hc' & Hrecs & HDeq).
  assert (folder' = folder) as -> by congruence.
  assert (content' = content) as -> by congruence.
  assert (recs' = recs) as ->.
  { rewrite HDeq, lookup_insert_eq in Hl. congruence. }
  exists r, recs. split; [exact H|].
  unfold session.RecordingSession.sensor_count, session.RecordingSession.raw.
  rewrite Hdata, (rmap_length _ _ _ Hss), (sensor_recordings_length _ _ _ _ _ Hrecs).
  repeat split; auto.
Qed.

(** ** Synthesized statistics *)

(** C8: for a sensor row whose statistics file is missing and whose average
    heart rate is a finite number, the record is assembled, and the sensor
    built from it reports: the least and the greatest value of its
    heart-rate points as minimum and maximum (0 for no point), the truncated
    [avg_hr] of the row as average, the [sdnn] and [rmssd] of the row, an
    empty HRV window and an HRV sample count of 0. *)
Theorem C8_statistics_synthesized_when_file_missing z pfx i row e a :
  read z (stats_path pfx i row) = Raise e ->
  Num.int_of_float (avg_hr row) = Ok a ->
  exists rec s,
    sensor_recording z pfx i row = Ok rec
    /\ session.SensorData.init rec = Ok s
    /\ session.hr_value <$> session.SensorData.heart_rate_points s
       = value <$> read_or_empty _read_hr_csv z (hr_path pfx i row)
    /\ session.SensorData.heart_rate_min s
       = Ok (min_default (session.hr_value <$> session.SensorData.heart_rate_points s))
    /\ least_or_zero (min_default (session.hr_value <$> session.SensorData.heart_rate_points s))
         (session.hr_value <$> session.SensorData.heart_rate_points s)
    /\ session.SensorData.heart_rate_max s
       = Ok (max_default (session.hr_value <$> session.SensorData.heart_rate_points s))
    /\ greatest_or_zero (max_default (session.hr_value <$> session.SensorData.heart_rate_points s))
         (session.hr_value <$> session.SensorData.heart_rate_points s)
    /\ session.SensorData.heart_rate_avg s = Ok a
    /\ session.SensorData.sdnn s = Ok (sdnn row)
    /\ session.SensorData.rmssd s = Ok (rmssd row)
    /\ session.SensorData.hrv_window s = Ok (VStr "")
    /\ session.SensorData.hrv_sample_count s = Ok 0.
Proof.
  intros Hmiss Ha. unfold sensor_recording, synthesized_statistics.
  rewrite Hmiss, Ha. cbn [mbind result_bind].
  eexists _, _. split; [reflexivity|]. rewrite sensor_init_dict. split; [reflexivity|].
  unfold session.SensorData.heart_rate_min, session.SensorData.heart_rate_max,
    session.SensorData.heart_rate_avg, session.SensorData.sdnn, session.SensorData.rmssd,
    session.SensorData.hrv_window, session.SensorData.hrv_sample_count,
    session.SensorData.statistics, session.SensorData.heart_rate_points.
  cbn [session.SensorData._data session.SensorData._hr_points].
  rewrite hr_point_values.
  unfold sensor_dict. dict_simpl. cbn [as_dict mbind result_bind]. dict_simpl.
  cbn [py_int py_float].
  repeat split; auto using min_default_spec, max_default_spec.
Qed.

(** ** The per-sensor CSV parsers *)

Lemma point_of_line_valid line :
  valid_row line = true ->
  exists p, point_of_line line = Some p /\ row_point line p.
Proof.
  unfold valid_row, point_of_line, row_point. intros H.
  apply andb_prop in H as [H H4]. apply andb_prop in H as [H H3].
  apply andb_prop in H as [H1 H2].
  apply bool_decide_eq_true in H2 as [u Hu].
  apply bool_decide_eq_true in H3 as [m Hm].
  apply bool_decide_eq_true in H4 as [v Hv].
  apply Nat.leb_le in H1.
  destruct (Nat.ltb_spec (length (Str.split "," line)) 4) as [Hlt|_]; [lia|].
  rewrite Hu, Hm, Hv. cbn [mbind option_bind].
  eexists. split; [reflexivity|]. cbn [monotonicTimestamp value timestamp].
  repeat split.
Qed.

Lemma point_of_line_invalid line :
  valid_row line = false -> point_of_line line = None.
Proof.
  unfold valid_row, point_of_line. intros H.
  destruct (Nat.ltb_spec (length (Str.split "," line)) 4) as [Hlt|Hge]; [reflexivity|].
  apply Nat.leb_le in Hge. rewrite Hge in H. cbn [andb] in H.
  destruct (Num.parse_float (Str.strip (nth 1 _ ""))) as [u|]; [|reflexivity].
  destruct (Num.parse_float (Str.strip (nth 2 _ ""))) as [m|]; [|reflexivity].
  destruct (Num.parse_int (Str.strip (nth 3 _ ""))) as [v|]; [|reflexivity].
  rewrite !bool_decide_eq_true_2 in H by eauto. discriminate.
Qed.

(** The kept rows correspond, in order, to the valid rows. *)
Lemma omap_point_of_line (rows : list string) :
  Forall2 row_point (List.filter valid_row rows) (omap point_of_line rows).
Proof.
  induction rows as [|line rows IH]; [constructor|].
  cbn [List.filter omap list_omap]. destruct (valid_row line) eqn:Hv.
  - destruct (point_of_line_valid _ Hv) as (p & -> & Hp). constructor; assumption.
  - rewrite (point_of_line_invalid _ Hv). assumption.
Qed.

Lemma read_points_rows content :
  read_points content = omap point_of_line (data_rows content).
Proof.
  unfold read_points, data_rows.
  destruct (Str.splitlines (Str.strip content)) as [|h [|l ls]]; reflexivity.
Qed.

(** C6: the heart-rate (RR) parser keeps, in order, exactly the valid rows
    among the lines after the header; a kept row carries the value and the
    monotonic time of its fields and the ISO text of its timestamp, or the
    empty text when the timestamp is unreadable; the sensor built from the
    parsed points has as many heart-rate points as there are valid rows. *)
Theorem C6_csv_rows_kept_iff_valid content :
  Forall2 row_point (List.filter valid_row (data_rows content)) (_read_hr_csv content)
  /\ Forall2 row_point (List.filter valid_row (data_rows content)) (_read_rr_csv content)
  /\ forall row rr st,
       exists s,
         session.SensorData.init (VDict (sensor_dict row (_read_hr_csv content) rr st)) = Ok s
         /\ length (session.SensorData.heart_rate_points s)
            = length (List.filter valid_row (data_rows content)).
Proof.
  unfold _read_hr_csv, _read_rr_csv. rewrite read_points_rows.
  pose proof (omap_point_of_line (data_rows content)) as HF.
  repeat split; [assumption | assumption |].
  intros row rr st. rewrite sensor_init_dict. eexists. split; [reflexivity|].
  cbn [session.SensorData.heart_rate_points session.SensorData._hr_points].
  rewrite length_fmap. symmetry. apply (Forall2_length _ _ _ HF).
Qed.

(** A row with a non-numeric monotonic time is dropped and the rest of the
    file still parses; a row with an unreadable timestamp is kept with the
    empty text. *)
Example read_hr_csv_bad_rows :
  _read_hr_csv hr_csv_with_bad_rows
  = [mkPoint "2024-05-15T19:30:00.100000+00:00" 70 100.1; mkPoint "" 72 102.1].
Proof. vm_compute. reflexivity. Qed.

(** ** Session averages of SDNN and RMSSD *)

Lemma rmap_Forall2 {A B} (f : A -> result B) (l : list A) (vs : list B) :
  Forall2 (fun x v => f x = Ok v) l vs -> rmap f l = Ok vs.
Proof.
  induction 1 as [|x v l vs Hx _ IH]; [reflexivity|].
  cbn [rmap]. rewrite Hx, IH. reflexivity.
Qed.

Lemma filter_nil_existsb {A} (p : A -> bool) (l : list A) :
  List.filter p l = [] <-> existsb p l = false.
Proof.
  induction l as [|x l IH]; simpl; [tauto|].
  destruct (p x); simpl; [split; discriminate | exact IH].
Qed.

Lemma mean_of_positive_spec (vals : list float) :
  session.RecordingSession.mean_of_positive vals = mean_over_positive vals.
Proof.
  unfold session.RecordingSession.mean_of_positive, mean_over_positive, arithmetic_mean.
  fold positive. destruct (List.filter positive vals) as [|x l] eqn:Hf.
  - apply filter_nil_existsb in Hf. rewrite Hf. reflexivity.
  - destruct (existsb positive vals) eqn:He; [reflexivity|].
    apply filter_nil_existsb in He. congruence.
Qed.

(** C3: when the sensors of a session report the SDNN values [sd] and the
    RMSSD values [rm], [average_sdnn] and [average_rmssd] are the
    arithmetic means of the values strictly above zero, and 0.0 when no
    value is. *)
Theorem C3_hrv_averages_over_positive_sensors (r : session.RecordingSession.t)
    (sd rm : list float) :
  Forall2 (fun s v => session.SensorData.sdnn s = Ok v) (session.RecordingSession.sensors r) sd ->
  Forall2 (fun s v => session.SensorData.rmssd s = Ok v) (session.RecordingSession.sensors r) rm ->
  session.RecordingSession.average_sdnn r = Ok (mean_over_positive sd)
  /\ session.RecordingSession.average_rmssd r = Ok (mean_over_positive rm).
Proof.
  intros Hsd Hrm.
  unfold session.RecordingSession.average_sdnn, session.RecordingSession.average_rmssd.
  unfold session.RecordingSession.sensors in *.
  rewrite (rmap_Forall2 _ _ _ Hsd), (rmap_Forall2 _ _ _ Hrm).
  cbn [mbind result_bind]. rewrite !mean_of_positive_spec. split; reflexivity.
Qed.

Example two_sensor_session_init :
  session.RecordingSession.init two_sensor_dict = Ok two_sensor_session.
Proof. vm_compute. reflexivity. Qed.

(** Sensors with SDNN 45.2 and 0 average to 45.2, not to 22.6. *)
Lemma C3_witness :
  session.RecordingSession.average_sdnn two_sensor_session = Ok 45.2%float
  /\ session.RecordingSession.average_rmssd two_sensor_session = Ok 0%float.
Proof.
  apply (C3_hrv_averages_over_positive_sensors two_sensor_session
           [45.2%float; 0%float] [0%float; 0%float]);
    repeat constructor.
Defined.

(** ** The zip path and the JSON path converge *)

Lemma parse_iso_empty : session._parse_iso (VStr "") = None.
Proof. reflexivity. Qed.

(** A date field in JSON form selects and parses to the same instant. *)
Lemma json_date_parse (D D' : dict) (k k' : string) :
  json_date (D !! k) (D' !! k) ->
  D' !! k' = D !! k' ->
  session._parse_iso (py_or (dget D' k VNone) (dget D' k' VNone))
  = session._parse_iso (py_or (dget D k VNone) (dget D k' VNone)).
Proof.
  intros [Heq | (d & s & Hd & Hs & Hp)] Hk'; unfold dget.
  - rewrite Heq, Hk'. reflexivity.
  - rewrite Hd, Hs, Hk'. cbn [default from_option id]. unfold py_or.
    cbn [truthy]. destruct s as [|c s]; [rewrite parse_iso_empty in Hp; discriminate|].
    cbn [String.eqb negb]. rewrite Hp. reflexivity.
Qed.

Lemma same_field_values_init (D D' : dict) r :
  same_field_values D D' ->
  session.RecordingSession.init D = Ok r ->
  session.RecordingSession.init D'
  = Ok (session.RecordingSession.mk D' (session.RecordingSession._sensors r)).
Proof.
  intros (_ & _ & Hk) H. unfold session.RecordingSession.init, dget in *.
  rewrite !Hk by discriminate.
  apply rbind_ok in H as (l & Hl & H). apply rbind_ok in H as (ss & Hss & H).
  injection H as <-. rewrite Hl. cbn [mbind result_bind]. rewrite Hss. reflexivity.
Qed.

(** C1: when the parsing of an archive yields the session dict [D], the
    archive loads, and every dict [D'] with the same field values, the start
    and end instants possibly as text, gives a session with the same average
    heart rate, average SDNN, average RMSSD and duration as the loaded
    one. *)
Theorem C1_zip_and_json_sessions_agree zip_path z (D D' : dict) :
  session_dict zip_path z = Ok D ->
  same_field_values D D' ->
  exists r r',
    load_from_zip zip_path z = Ok r
    /\ session.RecordingSession.init D' = Ok r'
    /\ derived_statistics r' = derived_statistics r.
Proof.
  intros HD Hsame. destruct (session_dict_init _ _ _ HD) as (r & Hr).
  exists r, (session.RecordingSession.mk D' (session.RecordingSession._sensors r)).
  split; [unfold load_from_zip; rewrite HD; exact Hr|].
  split; [eapply same_field_values_init; eassumption|].
  assert (session.RecordingSession._data r = D) as HDr.
  { unfold session.RecordingSession.init in Hr.
    apply rbind_ok in Hr as (l & _ & Hr). apply rbind_ok in Hr as (ss & _ & Hr).
    injection Hr as <-. reflexivity. }
  destruct Hsame as (Hs & He & Hk).
  unfold derived_statistics. f_equal.
  unfold session.RecordingSession.duration_seconds,
    session.RecordingSession.start_date, session.RecordingSession.end_date.
  cbn [session.RecordingSession._data]. rewrite HDr.
  rewrite (json_date_parse D D' "startDate" "start_date" Hs) by (apply Hk; discriminate).
  rewrite (json_date_parse D D' "endDate" "end_date" He) by (apply Hk; discriminate).
  reflexivity.
Qed.

Example fixture_session_dict : session_dict "export.zip" fixture_archive = Ok fixture_dict.
Proof. vm_compute. reflexivity. Qed.

Lemma fixture_same_field_values : same_field_values fixture_dict fixture_json.
Proof.
  unfold fixture_json. split; [|split].
  - right. eexists _, _. rewrite lookup_insert_eq.
    split; [vm_compute; reflexivity|]. split; [reflexivity|]. vm_compute. reflexivity.
  - right. eexists _, _. rewrite lookup_insert_ne by discriminate.
    rewrite lookup_insert_eq.
    split; [vm_compute; reflexivity|]. split; [reflexivity|]. vm_compute. reflexivity.
  - intros k H1 H2. rewrite !lookup_insert_ne by congruence. reflexivity.
Qed.

Lemma C1_witness :
  exists r r',
    load_from_zip "export.zip" fixture_archive = Ok r
    /\ session.RecordingSession.init fixture_json = Ok r'
    /\ derived_statistics r' = derived_statistics r.
Proof.
  exact (C1_zip_and_json_sessions_agree "export.zip" fixture_archive fixture_dict fixture_json
           fixture_session_dict fixture_same_field_values).
Defined.

Example fixture_derived_statistics :
  exists r,
    load_from_zip "export.zip" fixture_archive = Ok r
    /\ derived_statistics r = (Ok 72%float, Ok 45.2%float, Ok 38.7%float, Ok 300%float).
Proof.
  eexists. split.
  - vm_compute. reflexivity.
  - vm_compute. reflexivity.
Qed.

(** ** The rows of the sensor table *)

Lemma from_end_app (pre suf : list string) (k : nat) :
  (0 < k <= length suf)%nat ->
  from_end (pre ++ suf)%list k = nth (length suf - k) suf "".
Proof.
  intros Hk. unfold from_end. rewrite length_app.
  rewrite app_nth2 by lia. f_equal. lia.
Qed.

Lemma sensor_row_short (row : list string) :
  (length row < 7)%nat -> sensor_row row = None.
Proof.
  intros H. unfold sensor_row.
  destruct (Nat.leb_spec 7 (length row)); [lia | reflexivity].
Qed.

Lemma sensor_row_fields (sid : string) (parts : list string) (a b c d e : string) :
  parts <> [] ->
  sensor_row (sid :: parts ++ [a; b; c; d; e])
  = Some (mkRow None (Str.strip sid) (Str.join "," (Str.strip <$> parts))
            (_int a) (_int b) (_float c) (_float d) (_float e)).
Proof.
  intros Hne. unfold sensor_row.
  assert (length (sid :: parts ++ [a; b; c; d; e]) = (6 + length parts)%nat) as Hlen.
  { cbn [length]. rewrite length_app. cbn [length]. lia. }
  assert (0 < length parts)%nat as Hpos by (destruct parts; [congruence | cbn; lia]).
  destruct (Nat.leb_spec 7 (length (sid :: parts ++ [a; b; c; d; e]))) as [_|Hlt]; [|lia].
  change (sid :: parts ++ [a; b; c; d; e]) with ((sid :: parts) ++ [a; b; c; d; e])%list.
  rewrite !from_end_app by (cbn [length]; lia). cbn [length Nat.sub nth].
  f_equal. f_equal.
  change ((sid :: parts) ++ [a; b; c; d; e])%list with (sid :: parts ++ [a; b; c; d; e]).
  rewrite Hlen.
  destruct (Nat.ltb_spec 7 (6 + length parts)) as [Hmany|Hone].
  - replace (6 + length parts - 5)%nat with (length (sid :: parts)) by (cbn [length]; lia).
    change (sid :: parts ++ [a; b; c; d; e]) with ((sid :: parts) ++ [a; b; c; d; e])%list.
    rewrite take_app_length. reflexivity.
  - destruct parts as [|p [|q parts]]; [congruence | reflexivity | cbn [length] in Hone; lia].
Qed.

(** In the table, a line whose fields number fewer than seven changes
    nothing. *)
Lemma psi_step_short_row (st : psi_state) (line : string) :
  in_sensors st = true ->
  table_row_line line ->
  (length (fields_of line) < 7)%nat ->
  psi_step st line = st.
Proof.
  intros Hin (Hblank & Hmark & Hhead) Hshort. unfold psi_step.
  apply String.eqb_neq in Hblank. apply String.eqb_neq in Hmark.
  rewrite Hblank, Hmark, Hin, Hhead.
  unfold csv_reader. destruct line as [|c line]; [reflexivity|].
  fold (fields_of (String c line)).
  destruct (fields_of (String c line)) as [|f fs] eqn:Hf; [reflexivity|].
  rewrite sensor_row_short by assumption. reflexivity.
Qed.

(** C2: the sensor name with commas does not come out as written. A row
    of fewer than seven fields gives no sensor and leaves the table as it is,
    and in a longer row the last five fields are the two sample counts and
    the three metrics, an unreadable number counting as 0: so far the code
    does what is said. But the name is not the text between the first and
    the last five columns: every piece between two commas is stripped on its
    own before the pieces are rejoined, so white space next to a comma of the
    name is lost. For the row [ABC123,My, Polar Strap,60,60,72,45.20,38.70]
    the text between the columns is [My, Polar Strap]; the code reads the
    name [My,Polar Strap] (and the RMSSD 38.70). *)
Theorem C2_comma_name_loses_inner_space :
  (forall row, (length row < 7)%nat -> sensor_row row = None)
  /\ (forall st line,
        in_sensors st = true -> table_row_line line ->
        (length (fields_of line) < 7)%nat -> psi_step st line = st)
  /\ (forall sid parts a b c d e,
        parts <> [] ->
        exists r,
          sensor_row (sid :: parts ++ [a; b; c; d; e]) = Some r
          /\ hr_samples r = _int a /\ rr_samples r = _int b
          /\ avg_hr r = _float c /\ sdnn r = _float d /\ rmssd r = _float e
          /\ sensor_name r = Str.join "," (Str.strip <$> parts))
  /\ (forall s, Num.parse_int (Str.strip s) = None -> _int s = 0)
  /\ (forall s, Num.parse_float (Str.strip s) = None -> _float s = 0%float)
  /\ fields_of comma_name_row = ["ABC123"; "My"; " Polar Strap"; "60"; "60"; "72"; "45.20"; "38.70"]
  /\ name_between (fields_of comma_name_row) = "My, Polar Strap"
  /\ snd (_parse_session_info comma_name_info)
     = [mkRow None "ABC123" "My,Polar Strap" 60 60 72 45.2 38.7]
  /\ ~ (exists r,
          snd (_parse_session_info comma_name_info) = [r]
          /\ sensor_name r = name_between (fields_of comma_name_row)).
Proof.
  split; [apply sensor_row_short|].
  split; [apply psi_step_short_row|].
  split.
  { intros sid parts a b c d e Hne. eexists.
    split; [apply sensor_row_fields; assumption|]. repeat split. }
  split; [intros s H; unfold _int; rewrite H; reflexivity|].
  split; [intros s H; unfold _float; rewrite H; reflexivity|].
  split; [vm_compute; reflexivity|].
  split; [vm_compute; reflexivity|].
  split; [vm_compute; reflexivity|].
  intros (r & Hr & Hname). vm_compute in Hr. injection Hr as <-.
  vm_compute in Hname. discriminate Hname.
Qed.

(** ** Discovery of the sensors *)

Lemma insert_by_index_perm (r : SensorRow) (l : list SensorRow) :
  Permutation (insert_by_index r l) (r :: l).
Proof.
  induction l as [|x l IH]; cbn [insert_by_index]; [reflexivity|].
  destruct (index_key r <? index_key x)%Z; [reflexivity|].
  rewrite IH. apply perm_swap.
Qed.

Lemma insert_by_index_hd (r x : SensorRow) (l : list SensorRow) :
  by_index x r -> HdRel by_index x l -> HdRel by_index x (insert_by_index r l).
Proof.
  intros Hxr Hl. destruct l as [|y l]; cbn [insert_by_index]; [constructor; assumption|].
  destruct (index_key r <? index_key y)%Z; constructor; [assumption|].
  inversion Hl; assumption.
Qed.

Lemma insert_by_index_sorted (r : SensorRow) (l : list SensorRow) :
  Sorted by_index l -> Sorted by_index (insert_by_index r l).
Proof.
  induction 1 as [|x l Hs IH Hhd]; cbn [insert_by_index].
  - repeat constructor.
  - destruct (Z.ltb_spec (index_key r) (index_key x)) as [Hlt|Hge].
    + constructor; [constructor; assumption|]. constructor. unfold by_index. lia.
    + constructor; [assumption|]. apply insert_by_index_hd; assumption.
Qed.

Lemma sort_from_sorted (l acc : list SensorRow) :
  Sorted by_index acc ->
  Sorted by_index (fold_left (fun a r => insert_by_index r a) l acc)
  /\ Permutation (fold_left (fun a r => insert_by_index r a) l acc) (acc ++ l)%list.
Proof.
  revert acc. induction l as [|r l IH]; intros acc Hacc; cbn [fold_left].
  - rewrite app_nil_r. split; [assumption | reflexivity].
  - destruct (IH _ (insert_by_index_sorted r acc Hacc)) as [Hs Hp].
    split; [assumption|]. rewrite Hp, insert_by_index_perm.
    apply Permutation_middle.
Qed.

Lemma sort_by_index_spec (l : list SensorRow) :
  Sorted by_index (sort_by_index l) /\ Permutation (sort_by_index l) l.
Proof. apply (sort_from_sorted l []). constructor. Qed.

(** What one entry name contributes. *)
Lemma discover_entry_spec (pfx name : string) (r : SensorRow) :
  discover_entry pfx name = Some r <->
  sensor_hr_name pfx name = true
  /\ (3 <= length (name_segments pfx name))%nat
  /\ exists idx,
       Num.parse_int (nth 1 (name_segments pfx name) "") = Some idx
       /\ r = discovered_row idx (Str.join "_" (drop 2 (name_segments pfx name))).
Proof.
  unfold discover_entry, sensor_hr_name, discovered_row. fold (name_segments pfx name).
  destruct (Str.startswith name pfx); cbn [negb orb andb];
    [|split; [discriminate | intros (H & _); discriminate]].
  destruct (Str.endswith name "_hr.csv"); cbn [negb orb andb];
    [|split; [discriminate | intros (H & _); discriminate]].
  destruct (Str.startswith (Str.drop _ name) "sensor_"); cbn [negb];
    [|split; [discriminate | intros (H & _); discriminate]].
  destruct (Nat.leb_spec 3 (length (name_segments pfx name))) as [Hge|Hlt];
    [|split; [discriminate | intros (_ & H & _); lia]].
  destruct (Num.parse_int (nth 1 (name_segments pfx name) "")) as [idx|].
  - split.
    + intros [= <-]. repeat split; [assumption|]. exists idx. split; reflexivity.
    + intros (_ & _ & idx' & [= <-] & ->). reflexivity.
  - split; [discriminate | intros (_ & _ & idx' & H & _); discriminate].
Qed.

Lemma discover_entry_bad_index (pfx name : string) :
  Num.parse_int (nth 1 (name_segments pfx name) "") = None ->
  discover_entry pfx name = None.
Proof.
  intros H. destruct (discover_entry pfx name) as [r|] eqn:Hr; [|reflexivity].
  apply discover_entry_spec in Hr as (_ & _ & idx & Hidx & _). congruence.
Qed.

Lemma discovered_rows_zeroed (pfx : string) (names : list string) :
  Forall (fun r => exists idx, r = discovered_row idx (sensor_id r))
    (omap (discover_entry pfx) names).
Proof.
  induction names as [|n names IH]; cbn [omap list_omap]; [constructor|].
  destruct (discover_entry pfx n) as [r|] eqn:Hr; [|assumption].
  constructor; [|assumption].
  apply discover_entry_spec in Hr as (_ & _ & idx & _ & ->). exists idx. reflexivity.
Qed.

(** An entry named after index text [idx] and sensor id [sid] is found,
    whatever underscores [sid] holds. *)
Lemma discover_entry_named (pfx idx sid : string) (n : Z) :
  Num.parse_int idx = Some n ->
  Str.find idx "_" = None ->
  suffix_only_at_end (entry_stem idx sid) ->
  discover_entry pfx (entry_name pfx idx sid) = Some (discovered_row n sid).
Proof.
  intros Hn Hidx Hsuf. apply discover_entry_spec.
  assert (name_segments pfx (entry_name pfx idx sid)
          = "sensor" :: idx :: Str.split "_" sid) as Hseg.
  { unfold name_segments, entry_name. rewrite drop_app_length.
    unfold Str.replace.
    rewrite (replace_only_ending "_hr.cs" "v" (entry_stem idx sid)) by (exact Hsuf || apply Nat.le_refl).
    unfold entry_stem.
    change ("sensor_" ++ idx ++ "_" ++ sid)%string
      with ("sensor" ++ String "_" (idx ++ String "_" sid))%string.
    rewrite split_first by reflexivity. rewrite split_first by assumption. reflexivity. }
  rewrite Hseg. split; [|split].
  - unfold sensor_hr_name, entry_name. rewrite startswith_app, drop_app_length.
    rewrite <- str_app_assoc, endswith_app. cbn [andb].
    unfold entry_stem. rewrite str_app_assoc. apply startswith_app.
  - pose proof (split_nonempty "_" sid) as Hne.
    destruct (Str.split "_" sid); [congruence | cbn [length]; lia].
  - exists n. cbn [nth]. change (drop 2 ("sensor" :: idx :: Str.split "_" sid)) with (Str.split "_" sid).
    rewrite join_split. split; [assumption | reflexivity].
Qed.

(** Every discovered row carries the index of its entry name. *)
Lemma discovered_rows_indexed (pfx : string) (names : list string) :
  Forall (fun r => index r = Some (index_key r)) (omap (discover_entry pfx) names).
Proof.
  eapply Forall_impl; [apply discovered_rows_zeroed|].
  intros r [idx ->]. reflexivity.
Qed.

Lemma ascending_index_trans : Relations_1.Transitive ascending_index.
Proof.
  intros a b c. unfold ascending_index.
  destruct (index a), (index b), (index c); try tauto. lia.
Qed.

(** On rows that carry their index, the order of the sort keys is the order
    of the indices. *)
Lemma sorted_ascending (l : list SensorRow) :
  Forall (fun r => index r = Some (index_key r)) l ->
  Sorted by_index l -> StronglySorted ascending_index l.
Proof.
  intros Hall Hs. apply Sorted_StronglySorted; [exact ascending_index_trans|].
  revert Hall. induction Hs as [|x l Hs IH Hhd]; intros Hall; [constructor|].
  inversion Hall as [|? ? Hx Hl]; subst.
  constructor; [apply IH; exact Hl|].
  destruct Hhd as [|y l Hxy]; constructor.
  inversion Hl as [|? ? Hy _]; subst.
  unfold ascending_index. rewrite Hx, Hy. exact Hxy.
Qed.

(** C7: with an empty table the loader runs over the discovered rows.
    They are the rows of the entry names of the form
    [<prefix>sensor_<n>_<id>_hr.csv], in ascending order of the index [n]
    each row carries; a name whose index segment is no integer for [int]
    gives no row; the sensor id is the segments after the index rejoined with
    underscores, so that an id with underscores is found as it is; each row
    has the id as name and zeroed statistics. An archive without sensor table
    and with [sensor_1_XYZ_hr.csv] loads with the one sensor [XYZ]. *)
Theorem C7_discovery_from_entry_names (z : ZipFile) (pfx : string) :
  sensor_rows z pfx [] = _discover_sensors_from_zip z pfx
  /\ StronglySorted ascending_index (_discover_sensors_from_zip z pfx)
  /\ Permutation (_discover_sensors_from_zip z pfx) (omap (discover_entry pfx) (namelist z))
  /\ Forall (fun r => exists idx, r = discovered_row idx (sensor_id r))
       (_discover_sensors_from_zip z pfx)
  /\ (forall name r,
        discover_entry pfx name = Some r <->
        sensor_hr_name pfx name = true
        /\ (3 <= length (name_segments pfx name))%nat
        /\ exists idx,
             Num.parse_int (nth 1 (name_segments pfx name) "") = Some idx
             /\ r = discovered_row idx (Str.join "_" (drop 2 (name_segments pfx name))))
  /\ (forall name,
        Num.parse_int (nth 1 (name_segments pfx name) "") = None ->
        discover_entry pfx name = None)
  /\ (forall idx sid n,
        Num.parse_int idx = Some n -> Str.find idx "_" = None ->
        suffix_only_at_end (entry_stem idx sid) ->
        discover_entry pfx (entry_name pfx idx sid) = Some (discovered_row n sid))
  /\ loaded_sensor_ids "export.zip" discovery_archive = Some [VStr "XYZ"].
Proof.
  destruct (sort_by_index_spec (omap (discover_entry pfx) (namelist z))) as [Hs Hp].
  split; [reflexivity|].
  split.
  { apply sorted_ascending; [|exact Hs].
    unfold _discover_sensors_from_zip. eapply Permutation_Forall.
    - symmetry. exact Hp.
    - apply discovered_rows_indexed. }
  split; [exact Hp|].
  split.
  { unfold _discover_sensors_from_zip. eapply Permutation_Forall.
    - symmetry. exact Hp.
    - apply discovered_rows_zeroed. }
  split; [intros name r; apply discover_entry_spec|].
  split; [apply discover_entry_bad_index|].
  split; [intros idx sid n; apply discover_entry_named|].
  vm_compute. reflexivity.
Qed.

(** Entries out of order come out by index; the entry [sensor_x_...] is
    left out; the id [A_b_c] keeps its underscores. *)
Example discover_unordered :
  _discover_sensors_from_zip unordered_archive "recording_t_csv/"
  = [discovered_row 1 "A_b_c"; discovered_row 2 "B"].
Proof. vm_compute. reflexivity. Qed.

(** An index segment that starts with the separator U+001C is no integer for
    [int], though [strip] would leave the digit: the entry gives no row. *)
Example discover_separator_index :
  Num.parse_int (String "028" "1") = None
  /\ Num.parse_int (Str.strip (String "028" "1")) = Some 1
  /\ discover_entry "recording_t_csv/" separator_index_name = None.
Proof. repeat split; vm_compute; reflexivity. Qed.

(** ** The fixture of [scripts/verify_zip_parsing.py] *)

Example fixture_loads : load_from_zip "export.zip" fixture_archive = Ok fixture_session.
Proof. vm_compute. reflexivity. Qed.

Example fixture_table :
  snd (_parse_session_info fixture_session_info) = [fixture_row].
Proof. vm_compute. reflexivity. Qed.

(** The checks of the script. *)
Example fixture_checks :
  session.RecordingSession.id fixture_session = VStr "testid123"
  /\ session.RecordingSession.name fixture_session = VStr "Test Recording"
  /\ session.RecordingSession.sensor_count fixture_session = 1
  /\ session.SensorData.sensor_id <$> session.RecordingSession.sensors fixture_session
     = [VStr "ABC123"]
  /\ session.SensorData.heart_rate_avg <$> session.RecordingSession.sensors fixture_session
     = [Ok 72]
  /\ session.SensorData.sdnn <$> session.RecordingSession.sensors fixture_session
     = [Ok 45.2%float]
  /\ session.SensorData.rmssd <$> session.RecordingSession.sensors fixture_session
     = [Ok 38.7%float]
  /\ (fun s => session.hr_value <$> session.SensorData.heart_rate_points s)
       <$> session.RecordingSession.sensors fixture_session
     = [[70; 72]]
  /\ (fun s => session.rr_value <$> session.SensorData.rr_points s)
       <$> session.RecordingSession.sensors fixture_session
     = [[820; 815]].
Proof. repeat split; vm_compute; reflexivity. Qed.

Lemma fixture_valid :
  valid_archive fixture_archive "recording_testid123_csv" fixture_session_info.
Proof.
  split; [vm_compute; reflexivity|]. split; [vm_compute; reflexivity|].
  rewrite fixture_table. intros k row Hk.
  destruct k as [|k]; [|destruct k; discriminate Hk].
  injection Hk as <-. left. vm_compute. reflexivity.
Qed.

Lemma C9_witness :
  exists r recs,
    load_from_zip "export.zip" fixture_archive = Ok r
    /\ session.RecordingSession.sensor_count r
       = Z.of_nat (length (sensor_rows fixture_archive ("recording_testid123_csv" ++ "/")
                             (snd (_parse_session_info fixture_session_info))))
    /\ session.RecordingSession.raw r !! "sensorRecordings" = Some (VList recs)
    /\ session.RecordingSession.sensor_count r = Z.of_nat (length recs).
Proof.
  exact (C9_sensor_count_is_row_count "export.zip" fixture_archive
           "recording_testid123_csv" fixture_session_info fixture_valid).
Defined.

Example fixture_statistics_missing :
  read fixture_without_statistics (stats_path "recording_testid123_csv/" 0 fixture_row)
  = Raise (KeyError "recording_testid123_csv/sensor_1_ABC123_statistics.csv").
Proof. vm_compute. reflexivity. Qed.

Example fixture_average_truncates : Num.int_of_float (avg_hr fixture_row) = Ok 72.
Proof. vm_compute. reflexivity. Qed.

Lemma C8_witness :
  exists rec s,
    sensor_recording fixture_without_statistics "recording_testid123_csv/" 0 fixture_row = Ok rec
    /\ session.SensorData.init rec = Ok s
    /\ session.hr_value <$> session.SensorData.heart_rate_points s
       = value <$> read_or_empty _read_hr_csv fixture_without_statistics
                     (hr_path "recording_testid123_csv/" 0 fixture_row)
    /\ session.SensorData.heart_rate_min s
       = Ok (min_default (session.hr_value <$> session.SensorData.heart_rate_points s))
    /\ least_or_zero (min_default (session.hr_value <$> session.SensorData.heart_rate_points s))
         (session.hr_value <$> session.SensorData.heart_rate_points s)
    /\ session.SensorData.heart_rate_max s
       = Ok (max_default (session.hr_value <$> session.SensorData.heart_rate_points s))
    /\ greatest_or_zero (max_default (session.hr_value <$> session.SensorData.heart_rate_points s))
         (session.hr_value <$> session.SensorData.heart_rate_points s)
    /\ session.SensorData.heart_rate_avg s = Ok 72
    /\ session.SensorData.sdnn s = Ok (sdnn fixture_row)
    /\ session.SensorData.rmssd s = Ok (rmssd fixture_row)
    /\ session.SensorData.hrv_window s = Ok (VStr "")
    /\ session.SensorData.hrv_sample_count s = Ok 0.
Proof.
  exact (C8_statistics_synthesized_when_file_missing fixture_without_statistics
           "recording_testid123_csv/" 0 fixture_row _ 72
           fixture_statistics_missing fixture_average_truncates).
Defined.

Example fixture_synthesized :
  sensor_recording fixture_without_statistics "recording_testid123_csv/" 0 fixture_row
  = Ok fixture_synthesized_record.
Proof. vm_compute. reflexivity. Qed.

(** Without the statistics file the fixture reports the extremes of its two
    heart-rate values and the truncated average of the table. *)
Example fixture_synthesized_values :
  exists s,
    session.SensorData.init fixture_synthesized_record = Ok s
    /\ session.SensorData.heart_rate_min s = Ok 70
    /\ session.SensorData.heart_rate_max s = Ok 72
    /\ session.SensorData.heart_rate_avg s = Ok 72.
Proof.
  eexists. split; [vm_compute; reflexivity|].
  split; [vm_compute; reflexivity|]. split; vm_compute; reflexivity.
Qed.

(** The metadata may announce another number of sensors than the table
    lists; the session counts the rows. *)
Example sensor_count_ignores_metadata :
  announced_and_counted "export.zip" five_announced_archive = Some (VInt 5, 1).
Proof. vm_compute. reflexivity. Qed.

(** A name in quotes is one field and keeps its comma and its space. *)
Example quoted_name_kept :
  fields_of quoted_name_row = ["ABC123"; "My, Polar Strap"; "60"; "60"; "72"; "45.20"; "38.70"]
  /\ sensor_name <$> sensor_row (fields_of quoted_name_row) = Some "My, Polar Strap".
Proof. split; vm_compute; reflexivity. Qed.

(** Without quotes the comma separates two fields. *)
Example unquoted_name_split :
  fields_of comma_name_row
  = ["ABC123"; "My"; " Polar Strap"; "60"; "60"; "72"; "45.20"; "38.70"].
Proof. vm_compute. reflexivity. Qed.

(** ** The two parts of the summary *)

Lemma psi_step_table_mode (st : psi_state) (line : string) :
  in_sensors st = true ->
  in_sensors (psi_step st line) = true /\ meta (psi_step st line) = meta st.
Proof.
  intros Hin. unfold psi_step. rewrite Hin.
  destruct (String.eqb (Str.strip line) ""); [auto|].
  destruct (String.eqb (Str.strip line) "Sensors"); [auto|].
  destruct (Str.contains line "Sensor ID" && Str.contains line "Sensor Name"); [auto|].
  destruct (csv_reader line) as [|[|f fs] rows]; [auto | auto |].
  destruct (sensor_row (f :: fs)); auto.
Qed.

Lemma psi_run_table_mode (lines : list string) : forall st,
  in_sensors st = true -> meta (psi_run lines st) = meta st.
Proof.
  induction lines as [|l lines IH]; intros st Hin; [reflexivity|].
  unfold psi_run in *. cbn [fold_left].
  destruct (psi_step_table_mode st l Hin) as [Hin' Hmeta].
  rewrite (IH _ Hin'). exact Hmeta.
Qed.

Lemma psi_step_key_mode (st : psi_state) (line : string) :
  in_sensors st = false -> Str.strip line <> "Sensors" ->
  in_sensors (psi_step st line) = false
  /\ sensors_table (psi_step st line) = sensors_table st.
Proof.
  intros Hin Hm. unfold psi_step. rewrite Hin.
  apply String.eqb_neq in Hm. rewrite Hm.
  destruct (String.eqb (Str.strip line) ""); [auto|].
  destruct (Str.find line ","); auto.
Qed.

Lemma psi_run_key_mode (lines : list string) : forall st,
  in_sensors st = false ->
  Forall (fun l => Str.strip l <> "Sensors") lines ->
  in_sensors (psi_run lines st) = false
  /\ sensors_table (psi_run lines st) = sensors_table st.
Proof.
  induction lines as [|l lines IH]; intros st Hin Hall; [auto|].
  inversion Hall as [|? ? Hl Hrest]; subst.
  destruct (psi_step_key_mode st l Hin Hl) as [Hin' Htab].
  unfold psi_run in *. cbn [fold_left].
  destruct (IH _ Hin' Hrest) as [H1 H2]. rewrite H2. auto.
Qed.

(** In the table the rows read do not depend on the metadata. *)
Lemma psi_run_table_rows (lines : list string) : forall m m' tb,
  sensors_table (psi_run lines (mkPsi m tb true))
  = sensors_table (psi_run lines (mkPsi m' tb true)).
Proof.
  induction lines as [|l lines IH]; intros m m' tb; [reflexivity|].
  unfold psi_run in *. cbn [fold_left]. unfold psi_step at 2 4.
  cbn [in_sensors meta sensors_table].
  destruct (String.eqb (Str.strip l) ""); [apply IH|].
  destruct (String.eqb (Str.strip l) "Sensors"); [apply IH|].
  destruct (Str.contains l "Sensor ID" && Str.contains l "Sensor Name"); [apply IH|].
  destruct (csv_reader l) as [|[|f fs] rows]; [apply IH | apply IH |].
  destruct (sensor_row (f :: fs)); apply IH.
Qed.

(** X1: the metadata of a summary are read from the lines before the first
    [Sensors] line only, and its sensor table from the lines after that line
    only: a key line after the marker changes no metadata, and a sensor row
    before it adds no sensor. *)
Theorem X1_summary_splits_at_marker (content : string) (head tail : list string)
    (marker : string) :
  Str.splitlines content = (head ++ marker :: tail)%list ->
  Forall (fun l => Str.strip l <> "Sensors") head ->
  Str.strip marker = "Sensors" ->
  fst (_parse_session_info content) = meta (psi_run head psi_start)
  /\ snd (_parse_session_info content)
     = sensors_table (psi_run tail (mkPsi ∅ [] true)).
Proof.
  intros Hlines Hhead Hmark. unfold _parse_session_info. rewrite Hlines.
  cbn [fst snd]. rewrite fold_left_app. cbn [fold_left].
  change (fold_left psi_step head (mkPsi ∅ [] false)) with (psi_run head psi_start).
  destruct (psi_run_key_mode head psi_start eq_refl Hhead) as [Hin Htab].
  set (st := psi_run head psi_start) in *.
  assert (psi_step st marker = mkPsi (meta st) (sensors_table st) true) as Hstep.
  { unfold psi_step. rewrite Hmark. cbn [String.eqb Ascii.eqb Bool.eqb]. reflexivity. }
  rewrite Hstep.
  change (fold_left psi_step tail ?s) with (psi_run tail s).
  split.
  - apply (psi_run_table_mode tail (mkPsi (meta st) (sensors_table st) true)). reflexivity.
  - rewrite Htab. apply psi_run_table_rows.
Qed.

Lemma X1_witness :
  fst (_parse_session_info (Str.join nl late_key_lines))
  = meta (psi_run ["Session ID,abc"] psi_start)
  /\ snd (_parse_session_info (Str.join nl late_key_lines))
     = sensors_table
         (psi_run ["ABC123,Polar H10,60,60,72,45.20,38.70"; "Recording Name,late"]
            (mkPsi ∅ [] true)).
Proof.
  apply (X1_summary_splits_at_marker (Str.join nl late_key_lines)
           ["Session ID,abc"]
           ["ABC123,Polar H10,60,60,72,45.20,38.70"; "Recording Name,late"] "Sensors").
  - vm_compute. reflexivity.
  - repeat constructor. vm_compute. discriminate.
  - vm_compute. reflexivity.
Defined.

(** ** Key lines: the value may hold commas *)

Lemma lstrip_keeps (c : ascii) (s : string) :
  Str.isspace c = false -> Str.find s c <> None -> Str.find (Str.lstrip s) c <> None.
Proof.
  intros Hc. induction s as [|a s IH]; intros Hf; [exact Hf|].
  cbn [Str.lstrip]. destruct (Str.isspace a) eqn:Ha; [|exact Hf].
  apply IH. cbn [Str.find] in Hf.
  destruct (Ascii.eqb a c) eqn:E.
  - apply Ascii.eqb_eq in E. subst a. congruence.
  - destruct (Str.find s c); [discriminate | exact Hf].
Qed.

Lemma rstrip_keeps (c : ascii) (s : string) :
  Str.isspace c = false -> Str.find s c <> None -> Str.find (Str.rstrip s) c <> None.
Proof.
  intros Hc. induction s as [|a s IH]; intros Hf; [exact Hf|].
  cbn [Str.rstrip Str.find] in *.
  destruct (Ascii.eqb a c) eqn:E.
  - apply Ascii.eqb_eq in E. subst a.
    destruct (Str.rstrip s); [rewrite Hc|]; cbn [Str.find]; rewrite Ascii.eqb_refl; discriminate.
  - assert (Str.find (Str.rstrip s) c <> None) as Hr.
    { apply IH. destruct (Str.find s c); [discriminate | exact Hf]. }
    destruct (Str.rstrip s) as [|b r]; [exfalso; apply Hr; reflexivity|].
    cbn [Str.find] in *. rewrite E.
    destruct (if Ascii.eqb b c then Some 0%nat else S <$> Str.find r c);
      [discriminate | exfalso; apply Hr; reflexivity].
Qed.

Lemma strip_keeps (c : ascii) (s : string) :
  Str.isspace c = false -> Str.find s c <> None -> Str.find (Str.strip s) c <> None.
Proof. intros Hc Hf. apply rstrip_keeps, lstrip_keeps; assumption. Qed.

Lemma find_app_sep (c : ascii) (a b : string) :
  Str.find a c = None -> Str.find (a ++ String c b) c = Some (String.length a).
Proof.
  induction a as [|x a IH]; intros Hf.
  - rewrite str_app_nil. cbn [Str.find]. rewrite Ascii.eqb_refl. reflexivity.
  - apply find_cons_none in Hf as [Hx Ha]. rewrite str_app_cons. cbn [Str.find String.length].
    rewrite Hx, (IH Ha). reflexivity.
Qed.

Lemma take_app_length (a b : string) : Str.take (String.length a) (a ++ b) = a.
Proof.
  induction a as [|x a IH]; [destruct b; reflexivity|].
  rewrite str_app_cons. cbn [String.length Str.take]. rewrite IH. reflexivity.
Qed.

Lemma drop_app_sep (c : ascii) (a b : string) :
  Str.drop (S (String.length a)) (a ++ String c b) = b.
Proof.
  induction a as [|x a IH]; [reflexivity|].
  rewrite str_app_cons. cbn [String.length Str.drop]. exact IH.
Qed.

(** The step of the loop on a key line. *)
Lemma key_line_step (key value : string) :
  Str.find key "," = None ->
  forall st, in_sensors st = false ->
    meta (psi_step st (key ++ "," ++ value))
    = set_meta (meta st) (Str.strip key) (Str.strip value)
    /\ in_sensors (psi_step st (key ++ "," ++ value)) = false.
Proof.
  intros Hkey st Hin.
  assert (Str.find (key ++ "," ++ value) "," = Some (String.length key)) as Hfind
    by apply (find_app_sep "," key value Hkey).
  assert (Str.find (Str.strip (key ++ "," ++ value)) "," <> None) as Hkeep.
  { apply strip_keeps; [reflexivity | rewrite Hfind; discriminate]. }
  unfold psi_step.
  destruct (String.eqb (Str.strip (key ++ "," ++ value)) "") eqn:E1.
  { apply String.eqb_eq in E1. rewrite E1 in Hkeep. exfalso. apply Hkeep. reflexivity. }
  destruct (String.eqb (Str.strip (key ++ "," ++ value)) "Sensors") eqn:E2.
  { apply String.eqb_eq in E2. rewrite E2 in Hkeep. exfalso. apply Hkeep. reflexivity. }
  rewrite Hin, Hfind. cbn zeta. cbn [meta in_sensors].
  rewrite take_app_length.
  assert (Str.drop (S (String.length key)) (key ++ "," ++ value) = value) as ->
    by apply (drop_app_sep "," key value).
  split; reflexivity.
Qed.

(** X2: a line [key,value] before the table, with no comma in [key], is cut
    at its first comma only: the stripped key selects the metadata field and
    the stripped rest, commas included, is its value. The lines of the
    statistics file are cut the same way. *)
Theorem X2_key_line_value_keeps_commas (key value : string) :
  Str.find key "," = None ->
  (forall st, in_sensors st = false ->
     psi_step st (key ++ "," ++ value)
     = mkPsi (set_meta (meta st) (Str.strip key) (Str.strip value)) (sensors_table st) false)
  /\ (forall stats,
        stat_step stats (key ++ "," ++ value)
        = set_stat stats (Str.strip key) (Str.strip value)).
Proof.
  intros Hkey.
  assert (Str.find (key ++ "," ++ value) "," = Some (String.length key)) as Hfind.
  { apply (find_app_sep "," key value Hkey). }
  assert (Str.take (String.length key) (key ++ "," ++ value) = key) as Htake
    by apply take_app_length.
  assert (Str.drop (S (String.length key)) (key ++ "," ++ value) = value) as Hdrop
    by apply (drop_app_sep "," key value).
  split.
  - intros st Hin. unfold psi_step.
    assert (Str.find (Str.strip (key ++ "," ++ value)) "," <> None) as Hkeep.
    { apply strip_keeps; [reflexivity | rewrite Hfind; discriminate]. }
    destruct (String.eqb (Str.strip (key ++ "," ++ value)) "") eqn:E1.
    { apply String.eqb_eq in E1. rewrite E1 in Hkeep. exfalso. apply Hkeep. reflexivity. }
    destruct (String.eqb (Str.strip (key ++ "," ++ value)) "Sensors") eqn:E2.
    { apply String.eqb_eq in E2. rewrite E2 in Hkeep. exfalso. apply Hkeep. reflexivity. }
    rewrite Hin, Hfind. cbn zeta. rewrite Htake, Hdrop. reflexivity.
  - intros stats. unfold stat_step. rewrite Hfind, Htake, Hdrop. reflexivity.
Qed.

Lemma X2_witness :
  psi_step psi_start ("Recording Name" ++ "," ++ " Morning, easy run ")
  = mkPsi (set_meta (meta psi_start) (Str.strip "Recording Name")
             (Str.strip " Morning, easy run "))
      (sensors_table psi_start) false.
Proof.
  apply (X2_key_line_value_keeps_commas "Recording Name" " Morning, easy run ").
  - reflexivity.
  - reflexivity.
Defined.

(** ** The recording folder *)

Lemma startswith_empty (s : string) : Str.startswith s "" = true.
Proof. destruct s; reflexivity. Qed.

Lemma contains_char_find (c : ascii) (s : string) :
  Str.contains s (String c "") = true <-> Str.find s c <> None.
Proof.
  induction s as [|a s IH].
  - cbn. split; [discriminate | intros H; exfalso; apply H; reflexivity].
  - cbn [Str.contains Str.startswith Str.find].
    rewrite (Ascii.eqb_sym c a), startswith_empty.
    destruct (Ascii.eqb a c); [cbn; split; [discriminate | reflexivity]|].
    rewrite orb_false_l, IH.
    destruct (Str.find s c); cbn; split; intros H; try discriminate; try assumption;
      exfalso; apply H; reflexivity.
Qed.

Lemma find_split (c : ascii) (s : string) (i : nat) :
  Str.find s c = Some i ->
  s = Str.take i s ++ String c (Str.drop (S i) s) /\ Str.find (Str.take i s) c = None.
Proof.
  revert i. induction s as [|a s IH]; intros i Hf; [discriminate|].
  cbn [Str.find] in Hf. destruct (Ascii.eqb a c) eqn:E.
  - injection Hf as <-. apply Ascii.eqb_eq in E. subst a. split; reflexivity.
  - destruct (Str.find s c) as [j|] eqn:Hj; [|discriminate].
    injection Hf as <-. destruct (IH j eq_refl) as [H1 H2].
    cbn [Str.take Str.drop Str.find]. rewrite E, H2. split; [|reflexivity].
    rewrite str_app_cons. f_equal. exact H1.
Qed.

Lemma first_segment (c : ascii) (a b : string) :
  Str.find a c = None -> nth 0 (Str.split c (a ++ String c b)) "" = a.
Proof. intros H. rewrite (split_first c a b H). reflexivity. Qed.

Lemma in_folder_test (top n : string) :
  in_folder top n ->
  Str.contains n "/" = true /\ nth 0 (Str.split "/" n) "" = top
  /\ is_recording_folder top = true.
Proof.
  intros (rest & -> & Ht & Hs & He). split; [|split].
  - apply (contains_char_find "/").
    assert (Str.find (top ++ "/" ++ rest) "/" = Some (String.length top)) as Hf
      by apply (find_app_sep "/" top rest Ht).
    rewrite Hf. discriminate.
  - apply (first_segment "/" top rest Ht).
  - unfold is_recording_folder. rewrite He, Hs. reflexivity.
Qed.

(** The test of the loop on one name. *)
Lemma folder_test (n : string) :
  let top := nth 0 (Str.split "/" n) "" in
  (Str.contains n "/" && is_recording_folder top = true <-> in_folder top n)
  /\ (forall top', in_folder top' n -> top' = top).
Proof.
  cbn zeta. split; [split|].
  - intros H. apply andb_true_iff in H as [Hc Hr].
    apply (contains_char_find "/") in Hc.
    destruct (Str.find n "/") as [i|] eqn:Hf; [|exfalso; apply Hc; reflexivity].
    destruct (find_split "/" n i Hf) as [Hn Ht].
    assert (nth 0 (Str.split "/" n) "" = Str.take i n) as Htop.
    { rewrite Hn at 1. apply first_segment. exact Ht. }
    rewrite Htop in *. apply andb_true_iff in Hr as [He Hs].
    exists (Str.drop (S i) n). auto.
  - intros Hin. destruct (in_folder_test _ _ Hin) as (Hc & _ & Hr).
    rewrite Hc, Hr. reflexivity.
  - intros top' Hin. destruct (in_folder_test _ _ Hin) as (_ & Ht & _). symmetry. exact Ht.
Qed.

Lemma folder_test_false (n : string) :
  Str.contains n "/" && is_recording_folder (nth 0 (Str.split "/" n) "") = false ->
  ~ in_recording_folder n.
Proof.
  intros H [top Hin]. destruct (folder_test n) as [Hiff Huniq].
  rewrite (Huniq top Hin) in Hin. apply Hiff in Hin. congruence.
Qed.

Lemma find_folder_names (names : list string) :
  match _find_folder_in_zip_names names with
  | Some top =>
      exists before n after,
        names = (before ++ n :: after)%list /\ in_folder top n
        /\ Forall (fun m => ~ in_recording_folder m) before
  | None => Forall (fun m => ~ in_recording_folder m) names
  end.
Proof.
  induction names as [|n names IH]; [constructor|].
  cbn [_find_folder_in_zip_names].
  destruct (Str.contains n "/" && is_recording_folder (nth 0 (Str.split "/" n) "")) eqn:E.
  - exists [], n, names. split; [reflexivity|]. split; [|constructor].
    apply (folder_test n). exact E.
  - apply folder_test_false in E.
    destruct (_find_folder_in_zip_names names) as [top|].
    + destruct IH as (before & m & after & -> & Hin & Hb).
      exists (n :: before), m, after. split; [reflexivity|]. split; [exact Hin|].
      constructor; assumption.
    + constructor; assumption.
Qed.

(** X3: the folder found is the first path segment of the first entry, in
    directory order, that lies in a folder of the form [recording_..._csv];
    no folder is found exactly when no entry lies in such a folder (an entry
    without a slash, such as a bare [recording_1_csv], does not count). *)
Theorem X3_folder_of_first_matching_entry (z : ZipFile) :
  (forall top,
     _find_folder_in_zip z = Some top <->
     exists before n after,
       namelist z = (before ++ n :: after)%list /\ in_folder top n
       /\ Forall (fun m => ~ in_recording_folder m) before)
  /\ (_find_folder_in_zip z = None <->
      Forall (fun m => ~ in_recording_folder m) (namelist z)).
Proof.
  unfold _find_folder_in_zip. pose proof (find_folder_names (namelist z)) as H.
  assert (forall top before n after,
            namelist z = (before ++ n :: after)%list -> in_folder top n ->
            Forall (fun m => ~ in_recording_folder m) before ->
            _find_folder_in_zip_names (namelist z) = Some top) as Hfirst.
  { intros top before n after -> Hin Hb.
    induction before as [|m before IHb].
    - cbn [app _find_folder_in_zip_names].
      destruct (folder_test n) as [Hiff Huniq].
      pose proof Hin as Hin'. rewrite (Huniq top Hin) in Hin'.
      apply Hiff in Hin'. rewrite Hin'. f_equal. symmetry. apply Huniq. exact Hin.
    - inversion Hb as [|? ? Hm Hrest]; subst.
      cbn [app _find_folder_in_zip_names].
      destruct (Str.contains m "/" && is_recording_folder (nth 0 (Str.split "/" m) "")) eqn:E.
      + exfalso. apply Hm. eexists. apply (folder_test m). exact E.
      + apply IHb; assumption. }
  split.
  - intros top. split.
    + intros Hs. rewrite Hs in H. exact H.
    + intros (before & n & after & Hn & Hin & Hb). eapply Hfirst; eassumption.
  - split.
    + intros Hn. rewrite Hn in H. exact H.
    + intros Hall. destruct (_find_folder_in_zip_names (namelist z)) as [top|]; [|reflexivity].
      destruct H as (before & n & after & Hn & Hin & _).
      rewrite Hn in Hall. apply Forall_app in Hall as [_ Hall].
      inversion Hall as [|? ? Hx _]; subst. exfalso. apply Hx. exists top. exact Hin.
Qed.

(** ** Which archives load, and how the others fail *)

Lemma int_of_float_error (x : float) (e : pyexc) :
  Num.int_of_float x = Raise e ->
  e = ValueError "cannot convert float NaN to integer"
  \/ e = OverflowError "cannot convert float infinity to integer".
Proof.
  unfold Num.int_of_float. destruct (Prim2SF x); intros H; try discriminate;
    injection H as <-; auto.
Qed.

Lemma sensor_recording_raise z pfx i row e :
  sensor_recording z pfx i row = Raise e ->
  is_ok (read z (stats_path pfx i row)) = false
  /\ Num.int_of_float (avg_hr row) = Raise e.
Proof.
  unfold sensor_recording, synthesized_statistics.
  destruct (read z (stats_path pfx i row)); [discriminate|].
  destruct (Num.int_of_float (avg_hr row)); [discriminate|].
  cbn. intros H. injection H as <-. auto.
Qed.

Lemma sensor_recording_ok_assembles z pfx i row rec :
  sensor_recording z pfx i row = Ok rec -> row_assembles z pfx i row.
Proof.
  unfold sensor_recording, synthesized_statistics, row_assembles.
  destruct (read z (stats_path pfx i row)); [auto|].
  destruct (Num.int_of_float (avg_hr row)); [auto | discriminate].
Qed.

Lemma sensor_recordings_raise z pfx table : forall i e,
  sensor_recordings z pfx i table = Raise e ->
  exists k row,
    table !! k = Some row /\ sensor_recording z pfx (i + k) row = Raise e.
Proof.
  induction table as [|row table IH]; intros i e H; [discriminate|].
  cbn [sensor_recordings] in H.
  destruct (sensor_recording z pfx i row) as [rec|e'] eqn:Hrec.
  - destruct (sensor_recordings z pfx (S i) table) as [recs|e''] eqn:Hrecs; [discriminate|].
    cbn in H. injection H as <-.
    destruct (IH (S i) e'' Hrecs) as (k & row' & Hk & Hr).
    exists (S k), row'. split; [exact Hk|].
    replace (i + S k)%nat with (S i + k)%nat by lia. exact Hr.
  - cbn in H. injection H as <-. exists 0%nat, row. split; [reflexivity|].
    rewrite Nat.add_0_r. exact Hrec.
Qed.

Lemma sensor_recordings_ok_assemble z pfx table : forall i recs,
  sensor_recordings z pfx i table = Ok recs ->
  forall k row, table !! k = Some row -> row_assembles z pfx (i + k) row.
Proof.
  induction table as [|row table IH]; intros i recs H k row' Hk; [discriminate|].
  cbn [sensor_recordings] in H.
  destruct (sensor_recording z pfx i row) as [rec|] eqn:Hrec; [|discriminate].
  destruct (sensor_recordings z pfx (S i) table) as [recs'|] eqn:Hrecs; [|discriminate].
  destruct k as [|k].
  - injection Hk as <-. rewrite Nat.add_0_r.
    eapply sensor_recording_ok_assembles. exact Hrec.
  - replace (i + S k)%nat with (S i + k)%nat by lia. eapply IH; eassumption.
Qed.

(** X4: an archive, taken as its entries in decoded form, loads exactly
    when it is valid: its recording folder is found, the summary is read from
    it, and every sensor row the loader runs over has its statistics file or
    an average heart rate that converts to an integer. A missing or malformed
    heart-rate or RR file, a malformed summary or statistics file do not make
    the load fail (the limits of [csv.reader] on a line are outside the
    model). *)
Theorem X4_loads_iff_valid (zip_path : string) (z : ZipFile) :
  is_ok (load_from_zip zip_path z) = true <-> exists folder content, valid_archive z folder content.
Proof.
  split.
  - destruct (load_from_zip zip_path z) as [r|] eqn:Hload; [intros _ | discriminate].
    destruct (load_from_zip_inv _ _ _ Hload) as (D & recs & HD & _).
    destruct (session_dict_inv _ _ _ HD) as (folder & content & recs' & Hf & Hr & Hrecs & _).
    exists folder, content. split; [exact Hf|]. split; [exact Hr|].
    intros k row Hk.
    apply (sensor_recordings_ok_assemble _ _ _ 0%nat recs' Hrecs k row Hk).
  - intros (folder & content & Hf & Hr & Hrows).
    destruct (load_succeeds zip_path z folder content Hf Hr Hrows) as [r ->]. reflexivity.
Qed.

(** X5: what the loader's own code raises. Take an archive that opens and
    whose entries all read and decode, which is what [ZipFile] stands for
    here, and a summary within the limits [csv.reader] puts on a line (errors
    of opening, reading and decoding, and the error of [csv.reader], are
    outside this model and do leave the loader). On such an archive a load
    that fails raises one of three errors: the [ValueError] of the loader for
    a missing recording folder, its [ValueError] for a missing summary, or
    the error of [int(avg_hr)] for a sensor row without statistics file whose
    average heart rate is [nan] ([ValueError]) or infinite
    ([OverflowError]). The [KeyError] of a missing entry is caught every
    time. *)
Theorem X5_load_failure_causes (zip_path : string) (z : ZipFile) (e : pyexc) :
  load_from_zip zip_path z = Raise e ->
  (_find_folder_in_zip z = None
   /\ e = ValueError ("No recording_*_csv folder found in zip: " ++ zip_path))
  \/ (exists folder,
        _find_folder_in_zip z = Some folder
        /\ is_ok (read z (session_info_path folder)) = false
        /\ e = ValueError ("Missing " ++ session_info_path folder ++ " in zip"))
  \/ (exists folder content k row,
        _find_folder_in_zip z = Some folder
        /\ read z (session_info_path folder) = Ok content
        /\ sensor_rows z (folder ++ "/") (snd (_parse_session_info content)) !! k = Some row
        /\ is_ok (read z (stats_path (folder ++ "/") k row)) = false
        /\ Num.int_of_float (avg_hr row) = Raise e
        /\ (e = ValueError "cannot convert float NaN to integer"
            \/ e = OverflowError "cannot convert float infinity to integer")).
Proof.
  intros Hload. unfold load_from_zip in Hload.
  destruct (session_dict zip_path z) as [D|e'] eqn:HD.
  { destruct (session_dict_init _ _ _ HD) as [r Hr]. cbn in Hload. rewrite Hr in Hload.
    discriminate. }
  cbn in Hload. injection Hload as <-.
  unfold session_dict in HD.
  destruct (_find_folder_in_zip z) as [folder|]; [|left; injection HD as <-; auto].
  right.
  destruct (read z (session_info_path folder)) as [content|] eqn:Hread.
  - right. destruct (_parse_session_info content) as [m table] eqn:Hpsi.
    destruct (sensor_recordings z (folder ++ "/") 0 (sensor_rows z (folder ++ "/") table))
      as [recs|e''] eqn:Hrecs; [discriminate|].
    cbn in HD. injection HD as <-.
    destruct (sensor_recordings_raise _ _ _ _ _ Hrecs) as (k & row & Hk & Hrow).
    cbn [Nat.add] in Hrow. apply sensor_recording_raise in Hrow as [Hstats Hint].
    exists folder, content, k, row. rewrite Hpsi. cbn [snd].
    split; [reflexivity|]. split; [exact Hread|]. split; [exact Hk|].
    split; [exact Hstats|]. split; [exact Hint|].
    eapply int_of_float_error. exact Hint.
  - left. exists folder. injection HD as <-.
    split; [reflexivity|]. split; [rewrite Hread; reflexivity | reflexivity].
Qed.

Lemma X5_witness :
  (_find_folder_in_zip nan_archive = None
   /\ ValueError "cannot convert float NaN to integer"
      = ValueError ("No recording_*_csv folder found in zip: " ++ "export.zip"))
  \/ (exists folder,
        _find_folder_in_zip nan_archive = Some folder
        /\ is_ok (read nan_archive (session_info_path folder)) = false
        /\ ValueError "cannot convert float NaN to integer"
           = ValueError ("Missing " ++ session_info_path folder ++ " in zip"))
  \/ (exists folder content k row,
        _find_folder_in_zip nan_archive = Some folder
        /\ read nan_archive (session_info_path folder) = Ok content
        /\ sensor_rows nan_archive (folder ++ "/") (snd (_parse_session_info content)) !! k
           = Some row
        /\ is_ok (read nan_archive (stats_path (folder ++ "/") k row)) = false
        /\ Num.int_of_float (avg_hr row)
           = Raise (ValueError "cannot convert float NaN to integer")
        /\ (ValueError "cannot convert float NaN to integer"
            = ValueError "cannot convert float NaN to integer"
            \/ ValueError "cannot convert float NaN to integer"
               = OverflowError "cannot convert float infinity to integer")).
Proof.
  apply (X5_load_failure_causes "export.zip" nan_archive).
  vm_compute. reflexivity.
Defined.

(** ** The two timestamp parsers *)

Lemma parse_iso_strip (s : string) :
  zip_loader._parse_iso s = session._parse_iso (VStr (Str.strip s)).
Proof.
  unfold zip_loader._parse_iso, session._parse_iso.
  destruct (String.eqb s "") eqn:E1.
  - apply String.eqb_eq in E1. subst s. reflexivity.
  - cbn [orb]. destruct (String.eqb (Str.strip s) "") eqn:E2; [|reflexivity].
    apply String.eqb_eq in E2. rewrite E2. reflexivity.
Qed.

(** X6: the timestamp parser of the loader and the one of the session model
    agree on every text, up to the stripping of surrounding white space that
    only the loader does: a blank text is no timestamp for either, and
    whatever [fromisoformat] rejects is [None] for both. *)
Theorem X6_parse_iso_agree (s : string) :
  zip_loader._parse_iso s = session._parse_iso (VStr (Str.strip s))
  /\ (Str.strip s = "" -> zip_loader._parse_iso s = None)
  /\ (DT.fromisoformat (Str.replace "Z" "+00:00" (Str.strip s)) = None ->
      zip_loader._parse_iso s = None).
Proof.
  split; [apply parse_iso_strip|]. split.
  - intros H. rewrite parse_iso_strip, H. reflexivity.
  - intros H. rewrite parse_iso_strip. exact H.
Qed.

(** ** The text form of a timestamp and its reading *)

Lemma str_app_nil_r (s : string) : s ++ "" = s.
Proof. induction s as [|a s IH]; [reflexivity|]. rewrite str_app_cons, IH. reflexivity. Qed.

Lemma take_app_exact (n : nat) (a b : string) :
  String.length a = n -> Str.take n (a ++ b) = a.
Proof. intros <-. apply take_app_length. Qed.

Lemma drop_app_exact (n : nat) (a b : string) :
  String.length a = n -> Str.drop n (a ++ b) = b.
Proof. intros <-. apply drop_app_length. Qed.

Lemma digit_cases (n : Z) :
  exists k, (k < 10)%nat /\ n mod 10 = Z.of_nat k.
Proof.
  exists (Z.to_nat (n mod 10)). pose proof (Z.mod_pos_bound n 10 eq_refl). lia.
Qed.

Lemma digit_char_isdigit (n : Z) : Str.isdigit (DT.digit_char n) = true.
Proof.
  unfold DT.digit_char. destruct (digit_cases n) as (k & Hk & ->).
  do 10 (destruct k as [|k]; [reflexivity|]). lia.
Qed.

Lemma digit_char_val (n : Z) : Str.digit_val (DT.digit_char n) = n mod 10.
Proof.
  unfold DT.digit_char. destruct (digit_cases n) as (k & Hk & ->).
  do 10 (destruct k as [|k]; [reflexivity|]). lia.
Qed.

Lemma pad_length (w : nat) : forall n, String.length (DT.pad w n) = w.
Proof.
  induction w as [|w IH]; intros n; [reflexivity|].
  cbn [DT.pad]. rewrite str_length_app, IH. cbn [String.length]. lia.
Qed.

Lemma all_digits_app (a b : string) :
  Num.all_digits (a ++ b) = Num.all_digits a && Num.all_digits b.
Proof.
  induction a as [|x a IH]; [reflexivity|].
  rewrite str_app_cons. cbn [Num.all_digits]. rewrite IH, andb_assoc. reflexivity.
Qed.

Lemma pad_all_digits (w : nat) : forall n, Num.all_digits (DT.pad w n) = true.
Proof.
  induction w as [|w IH]; intros n; [reflexivity|].
  cbn [DT.pad]. rewrite all_digits_app, IH. cbn [Num.all_digits].
  rewrite digit_char_isdigit. reflexivity.
Qed.

Lemma plain_digits_app (a b : string) : forall acc k,
  Num.plain_digits acc k (a ++ b)
  = Num.plain_digits (fst (Num.plain_digits acc k a)) (snd (Num.plain_digits acc k a)) b.
Proof.
  induction a as [|x a IH]; intros acc k; [reflexivity|].
  rewrite str_app_cons. cbn [Num.plain_digits]. apply IH.
Qed.

Lemma pad_value (w : nat) : forall n acc k,
  fst (Num.plain_digits acc k (DT.pad w n)) = acc * 10 ^ Z.of_nat w + n mod 10 ^ Z.of_nat w.
Proof.
  induction w as [|w IH]; intros n acc k.
  - cbn [DT.pad Num.plain_digits fst]. change (10 ^ Z.of_nat 0) with 1.
    rewrite Z.mod_1_r. lia.
  - cbn [DT.pad]. rewrite plain_digits_app. cbn [Num.plain_digits fst].
    rewrite IH, digit_char_val.
    rewrite Nat2Z.inj_succ, Z.pow_succ_r by lia.
    rewrite (Z.rem_mul_r n 10 (10 ^ Z.of_nat w)) by lia.
    ring.
Qed.

Lemma fixed_digits_pad (w : nat) (n : Z) (rest : string) :
  0 <= n < 10 ^ Z.of_nat w ->
  DT.fixed_digits w (DT.pad w n ++ rest) = Some (n, rest).
Proof.
  intros Hn. unfold DT.fixed_digits.
  rewrite (take_app_exact w _ rest (pad_length w n)),
    (drop_app_exact w _ rest (pad_length w n)).
  rewrite pad_length, Nat.eqb_refl, pad_all_digits. cbn [andb].
  rewrite pad_value, Z.mod_small by exact Hn. f_equal.
Qed.

Lemma fixed_digits_pad_end (w : nat) (n : Z) :
  0 <= n < 10 ^ Z.of_nat w ->
  DT.fixed_digits w (DT.pad w n) = Some (n, "").
Proof.
  intros Hn. rewrite <- (str_app_nil_r (DT.pad w n)) at 1. apply fixed_digits_pad, Hn.
Qed.

Lemma expect_head (c : ascii) (s : string) : DT.expect c (String c "" ++ s) = Some s.
Proof. change (String c "" ++ s) with (String c s). cbn. rewrite Ascii.eqb_refl. reflexivity. Qed.

(** *** Characters of a text *)

Lemma find_app (c : ascii) (a b : string) :
  Str.find (a ++ b) c
  = match Str.find a c with
    | Some i => Some i
    | None => (fun j => (String.length a + j)%nat) <$> Str.find b c
    end.
Proof.
  induction a as [|x a IH].
  - rewrite str_app_nil. cbn. destruct (Str.find b c); reflexivity.
  - rewrite str_app_cons. cbn [Str.find String.length]. destruct (Ascii.eqb x c); [reflexivity|].
    rewrite IH. destruct (Str.find a c); [reflexivity|].
    destruct (Str.find b c); reflexivity.
Qed.

Lemma isdigit_not (c x : ascii) :
  Str.isdigit c = true -> Str.isdigit x = false -> Ascii.eqb c x = false.
Proof.
  intros Hc Hx. destruct (Ascii.eqb c x) eqn:E; [|reflexivity].
  apply Ascii.eqb_eq in E. congruence.
Qed.

Lemma find_pad (w : nat) (x : ascii) : forall n,
  Str.isdigit x = false -> Str.find (DT.pad w n) x = None.
Proof.
  induction w as [|w IH]; intros n Hx; [reflexivity|].
  cbn [DT.pad]. rewrite find_app, IH by exact Hx. cbn [Str.find].
  rewrite (isdigit_not _ x (digit_char_isdigit n) Hx). reflexivity.
Qed.

Lemma parse_date_iso (y m d : Z) :
  0 <= y < 10000 -> 0 <= m < 100 -> 0 <= d < 100 ->
  DT.parse_isoformat_date (DT.pad 4 y ++ "-" ++ DT.pad 2 m ++ "-" ++ DT.pad 2 d)
  = Some (y, m, d).
Proof.
  intros Hy Hm Hd. unfold DT.parse_isoformat_date.
  rewrite (fixed_digits_pad 4) by (change (10 ^ Z.of_nat 4) with 10000; exact Hy).
  cbn [mbind option_bind]. rewrite expect_head. cbn [mbind option_bind].
  rewrite (fixed_digits_pad 2) by (change (10 ^ Z.of_nat 2) with 100; exact Hm).
  cbn [mbind option_bind]. rewrite expect_head. cbn [mbind option_bind].
  rewrite (fixed_digits_pad_end 2) by (change (10 ^ Z.of_nat 2) with 100; exact Hd).
  reflexivity.
Qed.

Lemma parse_fraction_iso (us : Z) :
  0 <= us < 1000000 ->
  DT.parse_fraction (if (us =? 0)%Z then "" else "." ++ DT.pad 6 us) = Some us.
Proof.
  intros Hus. destruct (us =? 0)%Z eqn:E.
  - apply Z.eqb_eq in E. subst us. reflexivity.
  - change ("." ++ DT.pad 6 us) with (String "." (DT.pad 6 us)).
    unfold DT.parse_fraction. cbn [Ascii.eqb Bool.eqb negb].
    rewrite pad_all_digits, pad_length. cbn [negb Nat.eqb].
    rewrite pad_value. change (10 ^ Z.of_nat 6) with 1000000.
    rewrite Z.mod_small by exact Hus. f_equal.
Qed.

Lemma parse_time_core (h mi s us : Z) (fr : string) :
  0 <= h < 100 -> 0 <= mi < 100 -> 0 <= s < 100 ->
  DT.parse_fraction fr = Some us ->
  DT.parse_hh_mm_ss_ff (DT.pad 2 h ++ ":" ++ DT.pad 2 mi ++ ":" ++ DT.pad 2 s ++ fr)
  = Some (h, mi, s, us).
Proof.
  intros Hh Hmi Hs Hfr. unfold DT.parse_hh_mm_ss_ff.
  rewrite (fixed_digits_pad 2) by (change (10 ^ Z.of_nat 2) with 100; exact Hh).
  cbn [mbind option_bind].
  change (":" ++ DT.pad 2 mi ++ ":" ++ DT.pad 2 s ++ fr)
    with (String ":" (DT.pad 2 mi ++ ":" ++ DT.pad 2 s ++ fr)).
  cbn [DT.expect Ascii.eqb Bool.eqb mbind option_bind].
  rewrite (fixed_digits_pad 2) by (change (10 ^ Z.of_nat 2) with 100; exact Hmi).
  cbn [mbind option_bind].
  change (":" ++ DT.pad 2 s ++ fr) with (String ":" (DT.pad 2 s ++ fr)).
  cbn [DT.expect Ascii.eqb Bool.eqb mbind option_bind].
  rewrite (fixed_digits_pad 2) by (change (10 ^ Z.of_nat 2) with 100; exact Hs).
  cbn [mbind option_bind]. rewrite Hfr. reflexivity.
Qed.

Lemma parse_time_short (h mi : Z) :
  0 <= h < 100 -> 0 <= mi < 100 ->
  DT.parse_hh_mm_ss_ff (DT.pad 2 h ++ ":" ++ DT.pad 2 mi ++ "") = Some (h, mi, 0, 0).
Proof.
  intros Hh Hmi. unfold DT.parse_hh_mm_ss_ff.
  rewrite (fixed_digits_pad 2) by (change (10 ^ Z.of_nat 2) with 100; exact Hh).
  cbn [mbind option_bind].
  change (":" ++ DT.pad 2 mi ++ "") with (String ":" (DT.pad 2 mi ++ "")).
  cbn [DT.expect Ascii.eqb Bool.eqb mbind option_bind].
  rewrite (fixed_digits_pad 2) by (change (10 ^ Z.of_nat 2) with 100; exact Hmi).
  reflexivity.
Qed.

Lemma find_frac (x : ascii) (us : Z) :
  Str.isdigit x = false -> Ascii.eqb "." x = false ->
  Str.find (if (us =? 0)%Z then "" else "." ++ DT.pad 6 us) x = None.
Proof.
  intros Hx Hdot. destruct (us =? 0)%Z; [reflexivity|].
  change ("." ++ DT.pad 6 us) with (String "." (DT.pad 6 us)).
  cbn [Str.find]. rewrite Hdot, find_pad by exact Hx. reflexivity.
Qed.

Lemma length_frac (us : Z) :
  String.length (if (us =? 0)%Z then "" else "." ++ DT.pad 6 us)
  = if (us =? 0)%Z then 0%nat else 7%nat.
Proof.
  destruct (us =? 0)%Z; [reflexivity|].
  change ("." ++ DT.pad 6 us) with (String "." (DT.pad 6 us)).
  cbn [String.length]. rewrite pad_length. reflexivity.
Qed.

(** The clock part [HH:MM:SS[.ffffff]]: no sign in it. *)
Lemma find_clock (x : ascii) (a b c : Z) (fr : string) :
  Str.isdigit x = false -> Ascii.eqb ":" x = false -> Str.find fr x = None ->
  Str.find (DT.pad 2 a ++ ":" ++ DT.pad 2 b ++ ":" ++ DT.pad 2 c ++ fr) x = None.
Proof.
  intros Hx Hcolon Hfr.
  rewrite find_app, find_pad by exact Hx.
  change (":" ++ DT.pad 2 b ++ ":" ++ DT.pad 2 c ++ fr)
    with (String ":" (DT.pad 2 b ++ String ":" (DT.pad 2 c ++ fr))).
  cbn [Str.find]. rewrite Hcolon, find_app, find_pad by exact Hx.
  cbn [Str.find]. rewrite Hcolon, find_app, find_pad by exact Hx.
  rewrite Hfr. reflexivity.
Qed.

Lemma length_clock (a b c : Z) (fr : string) :
  String.length (DT.pad 2 a ++ ":" ++ DT.pad 2 b ++ ":" ++ DT.pad 2 c ++ fr)
  = (8 + String.length fr)%nat.
Proof.
  rewrite !str_length_app, !pad_length. cbn [String.length]. lia.
Qed.

(** The digits of a zone offset of [a] microseconds, [0 <= a < 1 day], read
    back. *)
Lemma offset_body_parse (a : Z) :
  0 <= a < DT.day_us ->
  let s := a / 1000000 in
  let us := a mod 1000000 in
  let body :=
    DT.pad 2 (s / 3600) ++ ":" ++ DT.pad 2 (s / 60 mod 60)
    ++ (if ((s mod 60 =? 0) && (us =? 0))%Z then ""
        else ":" ++ DT.pad 2 (s mod 60)
             ++ (if (us =? 0)%Z then "" else "." ++ DT.pad 6 us)) in
  (exists ss uu,
     DT.parse_hh_mm_ss_ff body = Some (s / 3600, s / 60 mod 60, ss, uu)
     /\ (s / 3600 * 3600 + s / 60 mod 60 * 60 + ss) * 1000000 + uu = a)
  /\ (let n := String.length body in ((n =? 5) || (n =? 8) || (n =? 15))%nat = true)
  /\ Str.find body "-" = None.
Proof.
  intros Ha s us body. unfold DT.day_us in Ha.
  assert (0 <= s < 86400) as Hs by (unfold s; split; [apply Z.div_pos | apply Z.div_lt_upper_bound]; lia).
  assert (0 <= us < 1000000) as Hus by (apply Z.mod_pos_bound; lia).
  assert (a = s * 1000000 + us) as Hsplit.
  { unfold s, us. pose proof (Z.div_mod a 1000000). lia. }
  assert (0 <= s / 3600 < 100) as Hh
      by (split; [apply Z.div_pos | apply Z.div_lt_upper_bound]; lia).
  assert (0 <= s / 60 mod 60 < 60) as Hm by (apply Z.mod_pos_bound; lia).
  assert (0 <= s mod 60 < 60) as Hsec by (apply Z.mod_pos_bound; lia).
  assert (s = s / 3600 * 3600 + s / 60 mod 60 * 60 + s mod 60) as Hsum.
  { pose proof (Z.div_mod s 60). pose proof (Z.div_mod (s / 60) 60).
    rewrite Zdiv_Zdiv in * by lia. change (60 * 60) with 3600 in *. lia. }
  subst body. destruct ((s mod 60 =? 0) && (us =? 0))%Z eqn:E.
  - apply andb_true_iff in E as [E1 E2]. apply Z.eqb_eq in E1, E2.
    split; [|split].
    + exists 0, 0. split; [apply parse_time_short; lia | lia].
    + cbn zeta. rewrite !str_length_app, !pad_length. reflexivity.
    + rewrite find_app, find_pad by reflexivity.
      change (":" ++ DT.pad 2 (s / 60 mod 60) ++ "")
        with (String ":" (DT.pad 2 (s / 60 mod 60) ++ "")).
      cbn [Str.find Ascii.eqb Bool.eqb]. rewrite find_app, find_pad by reflexivity.
      reflexivity.
  - split; [|split].
    + exists (s mod 60), us. split; [|lia].
      apply parse_time_core; try lia. apply parse_fraction_iso. exact Hus.
    + cbn zeta. rewrite length_clock, length_frac. destruct (us =? 0)%Z; reflexivity.
    + apply find_clock; try reflexivity. apply find_frac; reflexivity.
Qed.

(** The time part [HH:MM:SS] with a fraction text [fr] and a zone. *)
Lemma parse_time_text (h mi s us : Z) (fr : string) (tz : option Z) :
  0 <= h < 100 -> 0 <= mi < 100 -> 0 <= s < 100 ->
  DT.parse_fraction fr = Some us ->
  Str.find fr "-" = None -> Str.find fr "+" = None ->
  match tz with Some o => - DT.day_us < o < DT.day_us | None => True end ->
  DT.parse_isoformat_time
    ((DT.pad 2 h ++ ":" ++ DT.pad 2 mi ++ ":" ++ DT.pad 2 s ++ fr)
     ++ match tz with Some o => DT.format_offset o | None => "" end)
  = Some (h, mi, s, us, tz).
Proof.
  intros Hh Hmi Hs Hfr Hfm Hfp Htz.
  set (core := DT.pad 2 h ++ ":" ++ DT.pad 2 mi ++ ":" ++ DT.pad 2 s ++ fr).
  assert (DT.parse_hh_mm_ss_ff core = Some (h, mi, s, us)) as Hparse
    by (apply parse_time_core; assumption).
  assert (Str.find core "-" = None) as Hminus
    by (apply find_clock; try reflexivity; assumption).
  assert (Str.find core "+" = None) as Hplus
    by (apply find_clock; try reflexivity; assumption).
  assert (exists k, String.length core = S (S k)) as [k Hlen].
  { unfold core. rewrite length_clock. eexists. reflexivity. }
  unfold DT.parse_isoformat_time. destruct tz as [o|].
  - unfold DT.format_offset. cbn zeta.
    destruct (offset_body_parse (Z.abs o) ltac:(lia)) as ((ss & uu & Hbody & Hmag) & Hn & Hbm).
    cbn zeta in Hbody, Hn, Hbm.
    set (body := DT.pad 2 (Z.abs o / 1000000 / 3600) ++ _) in *.
    assert (forall sign : ascii, String sign "" ++ body = String sign body) as Hsign
      by reflexivity.
    assert (DT.tz_pos (core ++ (if (o <? 0)%Z then "-" else "+") ++ body)
            = Some (String.length core + 0)%nat
            /\ String.eqb
                 (Str.take 1 (Str.drop (String.length core + 0)
                                (core ++ (if (o <? 0)%Z then "-" else "+") ++ body))) "-"
               = (o <? 0)%Z) as [Hpos Hneg].
    { rewrite Nat.add_0_r, drop_app_length. unfold DT.tz_pos.
      destruct (o <? 0)%Z; rewrite Hsign, !(find_app _ core), Hminus, ?Hplus;
        cbn [Str.find Ascii.eqb Bool.eqb Str.take String.eqb]; rewrite ?Hbm;
        cbn [fmap option_fmap option_map]; rewrite ?Nat.add_0_r; split; reflexivity. }
    rewrite str_length_app, Hlen. cbn [Nat.add Nat.ltb Nat.leb].
    rewrite Hpos, Hneg, Nat.add_0_r, take_app_length, Hparse. cbn [mbind option_bind].
    assert (Str.drop (S (String.length core))
              (core ++ (if (o <? 0)%Z then "-" else "+") ++ body) = body) as Hdrop.
    { destruct (o <? 0)%Z; rewrite Hsign; apply drop_app_sep. }
    rewrite Hdrop, Hn. cbn [negb]. rewrite Hbody. cbn [mbind option_bind].
    f_equal. f_equal. f_equal. destruct (o <? 0)%Z eqn:E.
    + apply Z.ltb_lt in E. lia.
    + apply Z.ltb_ge in E. lia.
  - rewrite str_app_nil_r, Hlen. cbn [Nat.ltb Nat.leb].
    unfold DT.tz_pos. rewrite Hminus, Hplus, Hparse. reflexivity.
Qed.

Lemma valid_fields (d : DT.datetime) :
  DT.valid d = true ->
  1 <= DT.year d <= 9999 /\ 1 <= DT.month d <= 12 /\ 1 <= DT.day d <= 31
  /\ 0 <= DT.hour d <= 23 /\ 0 <= DT.minute d <= 59 /\ 0 <= DT.second d <= 59
  /\ 0 <= DT.microsecond d <= 999999
  /\ match DT.utcoffset d with
     | Some o => - DT.day_us < o < DT.day_us
     | None => True
     end.
Proof.
  unfold DT.valid. intros H.
  repeat (apply andb_true_iff in H as [H ?]).
  assert (DT.days_in_month (DT.year d) (DT.month d) <= 31) as Hdim.
  { unfold DT.days_in_month. destruct ((DT.month d =? 2)%Z && DT.is_leap (DT.year d)); [lia|].
    assert (exists k, (k <= 12)%nat /\ DT.month d = Z.of_nat k) as (k & Hk & ->)
      by (exists (Z.to_nat (DT.month d)); lia).
    rewrite Nat2Z.id. do 13 (destruct k as [|k]; [cbn; lia|]). lia. }
  repeat split; try lia.
  destruct (DT.utcoffset d); [lia | exact I].
Qed.

Lemma isoformat_parts (d : DT.datetime) :
  DT.isoformat d
  = (DT.pad 4 (DT.year d) ++ "-" ++ DT.pad 2 (DT.month d) ++ "-" ++ DT.pad 2 (DT.day d))
    ++ String "T"
         ((DT.pad 2 (DT.hour d) ++ ":" ++ DT.pad 2 (DT.minute d) ++ ":"
           ++ DT.pad 2 (DT.second d)
           ++ (if (DT.microsecond d =? 0)%Z then ""
               else "." ++ DT.pad 6 (DT.microsecond d)))
          ++ match DT.utcoffset d with Some o => DT.format_offset o | None => "" end).
Proof.
  unfold DT.isoformat.
  generalize (DT.pad 4 (DT.year d)), (DT.pad 2 (DT.month d)), (DT.pad 2 (DT.day d)),
    (DT.pad 2 (DT.hour d)), (DT.pad 2 (DT.minute d)), (DT.pad 2 (DT.second d)),
    (if (DT.microsecond d =? 0)%Z then "" else "." ++ DT.pad 6 (DT.microsecond d)),
    (match DT.utcoffset d with Some o => DT.format_offset o | None => "" end).
  intros A B C h mi s fr zone.
  rewrite (str_app_assoc A), (str_app_assoc "-"), (str_app_assoc B), (str_app_assoc "-").
  rewrite (str_app_assoc h), (str_app_assoc ":"), (str_app_assoc mi), (str_app_assoc ":"),
    (str_app_assoc s).
  reflexivity.
Qed.

(** The text of the fields of [d], with any fraction text that reads as
    its microseconds, reads as [d]. *)
Lemma fromisoformat_text (d : DT.datetime) (fr : string) :
  DT.valid d = true ->
  DT.parse_fraction fr = Some (DT.microsecond d) ->
  Str.find fr "-" = None -> Str.find fr "+" = None ->
  DT.fromisoformat
    ((DT.pad 4 (DT.year d) ++ "-" ++ DT.pad 2 (DT.month d) ++ "-" ++ DT.pad 2 (DT.day d))
     ++ String "T"
          ((DT.pad 2 (DT.hour d) ++ ":" ++ DT.pad 2 (DT.minute d) ++ ":"
            ++ DT.pad 2 (DT.second d) ++ fr)
           ++ match DT.utcoffset d with Some o => DT.format_offset o | None => "" end))
  = Some d.
Proof.
  intros Hv Hfr Hfm Hfp.
  pose proof (valid_fields d Hv) as (Hy & Hm & Hd & Hh & Hmi & Hs & Hus & Htz).
  set (date := DT.pad 4 (DT.year d) ++ "-" ++ DT.pad 2 (DT.month d) ++ "-" ++ DT.pad 2 (DT.day d)).
  set (clock := DT.pad 2 (DT.hour d) ++ ":" ++ DT.pad 2 (DT.minute d) ++ ":"
                ++ DT.pad 2 (DT.second d) ++ fr).
  set (zone := match DT.utcoffset d with Some o => DT.format_offset o | None => "" end).
  unfold DT.fromisoformat.
  assert (String.length date = 10%nat) as Hlen.
  { unfold date. rewrite !str_length_app, !pad_length. reflexivity. }
  assert (Str.take 10 (date ++ String "T" (clock ++ zone)) = date) as Htake
    by apply (take_app_exact 10 date _ Hlen).
  rewrite Htake.
  assert (Str.drop 11 (date ++ String "T" (clock ++ zone)) = clock ++ zone) as Hdrop.
  { change 11%nat with (S 10). rewrite <- Hlen. apply drop_app_sep. }
  assert ((String.length (date ++ String "T" (clock ++ zone)) <=? 10)%nat = false) as Hlong.
  { apply Nat.leb_gt. rewrite str_length_app, Hlen. cbn [String.length]. lia. }
  rewrite Hdrop, Hlong. unfold date. rewrite parse_date_iso by lia. cbn [mbind option_bind].
  assert (DT.parse_isoformat_time (clock ++ zone)
          = Some (DT.hour d, DT.minute d, DT.second d, DT.microsecond d, DT.utcoffset d))
    as Htime by (apply parse_time_text; try lia; assumption).
  rewrite Htime. cbn [mbind option_bind].
  destruct d as [y m dd hh mi ss us tz]. cbn [DT.year DT.month DT.day DT.hour DT.minute
    DT.second DT.microsecond DT.utcoffset] in *.
  rewrite Hv. reflexivity.
Qed.

(** An instant written by [isoformat] reads back as itself. *)
Lemma fromisoformat_isoformat (d : DT.datetime) :
  DT.valid d = true -> DT.fromisoformat (DT.isoformat d) = Some d.
Proof.
  intros Hv. pose proof (valid_fields d Hv) as (_ & _ & _ & _ & _ & _ & Hus & _).
  rewrite isoformat_parts. apply fromisoformat_text.
  - exact Hv.
  - apply parse_fraction_iso. lia.
  - apply find_frac; reflexivity.
  - apply find_frac; reflexivity.
Qed.

Lemma find_format_offset (x : ascii) (o : Z) :
  Str.isdigit x = false -> Ascii.eqb ":" x = false -> Ascii.eqb "." x = false ->
  Ascii.eqb "-" x = false -> Ascii.eqb "+" x = false ->
  Str.find (DT.format_offset o) x = None.
Proof.
  intros Hx Hcolon Hdot Hminus Hplus. unfold DT.format_offset. cbn zeta.
  set (s := Z.abs o / 1000000). set (us := Z.abs o mod 1000000).
  assert (Str.find
            (DT.pad 2 (s / 3600) ++ ":" ++ DT.pad 2 (s / 60 mod 60)
             ++ (if ((s mod 60 =? 0) && (us =? 0))%Z then ""
                 else ":" ++ DT.pad 2 (s mod 60)
                      ++ (if (us =? 0)%Z then "" else "." ++ DT.pad 6 us))) x = None) as Hbody.
  { destruct ((s mod 60 =? 0) && (us =? 0))%Z.
    - rewrite find_app, find_pad by exact Hx.
      change (":" ++ DT.pad 2 (s / 60 mod 60) ++ "")
        with (String ":" (DT.pad 2 (s / 60 mod 60) ++ "")).
      cbn [Str.find]. rewrite Hcolon, find_app, find_pad by exact Hx. reflexivity.
    - apply find_clock; try assumption. apply find_frac; assumption. }
  rewrite find_app, Hbody. destruct (o <? 0)%Z; cbn [Str.find]; rewrite ?Hminus, ?Hplus; reflexivity.
Qed.

Lemma find_isoformat (x : ascii) (d : DT.datetime) :
  Str.isdigit x = false -> Ascii.eqb ":" x = false -> Ascii.eqb "." x = false ->
  Ascii.eqb "-" x = false -> Ascii.eqb "+" x = false -> Ascii.eqb "T" x = false ->
  Str.find (DT.isoformat d) x = None.
Proof.
  intros Hx Hcolon Hdot Hminus Hplus HT. rewrite isoformat_parts.
  assert (Str.find (DT.pad 4 (DT.year d) ++ "-" ++ DT.pad 2 (DT.month d) ++ "-"
                    ++ DT.pad 2 (DT.day d)) x = None) as Hdate.
  { rewrite find_app, find_pad by exact Hx.
    change ("-" ++ DT.pad 2 (DT.month d) ++ "-" ++ DT.pad 2 (DT.day d))
      with (String "-" (DT.pad 2 (DT.month d) ++ String "-" (DT.pad 2 (DT.day d)))).
    cbn [Str.find]. rewrite Hminus, find_app, find_pad by exact Hx.
    cbn [Str.find]. rewrite Hminus, find_pad by exact Hx. reflexivity. }
  rewrite find_app, Hdate. cbn [Str.find]. rewrite HT, find_app.
  rewrite find_clock by (try assumption; apply find_frac; assumption).
  destruct (DT.utcoffset d); [rewrite find_format_offset by assumption|]; reflexivity.
Qed.

(** Where the first character of [old] does not occur, nothing is replaced. *)
Lemma replace_absent (c : ascii) (old' new : string) (fuel : nat) : forall s,
  Str.find s c = None -> Str.replace_fuel fuel (String c old') new s = s.
Proof.
  induction fuel as [|fuel IH]; intros s Hf; [reflexivity|].
  destruct s as [|a s]; [reflexivity|].
  apply find_cons_none in Hf as [Ha Hs].
  cbn [Str.replace_fuel Str.startswith]. rewrite (Ascii.eqb_sym c a), Ha, (IH s Hs). reflexivity.
Qed.

Lemma parse_iso_isoformat (d : DT.datetime) :
  DT.valid d = true -> session._parse_iso (VStr (DT.isoformat d)) = Some d.
Proof.
  intros Hv. unfold session._parse_iso, Str.replace.
  rewrite replace_absent by (apply find_isoformat; reflexivity).
  apply fromisoformat_isoformat, Hv.
Qed.

Lemma fromisoformat_valid (s : string) (d : DT.datetime) :
  DT.fromisoformat s = Some d -> DT.valid d = true.
Proof.
  unfold DT.fromisoformat.
  destruct (DT.parse_isoformat_date (Str.take 10 s)) as [[[y m] dd]|]; [|discriminate].
  cbn [mbind option_bind].
  destruct (if (String.length s <=? 10)%nat then Some (0, 0, 0, 0, None)
            else DT.parse_isoformat_time (Str.drop 11 s))
    as [[[[[hh mi] ss] us] tz]|]; [|cbn; discriminate].
  cbn [mbind option_bind].
  destruct (DT.valid (DT.mk y m dd hh mi ss us tz)) eqn:Hv; [|discriminate].
  intros H. injection H as <-. exact Hv.
Qed.

Lemma loader_parse_iso_valid (s : string) (d : DT.datetime) :
  zip_loader._parse_iso s = Some d -> DT.valid d = true.
Proof.
  unfold zip_loader._parse_iso.
  destruct (String.eqb s "" || String.eqb (Str.strip s) ""); [discriminate|].
  apply fromisoformat_valid.
Qed.

(** The text a kept row carries reads back as the instant of the row. *)
Lemma row_point_instant (line : string) (p : PointRow) :
  row_point line p ->
  default DT.min (session._parse_iso (VStr (timestamp p))) = row_instant line.
Proof.
  intros (_ & _ & Hts). unfold row_instant. rewrite Hts.
  destruct (zip_loader._parse_iso (Str.strip (nth 0 (Str.split "," line) ""))) as [d|] eqn:E.
  - rewrite (parse_iso_isoformat d (loader_parse_iso_valid _ _ E)). reflexivity.
  - reflexivity.
Qed.

Lemma Forall2_fmap_eq {A B C} (f : B -> C) (g : A -> C) (l : list A) (l' : list B) :
  Forall2 (fun x y => f y = g x) l l' -> f <$> l' = g <$> l.
Proof.
  induction 1 as [|x y l l' Hxy _ IH]; [reflexivity|].
  rewrite !fmap_cons, Hxy, IH. reflexivity.
Qed.

Lemma read_points_instants (content : string) :
  (fun p => default DT.min (session._parse_iso (VStr (timestamp p)))) <$> read_points content
  = row_instant <$> List.filter valid_row (data_rows content).
Proof.
  rewrite read_points_rows. apply Forall2_fmap_eq.
  eapply Forall2_impl; [apply omap_point_of_line|].
  intros line p Hrow. apply row_point_instant. exact Hrow.
Qed.

(** X7: the timestamps of the data files reach the points of the sensor
    unchanged. The loader writes each parsed timestamp back as ISO text and
    the sensor parses that text again; the heart-rate (RR) points of the
    sensor built from a file carry, in order, the instants of the valid rows
    of the file: the timestamp read from the first field, zone included, and
    [datetime.min] where that field is no timestamp. *)
Theorem X7_row_timestamps_reach_the_points (content : string) (row : SensorRow)
    (other : list PointRow) (st : dict) :
  (exists s,
     session.SensorData.init (VDict (sensor_dict row (_read_hr_csv content) other st)) = Ok s
     /\ session.hr_timestamp <$> session.SensorData.heart_rate_points s
        = row_instant <$> List.filter valid_row (data_rows content))
  /\ (exists s,
        session.SensorData.init (VDict (sensor_dict row other (_read_rr_csv content) st)) = Ok s
        /\ session.rr_timestamp <$> session.SensorData.rr_points s
           = row_instant <$> List.filter valid_row (data_rows content)).
Proof.
  split; eexists; (split; [apply sensor_init_dict|]).
  - unfold session.SensorData.heart_rate_points. cbn [session.SensorData._hr_points].
    rewrite <- list_fmap_compose. apply read_points_instants.
  - unfold session.SensorData.rr_points. cbn [session.SensorData._rr_points].
    rewrite <- list_fmap_compose. apply read_points_instants.
Qed.

(** ** The duration of a sensor *)

Lemma lt_aware (a b : DT.datetime) :
  aware a -> aware b -> DT.lt a b = Ok (instant_us a <? instant_us b)%Z.
Proof.
  unfold aware, DT.lt, instant_us. intros Ha Hb.
  destruct (DT.utcoffset a); [|congruence]. destruct (DT.utcoffset b); [|congruence].
  reflexivity.
Qed.

Lemma max_from_aware (l : list DT.datetime) : forall cur,
  aware cur -> Forall aware l ->
  exists m,
    DT.max_from cur l = Ok m /\ In m (cur :: l) /\ aware m
    /\ Forall (fun d => instant_us d <= instant_us m) (cur :: l).
Proof.
  induction l as [|x l IH]; intros cur Hc Hl.
  - exists cur. repeat split; [left; reflexivity | exact Hc | repeat constructor; lia].
  - inversion Hl as [|? ? Hx Hl']; subst. cbn [DT.max_from].
    rewrite (lt_aware cur x Hc Hx). cbn [mbind result_bind].
    destruct (instant_us cur <? instant_us x)%Z eqn:E.
    + apply Z.ltb_lt in E. destruct (IH x Hx Hl') as (m & Hm & Hin & Ham & Hall).
      exists m. split; [exact Hm|]. split; [right; exact Hin|]. split; [exact Ham|].
      inversion Hall as [|? ? Hxm Hrest]; subst.
      constructor; [lia|]. constructor; assumption.
    + apply Z.ltb_ge in E. destruct (IH cur Hc Hl') as (m & Hm & Hin & Ham & Hall).
      exists m. split; [exact Hm|].
      split; [destruct Hin as [<-|Hin]; [left; reflexivity | right; right; exact Hin]|].
      split; [exact Ham|].
      inversion Hall as [|? ? Hcm Hrest]; subst.
      constructor; [exact Hcm|]. constructor; [lia | exact Hrest].
Qed.

Lemma min_from_aware (l : list DT.datetime) : forall cur,
  aware cur -> Forall aware l ->
  exists m,
    DT.min_from cur l = Ok m /\ In m (cur :: l) /\ aware m
    /\ Forall (fun d => instant_us m <= instant_us d) (cur :: l).
Proof.
  induction l as [|x l IH]; intros cur Hc Hl.
  - exists cur. repeat split; [left; reflexivity | exact Hc | repeat constructor; lia].
  - inversion Hl as [|? ? Hx Hl']; subst. cbn [DT.min_from].
    rewrite (lt_aware x cur Hx Hc). cbn [mbind result_bind].
    destruct (instant_us x <? instant_us cur)%Z eqn:E.
    + apply Z.ltb_lt in E. destruct (IH x Hx Hl') as (m & Hm & Hin & Ham & Hall).
      exists m. split; [exact Hm|]. split; [right; exact Hin|]. split; [exact Ham|].
      inversion Hall as [|? ? Hxm Hrest]; subst.
      constructor; [lia|]. constructor; assumption.
    + apply Z.ltb_ge in E. destruct (IH cur Hc Hl') as (m & Hm & Hin & Ham & Hall).
      exists m. split; [exact Hm|].
      split; [destruct Hin as [<-|Hin]; [left; reflexivity | right; right; exact Hin]|].
      split; [exact Ham|].
      inversion Hall as [|? ? Hcm Hrest]; subst.
      constructor; [exact Hcm|]. constructor; [lia | exact Hrest].
Qed.

Lemma timestamp_aware (o : Z) (d : DT.datetime) :
  aware d -> DT.timestamp o d = Ok (posix_seconds d).
Proof.
  unfold aware, DT.timestamp, posix_seconds, instant_us. intros Hd.
  destruct (DT.utcoffset d); [reflexivity | congruence].
Qed.

(** X8: when every point of a sensor carries a zone, its duration is
    defined in every zone of the machine and does not depend on it: it is
    the POSIX time of the latest instant minus that of the earliest, the
    heart-rate and the RR points taken together. *)
Theorem X8_duration_of_aware_points (s : session.SensorData.t) :
  Forall aware (session.SensorData.times s) ->
  session.SensorData.times s <> [] ->
  exists hi lo,
    In hi (session.SensorData.times s) /\ In lo (session.SensorData.times s)
    /\ Forall (fun d => instant_us lo <= instant_us d <= instant_us hi)
         (session.SensorData.times s)
    /\ forall local_offset,
         session.SensorData.duration_seconds local_offset s
         = Ok (PrimFloat.sub (posix_seconds hi) (posix_seconds lo)).
Proof.
  intros Hall Hne. destruct (session.SensorData.times s) as [|x l] eqn:Ht; [congruence|].
  inversion Hall as [|? ? Hx Hl]; subst.
  destruct (max_from_aware l x Hx Hl) as (hi & Hmax & Hhi & Hahi & Hle).
  destruct (min_from_aware l x Hx Hl) as (lo & Hmin & Hlo & Halo & Hge).
  exists hi, lo. split; [exact Hhi|]. split; [exact Hlo|]. split.
  - rewrite List.Forall_forall in *. intros d Hd. split; [apply Hge | apply Hle]; exact Hd.
  - intros o. rewrite (duration_seconds_eq o s x l Ht).
    cbn [DT.max_of DT.min_of]. rewrite Hmax, Hmin. cbn [mbind result_bind].
    rewrite !timestamp_aware by assumption. reflexivity.
Qed.

Lemma X8_witness :
  exists hi lo,
    In hi (session.SensorData.times aware_sensor)
    /\ In lo (session.SensorData.times aware_sensor)
    /\ Forall (fun d => instant_us lo <= instant_us d <= instant_us hi)
         (session.SensorData.times aware_sensor)
    /\ forall local_offset,
         session.SensorData.duration_seconds local_offset aware_sensor
         = Ok (PrimFloat.sub (posix_seconds hi) (posix_seconds lo)).
Proof.
  apply (X8_duration_of_aware_points aware_sensor).
  - repeat constructor; discriminate.
  - discriminate.
Defined.

Lemma row_instant_microsecond (line : string) : 0 <= DT.microsecond (row_instant line).
Proof.
  unfold row_instant.
  destruct (zip_loader._parse_iso (Str.strip (nth 0 (Str.split "," line) ""))) as [d|] eqn:E.
  - apply loader_parse_iso_valid, valid_fields in E. cbn [default from_option id]. lia.
  - cbn. lia.
Qed.

(** X9: one kept row without a readable timestamp is enough to leave the
    sensor without a duration. Such a row of the heart-rate file is valid (it
    has its two floats and its integer), so its point is kept at
    [datetime.min]; for the sensor assembled from the two files the
    evaluation of [duration_seconds] then raises, in every zone of the
    machine and whatever the other rows hold. *)
Theorem X9_unreadable_timestamp_leaves_no_duration (hr_content rr_content line : string)
    (row : SensorRow) (st : dict) (local_offset : Z) :
  In line (List.filter valid_row (data_rows hr_content)) ->
  zip_loader._parse_iso (Str.strip (nth 0 (Str.split "," line) "")) = None ->
  exists s,
    session.SensorData.init
      (VDict (sensor_dict row (_read_hr_csv hr_content) (_read_rr_csv rr_content) st)) = Ok s
    /\ In DT.min (session.hr_timestamp <$> session.SensorData.heart_rate_points s)
    /\ is_ok (session.SensorData.duration_seconds local_offset s) = false.
Proof.
  intros Hline Hnone. eexists. split; [apply sensor_init_dict|].
  assert (session.SensorData.times
            (session.SensorData.mk
               (sensor_dict row (_read_hr_csv hr_content) (_read_rr_csv rr_content) st)
               (hr_point <$> _read_hr_csv hr_content) (rr_point <$> _read_rr_csv rr_content))
          = ((row_instant <$> List.filter valid_row (data_rows hr_content))
             ++ (row_instant <$> List.filter valid_row (data_rows rr_content)))%list) as Htimes.
  { unfold session.SensorData.times.
    cbn [session.SensorData._hr_points session.SensorData._rr_points].
    rewrite <- !list_fmap_compose.
    f_equal; apply read_points_instants. }
  assert (In DT.min (row_instant <$> List.filter valid_row (data_rows hr_content))) as Hmin.
  { apply in_map_iff. exists line. split; [|exact Hline].
    unfold row_instant. rewrite Hnone. reflexivity. }
  split.
  - unfold session.SensorData.heart_rate_points. cbn [session.SensorData._hr_points].
    rewrite <- list_fmap_compose.
    change (session.hr_timestamp ∘ hr_point)
      with (fun p => default DT.min (session._parse_iso (VStr (timestamp p)))).
    unfold _read_hr_csv. rewrite read_points_instants. exact Hmin.
  - apply duration_raises_at_minimum; rewrite Htimes.
    + apply in_or_app. left. exact Hmin.
    + apply Forall_app. split; apply List.Forall_forall; intros d Hd;
        apply in_map_iff in Hd as (l & <- & _); apply row_instant_microsecond.
Qed.

Lemma X9_witness :
  exists s,
    session.SensorData.init
      (VDict (sensor_dict fixture_row (_read_hr_csv hr_csv_with_bad_rows)
                (_read_rr_csv fixture_rr_csv) ∅)) = Ok s
    /\ In DT.min (session.hr_timestamp <$> session.SensorData.heart_rate_points s)
    /\ is_ok (session.SensorData.duration_seconds 3600 s) = false.
Proof.
  apply (X9_unreadable_timestamp_leaves_no_duration hr_csv_with_bad_rows fixture_rr_csv
           "not a time,1715796602.1,102.1,72").
  - vm_compute. right. left. reflexivity.
  - vm_compute. reflexivity.
Defined.

(** ** The sensors of a loaded session *)

Lemma sensor_recordings_sensors z pfx table : forall i recs ss,
  sensor_recordings z pfx i table = Ok recs ->
  rmap session.SensorData.init recs = Ok ss ->
  length ss = length table
  /\ forall k row, table !! k = Some row ->
       exists st,
         loaded_statistics z pfx (i + k) row st
         /\ ss !! k = Some (loaded_sensor z pfx (i + k) row st).
Proof.
  induction table as [|row table IH]; intros i recs ss Hrecs Hss.
  - injection Hrecs as <-. injection Hss as <-. split; [reflexivity|]. intros k row Hk.
    discriminate.
  - cbn [sensor_recordings] in Hrecs.
    destruct (sensor_recording z pfx i row) as [rec|] eqn:Hrec; [|discriminate].
    destruct (sensor_recordings z pfx (S i) table) as [recs'|] eqn:Hrecs'; [|discriminate].
    cbn in Hrecs. injection Hrecs as <-.
    assert (exists st, loaded_statistics z pfx i row st
                       /\ rec = VDict (sensor_dict row
                                        (read_or_empty _read_hr_csv z (hr_path pfx i row))
                                        (read_or_empty _read_rr_csv z (rr_path pfx i row)) st))
      as (st & Hst & ->).
    { unfold sensor_recording in Hrec. unfold loaded_statistics.
      destruct (read z (stats_path pfx i row)) as [c|].
      - cbn in Hrec. injection Hrec as <-. eauto.
      - destruct (synthesized_statistics _ row) as [st|]; [|discriminate].
        cbn in Hrec. injection Hrec as <-. eauto. }
    cbn [rmap] in Hss. rewrite sensor_init_dict in Hss. cbn [mbind result_bind] in Hss.
    destruct (rmap session.SensorData.init recs') as [ss'|] eqn:Hss'; [|discriminate].
    cbn in Hss. injection Hss as <-.
    destruct (IH (S i) recs' ss' Hrecs' Hss') as [Hlen Hrows].
    split; [cbn [length]; rewrite Hlen; reflexivity|].
    intros [|k] row' Hk.
    + injection Hk as <-. rewrite Nat.add_0_r. exists st. split; [exact Hst | reflexivity].
    + replace (i + S k)%nat with (S i + k)%nat by lia. apply Hrows. exact Hk.
Qed.

(** A valid archive loads, and its sensors are those of its rows, in the
    order of the rows. *)
Lemma load_sensors zip_path z folder content :
  valid_archive z folder content ->
  exists r,
    load_from_zip zip_path z = Ok r
    /\ length (session.RecordingSession.sensors r) = length (loaded_rows z folder content)
    /\ forall k row, loaded_rows z folder content !! k = Some row ->
         exists st,
           loaded_statistics z (folder ++ "/") k row st
           /\ session.RecordingSession.sensors r !! k
              = Some (loaded_sensor z (folder ++ "/") k row st).
Proof.
  intros (Hf & Hr & Hrows).
  destruct (load_succeeds zip_path z folder content Hf Hr Hrows) as [r Hload].
  exists r. split; [exact Hload|].
  destruct (load_from_zip_inv _ _ _ Hload) as (D & recs & HD & Hlook & Hss & _).
  destruct (session_dict_inv _ _ _ HD) as (folder' & content' & recs' & Hf' & Hr' & Hrecs & ->).
  rewrite Hf in Hf'. injection Hf' as <-. rewrite Hr in Hr'. injection Hr' as <-.
  rewrite lookup_insert_eq in Hlook. injection Hlook as <-.
  exact (sensor_recordings_sensors _ _ _ 0%nat recs' _ Hrecs Hss).
Qed.

Lemma read_points_length (content : string) :
  length (read_points content) = length (List.filter valid_row (data_rows content)).
Proof.
  rewrite read_points_rows. symmetry.
  eapply Forall2_length, omap_point_of_line.
Qed.

Lemma read_or_empty_length (z : ZipFile) (path : string) :
  length (read_or_empty read_points z path) = length (file_rows z path).
Proof.
  unfold read_or_empty, file_rows. destruct (read z path); [apply read_points_length | reflexivity].
Qed.

Lemma loaded_sensor_count z pfx i row st :
  session.SensorData.data_point_count (loaded_sensor z pfx i row st)
  = rows_in_files z pfx i row.
Proof.
  unfold session.SensorData.data_point_count, loaded_sensor, rows_in_files.
  cbn [session.SensorData._hr_points session.SensorData._rr_points].
  rewrite !length_fmap. unfold _read_hr_csv, _read_rr_csv.
  rewrite !read_or_empty_length. reflexivity.
Qed.

(** X10: the data points of a loaded session are counted from the files:
    each sensor has as many points as its heart-rate file and its RR file
    have valid rows (none for a missing file), and the total is the sum over
    the sensor rows. Neither the [Total Data Points] line of the summary nor
    the sample counts of the sensor table enter. *)
Theorem X10_data_points_counted_from_files (zip_path : string) (z : ZipFile)
    (folder content : string) :
  valid_archive z folder content ->
  exists r,
    load_from_zip zip_path z = Ok r
    /\ session.SensorData.data_point_count <$> session.RecordingSession.sensors r
       = imap (rows_in_files z (folder ++ "/")) (loaded_rows z folder content)
    /\ session.RecordingSession.total_data_points r
       = foldr Z.add 0 (imap (rows_in_files z (folder ++ "/")) (loaded_rows z folder content)).
Proof.
  intros Hvalid. destruct (load_sensors zip_path z folder content Hvalid) as (r & Hload & Hlen & Hs).
  exists r. split; [exact Hload|].
  assert (session.SensorData.data_point_count <$> session.RecordingSession.sensors r
          = imap (rows_in_files z (folder ++ "/")) (loaded_rows z folder content)) as Heq.
  { apply list_eq. intros k. rewrite list_lookup_fmap, list_lookup_imap.
    destruct (loaded_rows z folder content !! k) as [row|] eqn:Hk.
    - destruct (Hs k row Hk) as (st & _ & ->). cbn. rewrite loaded_sensor_count. reflexivity.
    - apply lookup_ge_None in Hk. rewrite <- Hlen in Hk. apply lookup_ge_None in Hk.
      rewrite Hk. reflexivity. }
  split; [exact Heq|].
  unfold session.RecordingSession.total_data_points.
  unfold session.RecordingSession.sensors in Heq. rewrite Heq. reflexivity.
Qed.

Lemma X10_witness :
  exists r,
    load_from_zip "export.zip" fixture_archive = Ok r
    /\ session.SensorData.data_point_count <$> session.RecordingSession.sensors r
       = imap (rows_in_files fixture_archive ("recording_testid123_csv" ++ "/"))
           (loaded_rows fixture_archive "recording_testid123_csv" fixture_session_info)
    /\ session.RecordingSession.total_data_points r
       = foldr Z.add 0
           (imap (rows_in_files fixture_archive ("recording_testid123_csv" ++ "/"))
              (loaded_rows fixture_archive "recording_testid123_csv" fixture_session_info)).
Proof.
  exact (X10_data_points_counted_from_files "export.zip" fixture_archive
           "recording_testid123_csv" fixture_session_info fixture_valid).
Defined.

(** ** Looking a sensor up by its id *)

Lemma find_first {A} (p : A -> bool) (l : list A) :
  match List.find p l with
  | Some x =>
      exists k, l !! k = Some x /\ p x = true
                /\ forall j y, (j < k)%nat -> l !! j = Some y -> p y = false
  | None => Forall (fun y => p y = false) l
  end.
Proof.
  induction l as [|a l IH]; [constructor|].
  cbn [List.find]. destruct (p a) eqn:Ha.
  - exists 0%nat. split; [reflexivity|]. split; [exact Ha|]. intros j y Hj. lia.
  - destruct (List.find p l) as [x|].
    + destruct IH as (k & Hk & Hx & Hbefore). exists (S k).
      split; [exact Hk|]. split; [exact Hx|].
      intros [|j] y Hj Hy; [injection Hy as <-; exact Ha|].
      apply (Hbefore j y); [lia | exact Hy].
    + constructor; assumption.
Qed.

Lemma loaded_sensor_id z pfx i row st :
  session.SensorData.sensor_id (loaded_sensor z pfx i row st) = VStr (sensor_id row).
Proof.
  unfold session.SensorData.sensor_id, loaded_sensor, sensor_dict.
  cbn [session.SensorData._data]. dict_simpl. reflexivity.
Qed.

Lemma loaded_sensor_name z pfx i row st :
  session.SensorData.sensor_name (loaded_sensor z pfx i row st) = VStr (sensor_name row).
Proof.
  unfold session.SensorData.sensor_name, loaded_sensor, sensor_dict.
  cbn [session.SensorData._data]. dict_simpl. reflexivity.
Qed.

(** X11: in a loaded session [sensor(id)] finds the sensor of the first
    sensor row with that id, and finds none exactly when no row has the id.
    The id and the name of a sensor are those of its row in the table (or of
    its entry name); the [Sensor ID] and [Sensor Name] lines of a statistics
    file do not change them. *)
Theorem X11_sensor_found_by_row_id (zip_path : string) (z : ZipFile)
    (folder content : string) :
  valid_archive z folder content ->
  exists r,
    load_from_zip zip_path z = Ok r
    /\ session.SensorData.sensor_id <$> session.RecordingSession.sensors r
       = (fun row => VStr (sensor_id row)) <$> loaded_rows z folder content
    /\ session.SensorData.sensor_name <$> session.RecordingSession.sensors r
       = (fun row => VStr (sensor_name row)) <$> loaded_rows z folder content
    /\ forall id,
         match session.RecordingSession.sensor r id with
         | Some s =>
             exists k row,
               loaded_rows z folder content !! k = Some row
               /\ sensor_id row = id
               /\ session.RecordingSession.sensors r !! k = Some s
               /\ forall j row', (j < k)%nat ->
                    loaded_rows z folder content !! j = Some row' -> sensor_id row' <> id
         | None => Forall (fun row => sensor_id row <> id) (loaded_rows z folder content)
         end.
Proof.
  intros Hvalid. destruct (load_sensors zip_path z folder content Hvalid) as (r & Hload & Hlen & Hs).
  exists r. split; [exact Hload|].
  assert (forall k s, session.RecordingSession.sensors r !! k = Some s ->
            exists row st, loaded_rows z folder content !! k = Some row
                           /\ s = loaded_sensor z (folder ++ "/") k row st) as Hback.
  { intros k s Hk. destruct (loaded_rows z folder content !! k) as [row|] eqn:Hrow.
    - destruct (Hs k row Hrow) as (st & _ & Hk'). rewrite Hk in Hk'. injection Hk' as ->. eauto.
    - apply lookup_ge_None in Hrow. rewrite <- Hlen in Hrow. apply lookup_ge_None in Hrow.
      congruence. }
  assert (forall (f : session.SensorData.t -> pyval) (g : SensorRow -> pyval),
            (forall k row st, f (loaded_sensor z (folder ++ "/") k row st) = g row) ->
            f <$> session.RecordingSession.sensors r = g <$> loaded_rows z folder content)
    as Hmap.
  { intros f g Hfg. apply list_eq. intros k. rewrite !list_lookup_fmap.
    destruct (loaded_rows z folder content !! k) as [row|] eqn:Hk.
    - destruct (Hs k row Hk) as (st & _ & ->). cbn. rewrite Hfg. reflexivity.
    - apply lookup_ge_None in Hk. rewrite <- Hlen in Hk. apply lookup_ge_None in Hk.
      rewrite Hk. reflexivity. }
  split; [apply Hmap; intros; apply loaded_sensor_id|].
  split; [apply Hmap; intros; apply loaded_sensor_name|].
  intros id. unfold session.RecordingSession.sensor.
  pose proof (find_first (fun s => py_eq_str (session.SensorData.sensor_id s) id)
                (session.RecordingSession._sensors r)) as Hfind.
  destruct (List.find _ (session.RecordingSession._sensors r)) as [s|].
  - destruct Hfind as (k & Hk & Hp & Hbefore).
    destruct (Hback k s Hk) as (row & st & Hrow & ->).
    rewrite loaded_sensor_id in Hp. cbn in Hp. apply String.eqb_eq in Hp.
    exists k, row. split; [exact Hrow|]. split; [exact Hp|]. split; [exact Hk|].
    intros j row' Hj Hrow' Heq.
    destruct (Hs j row' Hrow') as (st' & _ & Hj').
    specialize (Hbefore j _ Hj Hj'). rewrite loaded_sensor_id in Hbefore. cbn in Hbefore.
    apply String.eqb_neq in Hbefore. contradiction.
  - apply List.Forall_forall. intros row Hin Heq.
    apply list_elem_of_In, list_elem_of_lookup in Hin as [k Hk].
    destruct (Hs k row Hk) as (st & _ & Hk').
    rewrite List.Forall_forall in Hfind.
    assert (In (loaded_sensor z (folder ++ "/") k row st) (session.RecordingSession._sensors r))
      as Hin' by (apply list_elem_of_In, list_elem_of_lookup; eauto).
    specialize (Hfind _ Hin'). rewrite loaded_sensor_id in Hfind. cbn in Hfind.
    apply String.eqb_neq in Hfind. contradiction.
Qed.

Lemma X11_witness :
  exists r,
    load_from_zip "export.zip" fixture_archive = Ok r
    /\ session.SensorData.sensor_id <$> session.RecordingSession.sensors r
       = (fun row => VStr (sensor_id row))
           <$> loaded_rows fixture_archive "recording_testid123_csv" fixture_session_info
    /\ session.SensorData.sensor_name <$> session.RecordingSession.sensors r
       = (fun row => VStr (sensor_name row))
           <$> loaded_rows fixture_archive "recording_testid123_csv" fixture_session_info
    /\ forall id,
         match session.RecordingSession.sensor r id with
         | Some s =>
             exists k row,
               loaded_rows fixture_archive "recording_testid123_csv" fixture_session_info !! k
               = Some row
               /\ sensor_id row = id
               /\ session.RecordingSession.sensors r !! k = Some s
               /\ forall j row', (j < k)%nat ->
                    loaded_rows fixture_archive "recording_testid123_csv" fixture_session_info
                      !! j = Some row' -> sensor_id row' <> id
         | None =>
             Forall (fun row => sensor_id row <> id)
               (loaded_rows fixture_archive "recording_testid123_csv" fixture_session_info)
         end.
Proof.
  exact (X11_sensor_found_by_row_id "export.zip" fixture_archive
           "recording_testid123_csv" fixture_session_info fixture_valid).
Defined.

(** ** The statistics of a loaded sensor *)

Lemma typed_insert (st : dict) (k : string) (v : pyval) :
  stat_typed k v = true -> typed_statistics st -> typed_statistics (<[k := v]> st).
Proof. intros Hv Hst. apply map_Forall_insert_2; assumption. Qed.

Lemma typed_set_if {A} (o : option A) (f : A -> pyval) (k : string) (st : dict) :
  (forall v, stat_typed k (f v) = true) -> typed_statistics st ->
  typed_statistics (set_if o f k st).
Proof. intros Hf Hst. destruct o; [apply typed_insert; auto | exact Hst]. Qed.

Lemma set_stat_typed (st : dict) (key value : string) :
  typed_statistics st -> typed_statistics (set_stat st key value).
Proof.
  intros Hst. unfold set_stat.
  repeat match goal with
         | |- typed_statistics (if ?b then _ else _) => destruct b
         end;
    first [ exact Hst
          | apply typed_insert; [reflexivity | exact Hst]
          | apply typed_set_if; [intros; reflexivity | exact Hst] ].
Qed.

Lemma read_statistics_typed (content : string) :
  typed_statistics (_read_statistics_csv content).
Proof.
  unfold _read_statistics_csv.
  destruct (length (Str.splitlines (Str.strip content)) <? 2)%nat; [apply map_Forall_empty|].
  assert (forall lines st, typed_statistics st -> typed_statistics (fold_left stat_step lines st))
    as Hfold.
  { induction lines as [|l lines IH]; intros st Hst; [exact Hst|].
    cbn [fold_left]. apply IH. unfold stat_step.
    destruct (Str.find l ","); [apply set_stat_typed|]; exact Hst. }
  apply Hfold, map_Forall_empty.
Qed.

Lemma synthesized_typed hr row st :
  synthesized_statistics hr row = Ok st -> typed_statistics st.
Proof.
  unfold synthesized_statistics. destruct (Num.int_of_float (avg_hr row)); [|discriminate].
  cbn. intros H. injection H as <-.
  repeat (apply typed_insert; [reflexivity|]). apply map_Forall_empty.
Qed.

Lemma loaded_statistics_typed z pfx i row st :
  loaded_statistics z pfx i row st -> typed_statistics st.
Proof.
  unfold loaded_statistics. destruct (read z (stats_path pfx i row)).
  - intros ->. apply read_statistics_typed.
  - apply synthesized_typed.
Qed.

(** A number read with a fallback key that the loader never writes. *)
Lemma typed_get_int (st : dict) (k k' : string) :
  typed_statistics st ->
  existsb (String.eqb k) int_keys = true ->
  (forall v, stat_typed k' v = false) ->
  exists n, py_int (dget st k (dget st k' (VInt 0))) = Ok n.
Proof.
  intros Hst Hk Hk'. unfold dget. destruct (st !! k) as [v|] eqn:E.
  - specialize (Hst k v E). cbn beta in Hst. unfold stat_typed in Hst. rewrite Hk in Hst.
    destruct v; try discriminate. cbn. eauto.
  - destruct (st !! k') as [v|] eqn:E'.
    + specialize (Hst k' v E'). cbn beta in Hst. rewrite Hk' in Hst. discriminate.
    + cbn. eauto.
Qed.

Lemma typed_get_float (st : dict) (k : string) :
  typed_statistics st ->
  existsb (String.eqb k) int_keys = false ->
  existsb (String.eqb k) float_keys = true ->
  exists x, py_float (dget st k (VInt 0)) = Ok x.
Proof.
  intros Hst Hi Hk. unfold dget. destruct (st !! k) as [v|] eqn:E.
  - specialize (Hst k v E). cbn beta in Hst. unfold stat_typed in Hst. rewrite Hi, Hk in Hst.
    destruct v; try discriminate. cbn. eauto.
  - cbn. eexists. reflexivity.
Qed.

Lemma loaded_sensor_statistics z pfx i row st :
  session.SensorData.statistics (loaded_sensor z pfx i row st) = Ok st.
Proof.
  unfold session.SensorData.statistics, loaded_sensor, sensor_dict.
  cbn [session.SensorData._data]. dict_simpl. reflexivity.
Qed.

Lemma loaded_sensor_readable z pfx i row st :
  typed_statistics st -> statistics_readable (loaded_sensor z pfx i row st).
Proof.
  intros Hst. unfold statistics_readable, session.SensorData.heart_rate_min,
    session.SensorData.heart_rate_max, session.SensorData.heart_rate_avg,
    session.SensorData.sdnn, session.SensorData.rmssd, session.SensorData.hrv_window,
    session.SensorData.hrv_sample_count.
  rewrite loaded_sensor_statistics. cbn [mbind result_bind].
  destruct (typed_get_int st "minHeartRate" "min_heart_rate" Hst eq_refl (fun _ => eq_refl))
    as [a ->].
  destruct (typed_get_int st "maxHeartRate" "max_heart_rate" Hst eq_refl (fun _ => eq_refl))
    as [b ->].
  destruct (typed_get_int st "averageHeartRate" "average_heart_rate" Hst eq_refl
              (fun _ => eq_refl)) as [c ->].
  destruct (typed_get_int st "hrvSampleCount" "hrv_sample_count" Hst eq_refl
              (fun _ => eq_refl)) as [d ->].
  destruct (typed_get_float st "sdnn" Hst eq_refl eq_refl) as [x ->].
  destruct (typed_get_float st "rmssd" Hst eq_refl eq_refl) as [y ->].
  repeat split.
Qed.

Lemma rmap_total {A B} (f : A -> result B) (l : list A) :
  Forall (fun x => is_ok (f x) = true) l -> exists l', rmap f l = Ok l'.
Proof.
  induction 1 as [|x l Hx _ [l' IH]]; [exists []; reflexivity|].
  cbn [rmap]. destruct (f x) as [y|]; [|discriminate]. cbn. rewrite IH. cbn. eauto.
Qed.

(** X12: on a loaded session every statistic can be read: for each sensor
    the minimum, maximum and average heart rate, SDNN, RMSSD, the HRV window
    and the HRV sample count return a value, whatever the statistics file
    holds (a number that does not parse is left out by the loader and read as
    0); the session averages of SDNN and RMSSD return a value, and the
    average heart rate fails only when the integer quotient is beyond the
    range of a float. *)
Theorem X12_loaded_statistics_readable (zip_path : string) (z : ZipFile)
    (folder content : string) :
  valid_archive z folder content ->
  exists r,
    load_from_zip zip_path z = Ok r
    /\ Forall statistics_readable (session.RecordingSession.sensors r)
    /\ is_ok (session.RecordingSession.average_sdnn r) = true
    /\ is_ok (session.RecordingSession.average_rmssd r) = true
    /\ forall e,
         session.RecordingSession.average_heart_rate r = Raise e ->
         e = OverflowError "integer division result too large for a float".
Proof.
  intros Hvalid. destruct (load_sensors zip_path z folder content Hvalid) as (r & Hload & Hlen & Hs).
  exists r. split; [exact Hload|].
  assert (Forall statistics_readable (session.RecordingSession.sensors r)) as Hall.
  { apply List.Forall_forall. intros s Hin.
    apply list_elem_of_In, list_elem_of_lookup in Hin as [k Hk].
    destruct (loaded_rows z folder content !! k) as [row|] eqn:Hrow.
    - destruct (Hs k row Hrow) as (st & Hst & Hk'). rewrite Hk in Hk'. injection Hk' as ->.
      apply loaded_sensor_readable. eapply loaded_statistics_typed. exact Hst.
    - apply lookup_ge_None in Hrow. rewrite <- Hlen in Hrow. apply lookup_ge_None in Hrow.
      congruence. }
  split; [exact Hall|]. unfold session.RecordingSession.sensors in Hall.
  assert (forall (A : Type) (f : session.SensorData.t -> result A),
            (forall s, statistics_readable s -> is_ok (f s) = true) ->
            exists l, rmap f (session.RecordingSession._sensors r) = Ok l) as Hrmap.
  { intros A f Hf. apply rmap_total. eapply Forall_impl; [exact Hall|]. exact Hf. }
  split; [|split].
  - unfold session.RecordingSession.average_sdnn.
    destruct (Hrmap _ session.SensorData.sdnn) as [l ->]; [|reflexivity].
    intros s Hsr. apply Hsr.
  - unfold session.RecordingSession.average_rmssd.
    destruct (Hrmap _ session.SensorData.rmssd) as [l ->]; [|reflexivity].
    intros s Hsr. apply Hsr.
  - intros e. unfold session.RecordingSession.average_heart_rate.
    destruct (session.RecordingSession._sensors r) as [|s0 ss] eqn:Hss; [discriminate|].
    destruct (Hrmap _ session.SensorData.heart_rate_avg) as [l Hl]; [intros s Hsr; apply Hsr|].
    rewrite Hl. cbn [mbind result_bind]. unfold int_truediv.
    destruct (PrimFloat.is_infinity _); [|discriminate].
    intros H. injection H as <-. reflexivity.
Qed.

Lemma X12_witness :
  exists r,
    load_from_zip "export.zip" fixture_archive = Ok r
    /\ Forall statistics_readable (session.RecordingSession.sensors r)
    /\ is_ok (session.RecordingSession.average_sdnn r) = true
    /\ is_ok (session.RecordingSession.average_rmssd r) = true
    /\ forall e,
         session.RecordingSession.average_heart_rate r = Raise e ->
         e = OverflowError "integer division result too large for a float".
Proof.
  exact (X12_loaded_statistics_readable "export.zip" fixture_archive
           "recording_testid123_csv" fixture_session_info fixture_valid).
Defined.

(** ** The summary of a loaded session *)

Lemma set_meta_typed (m : dict) (key value : string) :
  typed_session m -> typed_session (set_meta m key value).
Proof.
  intros Hm. unfold set_meta.
  repeat match goal with
         | |- typed_session (if ?b then _ else _) => destruct b
         end;
    first [ exact Hm
          | apply map_Forall_insert_2; [|exact Hm];
            first [ reflexivity
                  | destruct (zip_loader._parse_iso value); reflexivity ] ].
Qed.

Lemma psi_step_typed (st : psi_state) (line : string) :
  typed_session (meta st) -> typed_session (meta (psi_step st line)).
Proof.
  intros Hm. unfold psi_step.
  destruct (String.eqb (Str.strip line) ""); [exact Hm|].
  destruct (String.eqb (Str.strip line) "Sensors"); [exact Hm|].
  destruct (in_sensors st).
  - destruct (Str.contains line "Sensor ID" && Str.contains line "Sensor Name"); [exact Hm|].
    destruct (csv_reader line) as [|[|f fs] rows]; [exact Hm | exact Hm |].
    destruct (sensor_row (f :: fs)); exact Hm.
  - destruct (Str.find line ","); [apply set_meta_typed|]; exact Hm.
Qed.

Lemma parse_session_info_typed (content : string) :
  typed_session (fst (_parse_session_info content)).
Proof.
  unfold _parse_session_info. cbn [fst].
  assert (forall lines st, typed_session (meta st) ->
            typed_session (meta (fold_left psi_step lines st))) as Hfold.
  { induction lines as [|l lines IH]; intros st Hst; [exact Hst|].
    cbn [fold_left]. apply IH, psi_step_typed, Hst. }
  apply Hfold. apply map_Forall_empty.
Qed.

Lemma setdefault_typed (m : dict) (k : string) (v : pyval) :
  meta_typed k v = true -> typed_session m -> typed_session (setdefault m k v).
Proof.
  intros Hv Hm. unfold setdefault. destruct (m !! k); [exact Hm|].
  apply map_Forall_insert_2; assumption.
Qed.

Lemma default_identity_typed (m : dict) :
  typed_session m -> typed_session (default_identity m).
Proof.
  intros Hm. unfold default_identity.
  assert (typed_session (setdefault m "id" (VStr ""))) as Hid
    by (apply setdefault_typed; [reflexivity | exact Hm]).
  apply setdefault_typed; [|exact Hid].
  unfold dget. destruct (setdefault m "id" (VStr "") !! "id") as [v|] eqn:E; [|reflexivity].
  exact (Hid "id" v E).
Qed.

Lemma session_dict_typed zip_path z D :
  session_dict zip_path z = Ok D -> typed_session D.
Proof.
  intros HD. destruct (session_dict_inv _ _ _ HD) as (folder & content & recs & _ & _ & _ & ->).
  apply map_Forall_insert_2; [reflexivity|].
  apply default_identity_typed, parse_session_info_typed.
Qed.

(** A float read with a fallback key that the loader never writes. *)
Lemma typed_session_float (d : dict) (k k' : string) :
  typed_session d ->
  (forall v, meta_typed k v = is_float v) ->
  (forall v, meta_typed k' v = false) ->
  exists x, py_float (dget d k (dget d k' (VInt 0))) = Ok x.
Proof.
  intros Hd Hk Hk'. unfold dget. destruct (d !! k) as [v|] eqn:E.
  - specialize (Hd k v E). cbn beta in Hd. rewrite Hk in Hd.
    destruct v; try discriminate. cbn. eauto.
  - destruct (d !! k') as [v|] eqn:E'.
    + specialize (Hd k' v E'). cbn beta in Hd. rewrite Hk' in Hd. discriminate.
    + cbn. eexists. reflexivity.
Qed.

Lemma typed_session_int (d : dict) (k k' : string) :
  typed_session d ->
  (forall v, meta_typed k v = is_int v) ->
  (forall v, meta_typed k' v = false) ->
  exists n, py_int (dget d k (dget d k' (VInt 0))) = Ok n
            /\ VInt n = dget d k (VInt 0).
Proof.
  intros Hd Hk Hk'. unfold dget. destruct (d !! k) as [v|] eqn:E.
  - specialize (Hd k v E). cbn beta in Hd. rewrite Hk in Hd.
    destruct v; try discriminate. cbn. eauto.
  - destruct (d !! k') as [v|] eqn:E'.
    + specialize (Hd k' v E'). cbn beta in Hd. rewrite Hk' in Hd. discriminate.
    + cbn. eauto.
Qed.

(** X13: the dict of a loaded session is a valid argument of
    [RecordingSummary.from_dict]: the summary is built without error, has
    the id, the name, the start and the end of the session, and as sensor
    count the number the summary file announces (0 when it announces none),
    which need not be the number of sensors of the session. *)
Theorem X13_summary_of_loaded_session (zip_path : string) (z : ZipFile)
    (folder content : string) :
  valid_archive z folder content ->
  exists r sm,
    load_from_zip zip_path z = Ok r
    /\ session.RecordingSummary.from_dict (session.RecordingSession.raw r) = Ok sm
    /\ session.RecordingSummary.id sm = session.RecordingSession.id r
    /\ session.RecordingSummary.name sm = session.RecordingSession.name r
    /\ session.RecordingSummary.start_date sm = session.RecordingSession.start_date r
    /\ session.RecordingSummary.end_date sm = session.RecordingSession.end_date r
    /\ VInt (session.RecordingSummary.sensor_count sm)
       = dget (fst (_parse_session_info content)) "sensorCount" (VInt 0).
Proof.
  intros (Hf & Hr & Hrows).
  destruct (load_succeeds zip_path z folder content Hf Hr Hrows) as [r Hload].
  destruct (load_from_zip_inv _ _ _ Hload) as (D & recs & HD & _ & _ & Hraw).
  pose proof (session_dict_typed _ _ _ HD) as Htyped.
  destruct (session_dict_inv _ _ _ HD) as (folder' & content' & recs' & Hf' & Hr' & _ & HDeq).
  rewrite Hf in Hf'. injection Hf' as <-. rewrite Hr in Hr'. injection Hr' as <-.
  assert (exists sm,
            session.RecordingSummary.from_dict D = Ok sm
            /\ session.RecordingSummary.id sm = dget D "id" (VStr "")
            /\ session.RecordingSummary.name sm = dget D "name" (VStr "")
            /\ session.RecordingSummary.start_date sm
               = session._parse_iso (py_or (dget D "startDate" VNone) (dget D "start_date" VNone))
            /\ session.RecordingSummary.end_date sm
               = session._parse_iso (py_or (dget D "endDate" VNone) (dget D "end_date" VNone))
            /\ VInt (session.RecordingSummary.sensor_count sm) = dget D "sensorCount" (VInt 0))
    as (sm & Hsm & Hid & Hname & Hstart & Hend & Hcount).
  { unfold session.RecordingSummary.from_dict.
    destruct (typed_session_float D "duration" "duration_seconds" Htyped
                (fun _ => eq_refl) (fun _ => eq_refl)) as [du ->].
    destruct (typed_session_int D "sensorCount" "sensor_count" Htyped
                (fun _ => eq_refl) (fun _ => eq_refl)) as (sc & -> & Hsc).
    destruct (typed_session_float D "averageHeartRate" "average_heart_rate" Htyped
                (fun _ => eq_refl) (fun _ => eq_refl)) as [hr ->].
    destruct (typed_session_float D "averageSDNN" "average_sdnn" Htyped
                (fun _ => eq_refl) (fun _ => eq_refl)) as [sd ->].
    destruct (typed_session_float D "averageRMSSD" "average_rmssd" Htyped
                (fun _ => eq_refl) (fun _ => eq_refl)) as [rm ->].
    cbn [mbind result_bind]. eexists. split; [reflexivity|].
    cbn [session.RecordingSummary.id session.RecordingSummary.name
         session.RecordingSummary.start_date session.RecordingSummary.end_date
         session.RecordingSummary.sensor_count].
    repeat (split; [reflexivity|]). exact Hsc. }
  exists r, sm.
  unfold session.RecordingSession.raw, session.RecordingSession.id,
    session.RecordingSession.name, session.RecordingSession.start_date,
    session.RecordingSession.end_date. rewrite Hraw.
  split; [exact Hload|]. split; [exact Hsm|]. split; [exact Hid|]. split; [exact Hname|].
  split; [exact Hstart|]. split; [exact Hend|].
  rewrite Hcount, HDeq. unfold dget.
  rewrite lookup_insert_ne by discriminate.
  unfold default_identity. rewrite !setdefault_lookup_ne by discriminate. reflexivity.
Qed.

Lemma X13_witness :
  exists r sm,
    load_from_zip "export.zip" five_announced_archive = Ok r
    /\ session.RecordingSummary.from_dict (session.RecordingSession.raw r) = Ok sm
    /\ session.RecordingSummary.id sm = session.RecordingSession.id r
    /\ session.RecordingSummary.name sm = session.RecordingSession.name r
    /\ session.RecordingSummary.start_date sm = session.RecordingSession.start_date r
    /\ session.RecordingSummary.end_date sm = session.RecordingSession.end_date r
    /\ VInt (session.RecordingSummary.sensor_count sm)
       = dget (fst (_parse_session_info
                      ("Number of Sensors,5" ++ nl ++ "Sensors" ++ nl
                       ++ "ABC123,Polar H10,60,60,72,45.20,38.70" ++ nl)))
           "sensorCount" (VInt 0).
Proof.
  apply (X13_summary_of_loaded_session "export.zip" five_announced_archive "recording_t_csv").
  split; [vm_compute; reflexivity|]. split; [vm_compute; reflexivity|].
  intros k row Hk. right. vm_compute in Hk.
  destruct k as [|k]; [|destruct k; discriminate Hk].
  injection Hk as <-. vm_compute. reflexivity.
Defined.

(** ** The order of the discovered sensors *)

Lemma by_index_trans : Relations_1.Transitive by_index.
Proof. intros a b c. unfold by_index. lia. Qed.

Lemma with_index_above (k : Z) (x : SensorRow) (l : list SensorRow) :
  Sorted by_index (x :: l) -> k < index_key x -> with_index k (x :: l) = [].
Proof.
  intros Hs Hk. apply Sorted_StronglySorted in Hs; [|exact by_index_trans].
  inversion Hs as [|? ? _ Hall]; subst.
  unfold with_index. apply filter_nil_existsb, Bool.not_true_is_false. intros Hex.
  apply existsb_exists in Hex as (y & Hy & Hky). apply Z.eqb_eq in Hky.
  destruct Hy as [<-|Hy]; [lia|].
  rewrite List.Forall_forall in Hall. specialize (Hall y Hy). unfold by_index in Hall. lia.
Qed.

Lemma with_index_cons (k : Z) (x : SensorRow) (l : list SensorRow) :
  with_index k (x :: l)
  = if (index_key x =? k)%Z then x :: with_index k l else with_index k l.
Proof. reflexivity. Qed.

Lemma with_index_insert (k : Z) (r : SensorRow) (l : list SensorRow) :
  Sorted by_index l ->
  with_index k (insert_by_index r l)
  = (with_index k l ++ (if (index_key r =? k)%Z then [r] else []))%list.
Proof.
  induction l as [|x l IH]; intros Hs.
  - cbn. destruct (index_key r =? k)%Z; reflexivity.
  - cbn [insert_by_index]. destruct (index_key r <? index_key x)%Z eqn:E.
    + apply Z.ltb_lt in E. rewrite (with_index_cons k r).
      destruct (index_key r =? k)%Z eqn:Ek; [|rewrite app_nil_r; reflexivity].
      apply Z.eqb_eq in Ek. rewrite (with_index_above k x l Hs) by lia. reflexivity.
    + rewrite !(with_index_cons k x), IH by (inversion Hs; assumption).
      destruct (index_key x =? k)%Z; reflexivity.
Qed.

Lemma with_index_sort_from (k : Z) (l : list SensorRow) : forall acc,
  Sorted by_index acc ->
  with_index k (fold_left (fun a r => insert_by_index r a) l acc)
  = (with_index k acc ++ with_index k l)%list.
Proof.
  induction l as [|r l IH]; intros acc Hacc.
  - cbn. rewrite app_nil_r. reflexivity.
  - cbn [fold_left]. rewrite IH by (apply insert_by_index_sorted; exact Hacc).
    rewrite with_index_insert by exact Hacc. rewrite <- app_assoc. f_equal.
    rewrite (with_index_cons k r). destruct (index_key r =? k)%Z; reflexivity.
Qed.

(** X14: among the discovered sensors, those whose entry names carry the
    same index come out in the order of the archive: the sort by index is
    stable, so that for every index the rows with that index are, in order,
    the rows the entries with that index gave. *)
Theorem X14_discovery_keeps_archive_order (z : ZipFile) (pfx : string) (k : Z) :
  with_index k (_discover_sensors_from_zip z pfx)
  = with_index k (omap (discover_entry pfx) (namelist z)).
Proof.
  unfold _discover_sensors_from_zip, sort_by_index.
  rewrite with_index_sort_from by constructor. reflexivity.
Qed.

(** ** RR statistics of a sensor *)

(** X15: [rr_min] and [rr_max] of a sensor are the least and the greatest
    value among its RR points, each attained by a point, and both are 0 for a
    sensor without RR points, for which [rr_avg] is 0.0; with points,
    [rr_avg] can fail only by a quotient beyond the range of a float. *)
Theorem X15_rr_extremes (s : session.SensorData.t) :
  least_or_zero (session.SensorData.rr_min s)
    (session.rr_value <$> session.SensorData.rr_points s)
  /\ greatest_or_zero (session.SensorData.rr_max s)
       (session.rr_value <$> session.SensorData.rr_points s)
  /\ session.SensorData.rr_min s <= session.SensorData.rr_max s
  /\ (session.SensorData.rr_points s = [] ->
      session.SensorData.rr_avg s = Ok (Num.of_Z 0))
  /\ (forall e, session.SensorData.rr_avg s = Raise e ->
        e = OverflowError "integer division result too large for a float").
Proof.
  unfold session.SensorData.rr_min, session.SensorData.rr_max, session.SensorData.rr_avg,
    session.SensorData.rr_points.
  destruct (session.SensorData._rr_points s) as [|p ps].
  - cbn. repeat split; try reflexivity; try lia. intros e H. discriminate.
  - rewrite fmap_cons.
    pose proof (fold_min_spec (session.rr_value <$> ps) (session.rr_value p)) as [Hmin Hle].
    pose proof (fold_max_spec (session.rr_value <$> ps) (session.rr_value p)) as [Hmax Hge].
    split; [split; assumption|]. split; [split; assumption|]. split.
    + inversion Hle as [|? ? H1 _]; subst. inversion Hge as [|? ? H2 _]; subst. lia.
    + split; [discriminate|]. intros e. unfold int_truediv.
      destruct (PrimFloat.is_infinity _); [|discriminate].
      intros H. injection H as <-. reflexivity.
Qed.

(** ** The point at an index *)

Lemma point_at_row (content : string) (k : nat) :
  match read_points content !! k with
  | Some p =>
      exists line,
        List.filter valid_row (data_rows content) !! k = Some line
        /\ row_holds line (default DT.min (session._parse_iso (VStr (timestamp p))))
             (value p) (monotonicTimestamp p)
  | None => (length (List.filter valid_row (data_rows content)) <= k)%nat
  end.
Proof.
  pose proof (omap_point_of_line (data_rows content)) as H.
  rewrite <- read_points_rows in H.
  destruct (read_points content !! k) as [p|] eqn:E.
  - destruct (Forall2_lookup_r _ _ _ _ _ H E) as (line & Hline & Hrow).
    exists line. split; [exact Hline|].
    split; [apply row_point_instant; exact Hrow|].
    destruct Hrow as (Hm & Hv & _). split; assumption.
  - apply lookup_ge_None in E. rewrite (Forall2_length _ _ _ H). exact E.
Qed.

(** X16: [get_heart_rate_point(i)] and [get_rr_point(i)] of a sensor built
    from a data file return the point of the valid row number [i] of the
    file, counted from 0, with the instant, the value and the monotonic time
    of that row; for a negative [i] (no counting from the end) and for an
    [i] from the number of valid rows on they return [None]. *)
Theorem X16_point_at_index_is_row (content : string) (row : SensorRow)
    (other : list PointRow) (st : dict) :
  (exists s,
     session.SensorData.init (VDict (sensor_dict row (_read_hr_csv content) other st)) = Ok s
     /\ forall i,
          match session.SensorData.get_heart_rate_point s i with
          | Some p =>
              0 <= i
              /\ exists line,
                   List.filter valid_row (data_rows content) !! Z.to_nat i = Some line
                   /\ row_holds line (session.hr_timestamp p) (session.hr_value p)
                        (session.hr_monotonic_timestamp p)
          | None =>
              i < 0 \/ Z.of_nat (length (List.filter valid_row (data_rows content))) <= i
          end)
  /\ (exists s,
        session.SensorData.init (VDict (sensor_dict row other (_read_rr_csv content) st)) = Ok s
        /\ forall i,
             match session.SensorData.get_rr_point s i with
             | Some p =>
                 0 <= i
                 /\ exists line,
                      List.filter valid_row (data_rows content) !! Z.to_nat i = Some line
                      /\ row_holds line (session.rr_timestamp p) (session.rr_value p)
                           (session.rr_monotonic_timestamp p)
             | None =>
                 i < 0 \/ Z.of_nat (length (List.filter valid_row (data_rows content))) <= i
             end).
Proof.
  split; eexists; (split; [apply sensor_init_dict|]); intros i.
  - unfold session.SensorData.get_heart_rate_point. cbn [session.SensorData._hr_points].
    rewrite length_fmap. unfold _read_hr_csv.
    destruct (0 <=? i)%Z eqn:E0; [apply Z.leb_le in E0 | apply Z.leb_gt in E0; left; exact E0].
    pose proof (point_at_row content (Z.to_nat i)) as Hrow.
    destruct (i <? Z.of_nat (length (read_points content)))%Z eqn:E1; cbn [andb].
    + rewrite list_lookup_fmap.
      destruct (read_points content !! Z.to_nat i) as [p|] eqn:Ep.
      * cbn. split; [exact E0|]. exact Hrow.
      * apply lookup_ge_None in Ep. apply Z.ltb_lt in E1. lia.
    + apply Z.ltb_ge in E1. right. rewrite <- read_points_length. exact E1.
  - unfold session.SensorData.get_rr_point. cbn [session.SensorData._rr_points].
    rewrite length_fmap. unfold _read_rr_csv.
    destruct (0 <=? i)%Z eqn:E0; [apply Z.leb_le in E0 | apply Z.leb_gt in E0; left; exact E0].
    pose proof (point_at_row content (Z.to_nat i)) as Hrow.
    destruct (i <? Z.of_nat (length (read_points content)))%Z eqn:E1; cbn [andb].
    + rewrite list_lookup_fmap.
      destruct (read_points content !! Z.to_nat i) as [p|] eqn:Ep.
      * cbn. split; [exact E0|]. exact Hrow.
      * apply lookup_ge_None in Ep. apply Z.ltb_lt in E1. lia.
    + apply Z.ltb_ge in E1. right. rewrite <- read_points_length. exact E1.
Qed.

(** ** Start, end and duration of a loaded session *)

Lemma typed_session_date (d : dict) (k k' : string) :
  typed_session d ->
  (forall v, meta_typed k v = is_date v) ->
  (forall v, meta_typed k' v = false) ->
  session._parse_iso (py_or (dget d k VNone) (dget d k' VNone)) = meta_date d k.
Proof.
  intros Hd Hk Hk'. unfold dget, meta_date.
  assert (d !! k' = None) as ->.
  { destruct (d !! k') as [v|] eqn:E'; [|reflexivity].
    specialize (Hd k' v E'). cbn beta in Hd. rewrite Hk' in Hd. discriminate. }
  destruct (d !! k) as [v|] eqn:E; [|reflexivity].
  specialize (Hd k v E). cbn beta in Hd. rewrite Hk in Hd.
  destruct v; try discriminate; reflexivity.
Qed.

Lemma sub_same_kind (s e : DT.datetime) :
  same_kind s e -> DT.sub e s = Ok (instant_us e - instant_us s).
Proof.
  unfold same_kind, DT.sub, instant_us, DT.utc_us. intros [H1 H2].
  destruct (DT.utcoffset s), (DT.utcoffset e); cbn [default from_option id].
  - reflexivity.
  - specialize (H2 eq_refl). discriminate.
  - specialize (H1 eq_refl). discriminate.
  - f_equal. lia.
Qed.

Lemma sub_mixed (s e : DT.datetime) :
  ~ same_kind s e ->
  DT.sub e s = Raise (TypeError "can't subtract offset-naive and offset-aware datetimes").
Proof.
  unfold same_kind, DT.sub. intros H.
  destruct (DT.utcoffset s), (DT.utcoffset e); try reflexivity; exfalso; apply H;
    split; congruence.
Qed.

(** X17: the start and the end of a loaded session are the instants the
    loader stored for the [Start Time] and [End Time] lines of the summary.
    Its duration is 0.0 when either is missing or was unreadable, the seconds
    from start to end when both name a zone or neither does, and a
    [TypeError] when one names a zone and the other does not. *)
Theorem X17_loaded_session_duration (zip_path : string) (z : ZipFile)
    (folder content : string) :
  valid_archive z folder content ->
  exists r,
    load_from_zip zip_path z = Ok r
    /\ session.RecordingSession.start_date r
       = meta_date (fst (_parse_session_info content)) "startDate"
    /\ session.RecordingSession.end_date r
       = meta_date (fst (_parse_session_info content)) "endDate"
    /\ session.RecordingSession.duration_seconds r
       = match session.RecordingSession.start_date r, session.RecordingSession.end_date r with
         | Some s, Some e =>
             if bool_decide (same_kind s e)
             then Ok (DT.total_seconds (instant_us e - instant_us s))
             else Raise (TypeError "can't subtract offset-naive and offset-aware datetimes")
         | _, _ => Ok (Num.of_Z 0)
         end.
Proof.
  intros (Hf & Hr & Hrows).
  destruct (load_succeeds zip_path z folder content Hf Hr Hrows) as [r Hload].
  destruct (load_from_zip_inv _ _ _ Hload) as (D & recs & HD & _ & _ & Hraw).
  pose proof (session_dict_typed _ _ _ HD) as Htyped.
  destruct (session_dict_inv _ _ _ HD) as (folder' & content' & recs' & Hf' & Hr' & _ & HDeq).
  rewrite Hf in Hf'. injection Hf' as <-. rewrite Hr in Hr'. injection Hr' as <-.
  assert (forall k, k <> "sensorRecordings" -> k <> "id" -> k <> "name" ->
            meta_date D k = meta_date (fst (_parse_session_info content)) k) as Hsame.
  { intros k H1 H2 H3. unfold meta_date. rewrite HDeq.
    rewrite lookup_insert_ne by congruence. unfold default_identity.
    rewrite !setdefault_lookup_ne by congruence. reflexivity. }
  exists r. split; [exact Hload|].
  assert (session.RecordingSession.start_date r
          = meta_date (fst (_parse_session_info content)) "startDate") as Hstart.
  { unfold session.RecordingSession.start_date. rewrite Hraw.
    rewrite (typed_session_date D "startDate" "start_date" Htyped
               (fun _ => eq_refl) (fun _ => eq_refl)).
    apply Hsame; discriminate. }
  assert (session.RecordingSession.end_date r
          = meta_date (fst (_parse_session_info content)) "endDate") as Hend.
  { unfold session.RecordingSession.end_date. rewrite Hraw.
    rewrite (typed_session_date D "endDate" "end_date" Htyped
               (fun _ => eq_refl) (fun _ => eq_refl)).
    apply Hsame; discriminate. }
  split; [exact Hstart|]. split; [exact Hend|].
  unfold session.RecordingSession.duration_seconds.
  destruct (session.RecordingSession.start_date r) as [s|]; [|reflexivity].
  destruct (session.RecordingSession.end_date r) as [e|]; [|reflexivity].
  destruct (bool_decide (same_kind s e)) eqn:E.
  - apply bool_decide_eq_true in E. rewrite (sub_same_kind s e E). reflexivity.
  - apply bool_decide_eq_false in E. rewrite (sub_mixed s e E). reflexivity.
Qed.

Lemma X17_witness :
  exists r,
    load_from_zip "export.zip" fixture_archive = Ok r
    /\ session.RecordingSession.start_date r
       = meta_date (fst (_parse_session_info fixture_session_info)) "startDate"
    /\ session.RecordingSession.end_date r
       = meta_date (fst (_parse_session_info fixture_session_info)) "endDate"
    /\ session.RecordingSession.duration_seconds r
       = match session.RecordingSession.start_date r, session.RecordingSession.end_date r with
         | Some s, Some e =>
             if bool_decide (same_kind s e)
             then Ok (DT.total_seconds (instant_us e - instant_us s))
             else Raise (TypeError "can't subtract offset-naive and offset-aware datetimes")
         | _, _ => Ok (Num.of_Z 0)
         end.
Proof.
  exact (X17_loaded_session_duration "export.zip" fixture_archive
           "recording_testid123_csv" fixture_session_info fixture_valid).
Defined.

(** ** A key that occurs more than once *)

Lemma set_meta_field (m : dict) (key value f : string) :
  meta_field key = Some f -> set_meta m key value !! f = set_meta ∅ key value !! f.
Proof.
  unfold meta_field, set_meta.
  repeat match goal with
         | |- context [if String.eqb key ?k then _ else _] => destruct (String.eqb key k)
         end;
    intros H; try discriminate; injection H as <-; rewrite !lookup_insert_eq; reflexivity.
Qed.

Lemma set_meta_other (m : dict) (key value f : string) :
  meta_field key <> Some f -> set_meta m key value !! f = m !! f.
Proof.
  unfold meta_field, set_meta.
  repeat match goal with
         | |- context [if String.eqb key ?k then _ else _] => destruct (String.eqb key k)
         end;
    intros H; try reflexivity; apply lookup_insert_ne; congruence.
Qed.

Lemma psi_step_leaves (f : string) (st : psi_state) (line : string) :
  in_sensors st = false -> leaves_field f line ->
  meta (psi_step st line) !! f = meta st !! f.
Proof.
  intros Hin Hl. unfold psi_step. rewrite Hin.
  destruct (String.eqb (Str.strip line) ""); [reflexivity|].
  destruct (String.eqb (Str.strip line) "Sensors"); [reflexivity|].
  destruct (Str.find line ",") as [idx|] eqn:E; [|reflexivity].
  cbn [meta]. apply set_meta_other. apply Hl. exact E.
Qed.

Lemma psi_run_leaves (f : string) (lines : list string) : forall st,
  in_sensors st = false ->
  Forall (fun l => Str.strip l <> "Sensors") lines ->
  Forall (leaves_field f) lines ->
  meta (psi_run lines st) !! f = meta st !! f.
Proof.
  induction lines as [|l lines IH]; intros st Hin Hm Hl; [reflexivity|].
  inversion Hm as [|? ? Hm1 Hm2]; subst. inversion Hl as [|? ? Hl1 Hl2]; subst.
  unfold psi_run in *. cbn [fold_left].
  destruct (psi_step_key_mode st l Hin Hm1) as [Hin' _].
  rewrite (IH _ Hin' Hm2 Hl2). apply psi_step_leaves; assumption.
Qed.

Lemma key_lines_meta (content : string) (head : list string) :
  key_lines content head ->
  fst (_parse_session_info content) = meta (psi_run head psi_start).
Proof.
  intros (tail & Hlines & Hhead & Htail). unfold _parse_session_info. rewrite Hlines.
  cbn [fst]. rewrite fold_left_app.
  change (fold_left psi_step head (mkPsi ∅ [] false)) with (psi_run head psi_start).
  destruct tail as [|marker tail]; [reflexivity|].
  destruct (psi_run_key_mode head psi_start eq_refl Hhead) as [Hin _].
  cbn [fold_left].
  assert (psi_step (psi_run head psi_start) marker
          = mkPsi (meta (psi_run head psi_start)) (sensors_table (psi_run head psi_start)) true)
    as ->.
  { unfold psi_step. rewrite Htail. reflexivity. }
  change (fold_left psi_step tail ?s) with (psi_run tail s).
  apply (psi_run_table_mode tail (mkPsi _ _ true)). reflexivity.
Qed.

(** X18: among the lines of the summary before the sensor table, the last
    line of a key decides its metadata field: the field holds what that line
    alone gives, whatever lines come before it and whatever lines of other
    keys come after it. A field that no line before the table names stays
    absent. *)
Theorem X18_last_key_line_wins (content : string) (before after : list string)
    (key value f : string) :
  key_lines content (before ++ (key ++ "," ++ value) :: after) ->
  Str.find key "," = None ->
  meta_field (Str.strip key) = Some f ->
  Forall (leaves_field f) after ->
  fst (_parse_session_info content) !! f
  = set_meta ∅ (Str.strip key) (Str.strip value) !! f
  /\ forall content' head,
       key_lines content' head -> Forall (leaves_field f) head ->
       fst (_parse_session_info content') !! f = None.
Proof.
  intros Hlines Hkey Hfield Hafter. split.
  - rewrite (key_lines_meta _ _ Hlines). destruct Hlines as (_ & _ & Hmarks & _).
    apply Forall_app in Hmarks as [Hmb Hma]. inversion Hma as [|? ? _ Hma']; subst.
    unfold psi_run. rewrite fold_left_app. cbn [fold_left].
    change (fold_left psi_step before psi_start) with (psi_run before psi_start).
    destruct (psi_run_key_mode before psi_start eq_refl Hmb) as [Hin _].
    destruct (key_line_step key value Hkey (psi_run before psi_start) Hin) as [Hstep Hin'].
    change (fold_left psi_step after ?s) with (psi_run after s).
    rewrite (psi_run_leaves f after _ Hin' Hma' Hafter), Hstep.
    apply set_meta_field. exact Hfield.
  - intros content' head Hlines' Hhead. rewrite (key_lines_meta _ _ Hlines').
    destruct Hlines' as (_ & _ & Hmarks & _).
    apply (psi_run_leaves f head psi_start eq_refl Hmarks Hhead).
Qed.

Lemma X18_witness :
  fst (_parse_session_info renamed_info) !! "name"
  = set_meta ∅ (Str.strip "Recording Name") (Str.strip " second ") !! "name"
  /\ forall content' head,
       key_lines content' head -> Forall (leaves_field "name") head ->
       fst (_parse_session_info content') !! "name" = None.
Proof.
  apply (X18_last_key_line_wins renamed_info ["Recording Name,first"; "Session ID,abc"]
           ["Duration (seconds),12.5"; "no comma here"] "Recording Name" " second " "name").
  - exists ["Sensors"; "Recording Name,ABC123,60,60,72,45.20,38.70"].
    split; [vm_compute; reflexivity|]. split; [|vm_compute; reflexivity].
    repeat (apply List.Forall_cons; [vm_compute; discriminate|]). apply List.Forall_nil.
  - reflexivity.
  - reflexivity.
  - apply List.Forall_cons.
    + intros idx Hidx. vm_compute in Hidx. injection Hidx as <-. vm_compute. discriminate.
    + apply List.Forall_cons; [|apply List.Forall_nil].
      intros idx Hidx. vm_compute in Hidx. discriminate.
Defined.

(** ** Timestamps in the form of the exporting app *)

Lemma replace_fuel_at_end (c : ascii) (new : string) (a : string) : forall fuel,
  Str.find a c = None -> (String.length a < fuel)%nat ->
  Str.replace_fuel fuel (String c "") new (a ++ String c "") = a ++ new.
Proof.
  induction a as [|x a IH]; intros fuel Hf Hlen.
  - destruct fuel as [|fuel]; [cbn in Hlen; lia|].
    rewrite !str_app_nil. cbn [Str.replace_fuel Str.startswith]. rewrite Ascii.eqb_refl.
    cbn [String.length Str.drop]. rewrite replace_fuel_empty. apply str_app_nil_r.
  - destruct fuel as [|fuel]; [cbn in Hlen; lia|].
    apply find_cons_none in Hf as [Hx Ha]. rewrite !str_app_cons.
    cbn [Str.replace_fuel Str.startswith]. rewrite (Ascii.eqb_sym c x), Hx.
    rewrite IH by (cbn in Hlen; try assumption; lia). reflexivity.
Qed.

Lemma replace_at_end (c : ascii) (new a : string) :
  Str.find a c = None ->
  Str.replace (String c "") new (a ++ String c "") = a ++ new.
Proof.
  intros Hf. unfold Str.replace. apply replace_fuel_at_end; [exact Hf|].
  rewrite str_length_app. cbn. lia.
Qed.

Lemma rstrip_keeps_end (c : ascii) (a : string) :
  Str.isspace c = false -> Str.rstrip (a ++ String c "") = a ++ String c "".
Proof.
  intros Hc. induction a as [|x a IH].
  - rewrite str_app_nil. cbn. rewrite Hc. reflexivity.
  - rewrite str_app_cons. cbn [Str.rstrip]. rewrite IH.
    destruct a; reflexivity.
Qed.

Lemma isdigit_not_space (c : ascii) : Str.isdigit c = true -> Str.isspace c = false.
Proof.
  destruct c as [[] [] [] [] [] [] [] []]; intros H; try discriminate H; reflexivity.
Qed.

Lemma pad_head (w : nat) (n : Z) :
  exists c rest, DT.pad (S w) n = String c rest /\ Str.isdigit c = true.
Proof.
  pose proof (pad_length (S w) n) as Hlen. pose proof (pad_all_digits (S w) n) as Hall.
  destruct (DT.pad (S w) n) as [|c rest]; [discriminate|].
  exists c, rest. split; [reflexivity|]. cbn in Hall. apply andb_true_iff in Hall. tauto.
Qed.

Lemma parse_fraction_millis (ms : Z) :
  0 <= ms < 1000 -> DT.parse_fraction ("." ++ DT.pad 3 ms) = Some (ms * 1000).
Proof.
  intros Hms. change ("." ++ DT.pad 3 ms) with (String "." (DT.pad 3 ms)).
  unfold DT.parse_fraction. cbn [Ascii.eqb Bool.eqb negb].
  rewrite pad_all_digits, pad_length. cbn [negb Nat.eqb].
  rewrite pad_value. change (10 ^ Z.of_nat 3) with 1000.
  rewrite Z.mod_small by exact Hms. f_equal.
Qed.

(** X19: a UTC instant in the text form of the exporting app, with a
    millisecond fraction or without fraction and with the suffix [Z], is read
    by both timestamp parsers as that instant with offset zero: the suffix is
    rewritten to [+00:00] before [fromisoformat] sees the text. *)
Theorem X19_app_timestamp_is_utc_instant (d : DT.datetime) (millis : bool) :
  DT.valid d = true ->
  DT.utcoffset d = Some 0 ->
  fraction_exact d millis ->
  zip_loader._parse_iso (utc_text d millis) = Some d
  /\ session._parse_iso (VStr (utc_text d millis)) = Some d.
Proof.
  intros Hv Hz Hfr.
  pose proof (valid_fields d Hv) as (_ & _ & _ & _ & _ & _ & Hus & _).
  set (fr := if millis then "." ++ DT.pad 3 (DT.microsecond d / 1000) else "").
  set (P := (DT.pad 4 (DT.year d) ++ "-" ++ DT.pad 2 (DT.month d) ++ "-" ++ DT.pad 2 (DT.day d))
            ++ String "T"
                 (DT.pad 2 (DT.hour d) ++ ":" ++ DT.pad 2 (DT.minute d) ++ ":"
                  ++ DT.pad 2 (DT.second d) ++ fr)).
  assert (utc_text d millis = P ++ "Z") as Htext.
  { unfold utc_text, P. fold fr.
    generalize (DT.pad 4 (DT.year d)), (DT.pad 2 (DT.month d)), (DT.pad 2 (DT.day d)),
      (DT.pad 2 (DT.hour d)), (DT.pad 2 (DT.minute d)), (DT.pad 2 (DT.second d)), fr.
    intros A B C h mi s f.
    change (String "T" (h ++ ":" ++ mi ++ ":" ++ s ++ f))
      with ("T" ++ h ++ ":" ++ mi ++ ":" ++ s ++ f).
    rewrite (str_app_assoc (A ++ "-" ++ B ++ "-" ++ C)).
    rewrite (str_app_assoc A), (str_app_assoc "-"), (str_app_assoc B), (str_app_assoc "-").
    rewrite (str_app_assoc "T"), (str_app_assoc h), (str_app_assoc ":"),
      (str_app_assoc mi), (str_app_assoc ":"), (str_app_assoc s).
    reflexivity. }
  assert (DT.parse_fraction fr = Some (DT.microsecond d)) as Hparse.
  { unfold fr, fraction_exact in *. destruct millis.
    - rewrite parse_fraction_millis.
      + f_equal. pose proof (Z.div_mod (DT.microsecond d) 1000). lia.
      + split; [apply Z.div_pos | apply Z.div_lt_upper_bound]; lia.
    - rewrite Hfr. reflexivity. }
  assert (forall x, Str.isdigit x = false -> Ascii.eqb "." x = false -> Str.find fr x = None)
    as Hfind.
  { intros x Hx Hdot. unfold fr. destruct millis; [|reflexivity].
    change ("." ++ DT.pad 3 (DT.microsecond d / 1000))
      with (String "." (DT.pad 3 (DT.microsecond d / 1000))).
    cbn [Str.find]. rewrite Hdot, find_pad by exact Hx. reflexivity. }
  assert (Str.find P "Z" = None) as HnoZ.
  { unfold P. rewrite find_app, find_app, find_pad by reflexivity.
    change ("-" ++ DT.pad 2 (DT.month d) ++ "-" ++ DT.pad 2 (DT.day d))
      with (String "-" (DT.pad 2 (DT.month d) ++ String "-" (DT.pad 2 (DT.day d)))).
    cbn [Str.find Ascii.eqb Bool.eqb]. rewrite find_app, find_pad by reflexivity.
    cbn [Str.find Ascii.eqb Bool.eqb]. rewrite find_pad by reflexivity.
    cbn [fmap option_fmap option_map].
    rewrite find_clock; [reflexivity | reflexivity | reflexivity |].
    apply Hfind; reflexivity. }
  assert (session._parse_iso (VStr (P ++ "Z")) = Some d) as Hsession.
  { unfold session._parse_iso. rewrite (replace_at_end "Z" "+00:00" P HnoZ).
    assert (P ++ "+00:00"
            = (DT.pad 4 (DT.year d) ++ "-" ++ DT.pad 2 (DT.month d) ++ "-"
               ++ DT.pad 2 (DT.day d))
              ++ String "T"
                   ((DT.pad 2 (DT.hour d) ++ ":" ++ DT.pad 2 (DT.minute d) ++ ":"
                     ++ DT.pad 2 (DT.second d) ++ fr)
                    ++ match DT.utcoffset d with
                       | Some o => DT.format_offset o
                       | None => ""
                       end)) as ->.
    { rewrite Hz. change (DT.format_offset 0) with "+00:00". unfold P.
      rewrite str_app_assoc. reflexivity. }
    apply fromisoformat_text; [exact Hv | exact Hparse | |]; apply Hfind; reflexivity. }
  assert (Str.strip (P ++ "Z") = P ++ "Z") as Hstrip.
  { unfold Str.strip.
    destruct (pad_head 3 (DT.year d)) as (c & rest & Hpad & Hc).
    assert (exists t, P ++ "Z" = String c t) as [t Ht].
    { unfold P. rewrite Hpad. eexists. rewrite !str_app_cons. reflexivity. }
    assert (Str.lstrip (P ++ "Z") = P ++ "Z") as ->.
    { rewrite Ht. cbn [Str.lstrip]. rewrite (isdigit_not_space c Hc). reflexivity. }
    apply rstrip_keeps_end. reflexivity. }
  rewrite Htext. split; [|exact Hsession].
  rewrite parse_iso_strip, Hstrip. exact Hsession.
Qed.

Lemma X19_witness :
  zip_loader._parse_iso (utc_text (DT.mk 2024 5 15 19 30 0 100000 (Some 0)) true)
  = Some (DT.mk 2024 5 15 19 30 0 100000 (Some 0))
  /\ session._parse_iso (VStr (utc_text (DT.mk 2024 5 15 19 30 0 100000 (Some 0)) true))
     = Some (DT.mk 2024 5 15 19 30 0 100000 (Some 0)).
Proof.
  apply (X19_app_timestamp_is_utc_instant (DT.mk 2024 5 15 19 30 0 100000 (Some 0)) true).
  - reflexivity.
  - reflexivity.
  - reflexivity.
Defined.

(** ** The base URL of the client *)

Lemma rstrip_char_one (c : ascii) (s : string) :
  Str.rstrip_char c (s ++ String c "") = Str.rstrip_char c s.
Proof.
  induction s as [|a s IH].
  - rewrite str_app_nil. cbn. rewrite Ascii.eqb_refl. reflexivity.
  - rewrite str_app_cons. cbn [Str.rstrip_char]. rewrite IH. reflexivity.
Qed.

Lemma rstrip_char_slashes (t : string) : forall s,
  only_slashes t = true -> Str.rstrip_char "/" (s ++ t) = Str.rstrip_char "/" s.
Proof.
  induction t as [|c t IH]; intros s Ht; [rewrite str_app_nil_r; reflexivity|].
  cbn [only_slashes] in Ht. apply andb_true_iff in Ht as [Hc Ht]. apply Ascii.eqb_eq in Hc.
  subst c. change (String "/" t) with (String "/" "" ++ t).
  rewrite <- str_app_assoc, (IH _ Ht). apply rstrip_char_one.
Qed.

Lemma rstrip_char_no_end (c : ascii) (s : string) : forall p,
  Str.rstrip_char c s <> p ++ String c "".
Proof.
  induction s as [|a s IH]; intros p.
  - cbn. destruct p; discriminate.
  - cbn [Str.rstrip_char]. destruct (Str.rstrip_char c s) as [|b r] eqn:E.
    + destruct (Ascii.eqb a c) eqn:Ea; [destruct p; discriminate|].
      destruct p as [|x p]; [|destruct p; discriminate].
      rewrite str_app_nil. intros H. injection H as ->. rewrite Ascii.eqb_refl in Ea.
      discriminate.
    + destruct p as [|x p]; [rewrite str_app_nil; discriminate|].
      rewrite str_app_cons. intros H. injection H as _ H. exact (IH p H).
Qed.

Lemma rstrip_char_rest (c : ascii) (s : string) :
  exists t, s = Str.rstrip_char c s ++ t
            /\ forall x, Str.find t x <> None -> x = c.
Proof.
  induction s as [|a s (t & Hs & Ht)].
  - exists "". split; [reflexivity|]. intros x H. exfalso. apply H. reflexivity.
  - cbn [Str.rstrip_char]. destruct (Str.rstrip_char c s) as [|b r] eqn:E.
    + destruct (Ascii.eqb a c) eqn:Ea.
      * apply Ascii.eqb_eq in Ea. subst a. exists (String c s). split; [reflexivity|].
        intros x. cbn [Str.find]. rewrite str_app_nil in Hs. rewrite Hs.
        destruct (Ascii.eqb c x) eqn:Ex; [apply Ascii.eqb_eq in Ex; auto|].
        intros H. apply Ht. destruct (Str.find t x); [discriminate | exact H].
      * exists s. split; [reflexivity|]. rewrite str_app_nil in Hs. rewrite Hs. exact Ht.
    + exists t. split; [|exact Ht]. rewrite str_app_cons. f_equal. exact Hs.
Qed.

(** X20: the client drops every trailing slash of the base URL and nothing
    else, so a base URL with or without trailing slashes addresses the same
    recordings: the list and every recording are fetched from the same URL,
    which has a single slash before [recordings], and both calls give the same
    result. *)
Theorem X20_trailing_slashes_ignored (get_json : string -> result pyval)
    (base_url slashes : string) :
  only_slashes slashes = true ->
  client._normalize_base_url (base_url ++ slashes) = client._normalize_base_url base_url
  /\ client.list_recordings get_json (base_url ++ slashes)
     = client.list_recordings get_json base_url
  /\ (forall recording_id,
        client.get_recording get_json recording_id (base_url ++ slashes)
        = client.get_recording get_json recording_id base_url)
  /\ (forall p, client._normalize_base_url base_url <> p ++ "/")
  /\ exists t, base_url = client._normalize_base_url base_url ++ t
               /\ forall x, Str.find t x <> None -> x = "/"%char.
Proof.
  intros Hs.
  assert (client._normalize_base_url (base_url ++ slashes)
          = client._normalize_base_url base_url) as Hn
    by (apply rstrip_char_slashes; exact Hs).
  split; [exact Hn|]. split; [|split; [|split]].
  - unfold client.list_recordings, client.recordings_url. rewrite Hn. reflexivity.
  - intros id. unfold client.get_recording, client.recording_url. rewrite Hn. reflexivity.
  - apply rstrip_char_no_end.
  - apply rstrip_char_rest.
Qed.

Lemma X20_witness :
  client._normalize_base_url ("http://localhost:8080" ++ "//")
  = client._normalize_base_url "http://localhost:8080"
  /\ client.list_recordings no_recordings ("http://localhost:8080" ++ "//")
     = client.list_recordings no_recordings "http://localhost:8080"
  /\ (forall recording_id,
        client.get_recording no_recordings recording_id ("http://localhost:8080" ++ "//")
        = client.get_recording no_recordings recording_id "http://localhost:8080")
  /\ (forall p, client._normalize_base_url "http://localhost:8080" <> p ++ "/")
  /\ exists t, "http://localhost:8080" = client._normalize_base_url "http://localhost:8080" ++ t
               /\ forall x, Str.find t x <> None -> x = "/"%char.
Proof.
  apply (X20_trailing_slashes_ignored no_recordings "http://localhost:8080" "//").
  reflexivity.
Defined.

(** ** A sensor name in quotes *)

Lemma string_of_rev_cons (c : ascii) (cur : list ascii) :
  string_of_list_ascii (rev (c :: cur)) = string_of_list_ascii (rev cur) ++ String c "".
Proof.
  cbn [rev]. generalize (rev cur). intros l. induction l as [|x l IH]; [reflexivity|].
  cbn [app string_of_list_ascii]. rewrite str_app_cons, <- IH. reflexivity.
Qed.

(** Inside an unquoted field every character but the comma is kept. *)
Lemma csv_in_field (f : string) : forall cur rest,
  Str.find f "," = None ->
  csv_fields IN_FIELD cur (f ++ String "," rest)
  = (save_field cur ++ f) :: csv_fields START_FIELD [] rest
  /\ csv_fields IN_FIELD cur f = [save_field cur ++ f].
Proof.
  induction f as [|x f IH]; intros cur rest Hf.
  - rewrite str_app_nil, str_app_nil_r. split; reflexivity.
  - apply find_cons_none in Hf as [Hx Hf']. rewrite str_app_cons.
    cbn [csv_fields]. rewrite Hx.
    destruct (IH (x :: cur) rest Hf') as [H1 H2]. rewrite H1, H2.
    unfold save_field. rewrite string_of_rev_cons, str_app_assoc. split; reflexivity.
Qed.

Lemma csv_plain_field (f rest : string) :
  plain_field f ->
  csv_fields START_FIELD [] (f ++ String "," rest) = f :: csv_fields START_FIELD [] rest
  /\ csv_fields START_FIELD [] f = [f].
Proof.
  intros [Hf Hq]. destruct f as [|x f].
  - rewrite str_app_nil. split; reflexivity.
  - apply find_cons_none in Hf as [Hx Hf']. rewrite str_app_cons.
    cbn [Str.startswith] in Hq. rewrite startswith_empty, (Ascii.eqb_sym quotechar x) in Hq.
    assert (Ascii.eqb x quotechar = false) as Hxq
      by (destruct (Ascii.eqb x quotechar); [discriminate Hq | reflexivity]).
    cbn [csv_fields]. rewrite Hxq, Hx.
    destruct (csv_in_field f [x] rest Hf') as [H1 H2]. rewrite H1, H2. split; reflexivity.
Qed.

(** Inside quotes every character but the quote is kept, commas included. *)
Lemma csv_in_quoted (f : string) : forall cur rest,
  Str.find f quotechar = None ->
  csv_fields IN_QUOTED_FIELD cur (f ++ String quotechar (String "," rest))
  = (save_field cur ++ f) :: csv_fields START_FIELD [] rest.
Proof.
  induction f as [|x f IH]; intros cur rest Hf.
  - rewrite str_app_nil, str_app_nil_r. reflexivity.
  - apply find_cons_none in Hf as [Hx Hf']. rewrite str_app_cons.
    cbn [csv_fields]. rewrite Hx, (IH (x :: cur) rest Hf').
    unfold save_field. rewrite string_of_rev_cons, str_app_assoc. reflexivity.
Qed.

Lemma csv_quoted_field (f rest : string) :
  Str.find f quotechar = None ->
  csv_fields START_FIELD [] (quoted f ++ String "," rest) = f :: csv_fields START_FIELD [] rest.
Proof.
  intros Hf. unfold quoted. rewrite str_app_cons, str_app_assoc.
  change (String quotechar "" ++ String "," rest) with (String quotechar (String "," rest)).
  cbn [csv_fields Ascii.eqb Bool.eqb quotechar].
  apply (csv_in_quoted f [] rest Hf).
Qed.

Lemma quoted_row_fields (sid name a b c d e : string) :
  plain_field sid -> Str.find name quotechar = None ->
  plain_field a -> plain_field b -> plain_field c -> plain_field d -> plain_field e ->
  fields_of (quoted_row_line sid name a b c d e) = [sid; name; a; b; c; d; e].
Proof.
  intros Hsid Hname Ha Hb Hc Hd He. unfold fields_of, quoted_row_line.
  change ("," ++ quoted name ++ "," ++ a ++ "," ++ b ++ "," ++ c ++ "," ++ d ++ "," ++ e)
    with (String "," (quoted name ++ String "," (a ++ String "," (b ++ String ","
            (c ++ String "," (d ++ String "," e)))))).
  rewrite (proj1 (csv_plain_field sid _ Hsid)), (csv_quoted_field name _ Hname),
    (proj1 (csv_plain_field a _ Ha)), (proj1 (csv_plain_field b _ Hb)),
    (proj1 (csv_plain_field c _ Hc)), (proj1 (csv_plain_field d _ Hd)),
    (proj2 (csv_plain_field e "" He)).
  reflexivity.
Qed.

(** X21: a line of the sensor table whose name stands in double quotes gives
    one sensor row with that name, its commas and inner spaces kept
    (surrounding white space is stripped), the first field as id and the last
    five as sample counts and metrics. *)
Theorem X21_quoted_name_keeps_commas (st : psi_state) (sid name a b c d e : string) :
  in_sensors st = true ->
  plain_field sid -> Str.find name quotechar = None ->
  plain_field a -> plain_field b -> plain_field c -> plain_field d -> plain_field e ->
  (Str.contains (quoted_row_line sid name a b c d e) "Sensor ID"
   && Str.contains (quoted_row_line sid name a b c d e) "Sensor Name") = false ->
  psi_step st (quoted_row_line sid name a b c d e)
  = mkPsi (meta st)
      (sensors_table st
       ++ [mkRow None (Str.strip sid) (Str.strip name)
             (_int a) (_int b) (_float c) (_float d) (_float e)])
      true.
Proof.
  intros Hin Hsid Hname Ha Hb Hc Hd He Hheader.
  pose proof (quoted_row_fields sid name a b c d e Hsid Hname Ha Hb Hc Hd He) as Hfields.
  unfold fields_of in Hfields.
  assert (Str.find (quoted_row_line sid name a b c d e) "," <> None) as Hcomma.
  { unfold quoted_row_line.
    assert (Str.find (sid ++ "," ++ quoted name ++ "," ++ a ++ "," ++ b ++ "," ++ c ++ ","
                      ++ d ++ "," ++ e) "," = Some (String.length sid)) as ->
      by apply (find_app_sep "," sid _ (proj1 Hsid)).
    discriminate. }
  assert (Str.find (Str.strip (quoted_row_line sid name a b c d e)) "," <> None) as Hkeep
    by (apply strip_keeps; [reflexivity | exact Hcomma]).
  unfold psi_step.
  destruct (String.eqb (Str.strip (quoted_row_line sid name a b c d e)) "") eqn:E1.
  { apply String.eqb_eq in E1. rewrite E1 in Hkeep. exfalso. apply Hkeep. reflexivity. }
  destruct (String.eqb (Str.strip (quoted_row_line sid name a b c d e)) "Sensors") eqn:E2.
  { apply String.eqb_eq in E2. rewrite E2 in Hkeep. exfalso. apply Hkeep. reflexivity. }
  rewrite Hin, Hheader. unfold csv_reader.
  destruct (quoted_row_line sid name a b c d e) as [|x l] eqn:El.
  { exfalso. apply Hcomma. reflexivity. }
  rewrite Hfields. reflexivity.
Qed.

Lemma X21_witness :
  psi_step (mkPsi ∅ [] true)
    (quoted_row_line "ABC123" "My, Polar Strap" "60" "60" "72" "45.20" "38.70")
  = mkPsi (meta (mkPsi ∅ [] true))
      (sensors_table (mkPsi ∅ [] true)
       ++ [mkRow None (Str.strip "ABC123") (Str.strip "My, Polar Strap")
             (_int "60") (_int "60") (_float "72") (_float "45.20") (_float "38.70")])
      true.
Proof.
  apply (X21_quoted_name_keeps_commas (mkPsi ∅ [] true)
           "ABC123" "My, Polar Strap" "60" "60" "72" "45.20" "38.70").
  - reflexivity.
  - split; reflexivity.
  - reflexivity.
  - split; reflexivity.
  - split; reflexivity.
  - split; reflexivity.
  - split; reflexivity.
  - split; reflexivity.
  - vm_compute. reflexivity.
Defined.

(** ** From the statistics file to the accessors *)

Lemma set_stat_entry (stats : dict) (key value : string) :
  set_stat stats key value
  = match stat_entry key value with
    | Some (f, v) => <[f := v]> stats
    | None => stats
    end.
Proof.
  unfold set_stat, stat_entry, set_if.
  repeat match goal with
         | |- context [if String.eqb key ?k then _ else _] => destruct (String.eqb key k)
         end;
    try reflexivity;
    first [ destruct (Num.parse_float value); reflexivity
          | destruct (Num.parse_int value); reflexivity ].
Qed.

Lemma stat_step_entry (stats : dict) (line : string) :
  stat_step stats line
  = match line_entry line with
    | Some (f, v) => <[f := v]> stats
    | None => stats
    end.
Proof.
  unfold stat_step, line_entry. destruct (Str.find line ","); [apply set_stat_entry | reflexivity].
Qed.

Lemma stat_fold_keeps (f : string) (lines : list string) : forall stats,
  Forall (writes_no f) lines -> fold_left stat_step lines stats !! f = stats !! f.
Proof.
  induction lines as [|l lines IH]; intros stats Hl; [reflexivity|].
  inversion Hl as [|? ? H1 H2]; subst. cbn [fold_left]. rewrite (IH _ H2), stat_step_entry.
  destruct (line_entry l) as [[f' v']|] eqn:E; [|reflexivity].
  apply lookup_insert_ne. intros ->. exact (H1 v' E).
Qed.

(** X22: the statistics of a sensor come from the last line of the
    statistics file that writes them: a line after the header that writes an
    entry, followed only by lines that write nothing under its key (lines of
    other keys, lines without comma, lines of the same key whose number does
    not read), leaves that entry in the statistics, and the accessor of the
    sensor for that key reads it. *)
Theorem X22_last_readable_statistic_is_reported (content header line : string)
    (before after : list string) (f : string) (v : pyval) :
  Str.splitlines (Str.strip content) = header :: (before ++ line :: after)%list ->
  line_entry line = Some (f, v) ->
  Forall (writes_no f) after ->
  _read_statistics_csv content !! f = Some v
  /\ forall s,
       session.SensorData.statistics s = Ok (_read_statistics_csv content) ->
       accessor_reads s f v.
Proof.
  intros Hlines Hline Hafter.
  assert (_read_statistics_csv content !! f = Some v) as Hlook.
  { unfold _read_statistics_csv. rewrite Hlines.
    assert ((length (header :: (before ++ line :: after)%list) <? 2)%nat = false) as ->.
    { apply Nat.ltb_ge. cbn [length]. rewrite length_app. cbn [length]. lia. }
    change (drop 1 (header :: (before ++ line :: after)%list))
      with (before ++ line :: after)%list.
    rewrite fold_left_app. cbn [fold_left].
    rewrite (stat_fold_keeps f after _ Hafter), stat_step_entry, Hline.
    apply lookup_insert_eq. }
  split; [exact Hlook|].
  intros s Hs. unfold accessor_reads, session.SensorData.heart_rate_min,
    session.SensorData.heart_rate_max, session.SensorData.heart_rate_avg,
    session.SensorData.sdnn, session.SensorData.rmssd, session.SensorData.hrv_window,
    session.SensorData.hrv_sample_count.
  rewrite Hs. cbn [mbind result_bind]. unfold dget.
  repeat split; intros ->; rewrite Hlook; reflexivity.
Qed.

Lemma X22_witness :
  _read_statistics_csv twice_averaged_statistics !! "averageHeartRate" = Some (VInt 72)
  /\ forall s,
       session.SensorData.statistics s = Ok (_read_statistics_csv twice_averaged_statistics) ->
       accessor_reads s "averageHeartRate" (VInt 72).
Proof.
  apply (X22_last_readable_statistic_is_reported twice_averaged_statistics "Metric,Value"
           "Average Heart Rate (BPM),72" []
           ["Average Heart Rate (BPM),72.5"; "SDNN (ms),45.20"]).
  - vm_compute. reflexivity.
  - vm_compute. reflexivity.
  - apply List.Forall_cons; [intros v; vm_compute; discriminate|].
    apply List.Forall_cons; [intros v; vm_compute; discriminate|].
    apply List.Forall_nil.
Defined.
